(** * Session ledger and post-session processor of the realtime AI backend

    A shallow embedding of [database.py] (class [DatabaseManager]), of
    [session_processor.py] (class [SessionProcessor]) and of the tools and
    the WebSocket endpoint of [main.py].

    The record store (Supabase), the wall clock and the summarization
    provider are external collaborators.  They are modelled by an explicit
    [World]: the two tables, a schedule that says which of the coming store
    calls fail, the reading of [datetime.utcnow()], and the list of prompts
    that reached the provider.  A connection adds the transport, with a
    schedule of the sends it refuses, and the two module-level handles
    that the endpoint uses.  Python code that may raise runs in a small
    state-and-exception monad over that world.  [print] writes to the
    operator's console only and is left out. *)

From stdpp Require Import base option list strings gmap fin_maps pretty sorting.
From Stdlib Require Import ZArith Lia.

Local Open Scope Z_scope.

(** ** Python values *)

(** The free-form payloads ([Dict[str, Any]]) that travel through the
    ledger: JSON-like values without floats (no code path computes with the
    payload, it is stored and read back).  A [dict] keeps insertion order,
    as Python's does.  A Python [str] is a [string], one character per
    code point, so that [len] is [String.length]. *)
#[warnings="-register-all"]
Inductive pyval : Type :=
  | PNone
  | PBool (b : bool)
  | PInt (z : Z)
  | PStr (s : string)
  | PList (l : list pyval)
  | PDict (d : list (string * pyval)).

Definition dict (V : Type) : Type := list (string * V).

(** [d.get(k)]. *)
Fixpoint dict_lookup {V} (k : string) (d : dict V) : option V :=
  match d with
  | [] => None
  | (k', v) :: d' => if String.eqb k k' then Some v else dict_lookup k d'
  end.

(** [d.get(k, default)]. *)
Definition dict_get {V} (k : string) (default : V) (d : dict V) : V :=
  match dict_lookup k d with
  | Some v => v
  | None => default
  end.

(** [d[k] = v]: an existing key keeps its place, a new key goes last. *)
Fixpoint dict_set {V} (k : string) (v : V) (d : dict V) : dict V :=
  match d with
  | [] => [(k, v)]
  | (k', v') :: d' =>
      if String.eqb k k' then (k', v) :: d' else (k', v') :: dict_set k v d'
  end.

(** ** Rows of the two tables *)

Inductive Status : Type := active | completed | summarized.

Global Instance Status_eq_dec : EqDecision Status.
Proof. solve_decision. Defined.

(** A timestamp is an instant in microseconds (the resolution of
    [datetime]); the store keeps its ISO-8601 text, which
    [datetime.fromisoformat] reads back to the same instant. *)
Definition datetime : Type := Z.

Record Session : Type := mkSession {
  session_id : string;
  user_id : string;
  start_time : datetime;
  end_time : option datetime;
  duration_seconds : option Z;
  summary : option string;
  status : Status
}.

Record Event : Type := mkEvent {
  ev_session_id : string;
  event_type : string;
  timestamp : datetime;
  data : dict pyval;
  metadata : dict pyval
}.

(** A conversation message, as [get_conversation_history] builds it. *)
Record Message : Type := mkMessage {
  role : string;
  content : pyval;
  msg_timestamp : datetime
}.

(** ** The world outside the process *)

Record World : Type := mkWorld {
  sessions : gmap string Session;      (* table "sessions", key session_id *)
  session_events : list Event;         (* table "session_events", insertion order *)
  faults : list bool;                  (* outcome of the coming store calls: true = it raises *)
  clock : datetime;                    (* what datetime.utcnow() reads *)
  llm_calls : list string              (* prompts sent to the summarization provider *)
}.

Definition set_sessions (f : gmap string Session → gmap string Session) (w : World) : World :=
  mkWorld (f (sessions w)) (session_events w) (faults w) (clock w) (llm_calls w).

Definition set_session_events (f : list Event → list Event) (w : World) : World :=
  mkWorld (sessions w) (f (session_events w)) (faults w) (clock w) (llm_calls w).

Definition set_faults (fs : list bool) (w : World) : World :=
  mkWorld (sessions w) (session_events w) fs (clock w) (llm_calls w).

Definition set_clock (t : datetime) (w : World) : World :=
  mkWorld (sessions w) (session_events w) (faults w) t (llm_calls w).

Definition add_llm_call (p : string) (w : World) : World :=
  mkWorld (sessions w) (session_events w) (faults w) (clock w) (llm_calls w ++ [p]).

(** The store answers every call of a world with no scheduled fault. *)
Definition store_up (w : World) : Prop := faults w = [].

(** ** Exceptions and the monad *)

Inductive exn : Type :=
  | ValueError (msg : string)
  | TypeError (msg : string)
  | APIError (msg : string)          (* raised by the store client *)
  | ProviderError (msg : string).    (* raised by the summarization client *)

(** [str(e)]. *)
Definition str_exn (e : exn) : string :=
  match e with
  | ValueError m | TypeError m | APIError m | ProviderError m => m
  end.

Inductive result (A : Type) : Type :=
  | Ok (a : A)
  | Raise (e : exn).
Arguments Ok {A} a.
Arguments Raise {A} e.

Definition M (A : Type) : Type := World → result A * World.

Definition ret {A} (a : A) : M A := λ w, (Ok a, w).

Definition bind {A B} (m : M A) (k : A → M B) : M B :=
  λ w, match m w with
       | (Ok a, w') => k a w'
       | (Raise e, w') => (Raise e, w')
       end.

Definition raise {A} (e : exn) : M A := λ w, (Raise e, w).

(** [try: m except Exception as e: h e]. *)
Definition try_catch {A} (m : M A) (h : exn → M A) : M A :=
  λ w, match m w with
       | (Ok a, w') => (Ok a, w')
       | (Raise e, w') => h e w'
       end.

Definition get_world : M World := λ w, (Ok w, w).
Definition modify_world (f : World → World) : M unit := λ w, (Ok tt, f w).

Global Instance M_ret : MRet M := @ret.
Global Instance M_bind : MBind M := λ A B k m, bind m k.

(** [datetime.utcnow()]. *)
Definition utcnow : M datetime := λ w, (Ok (clock w), w).

(** [asyncio.sleep(seconds)]: the clock moves on. *)
Definition sleep (seconds : Z) : M unit :=
  modify_world (λ w, set_clock (clock w + seconds * 1000000) w).

(** *** Further exceptions

    The analytics and the relay raise exceptions of further classes.
    [pyexn] adds them to the ones above, and [MX] is the monad of code
    that may raise them, over any state. *)

Inductive pyexn : Type :=
  | Builtin (e : exn)
  | AttributeError (msg : string)
  | KeyError (msg : string)
  | JSONDecodeError (msg : string)
  | WebSocketDisconnect
  | CompletionError (msg : string).   (* raised by the completion client *)

(** [str(e)]. *)
Definition str_pyexn (e : pyexn) : string :=
  match e with
  | Builtin e => str_exn e
  | AttributeError m | KeyError m | JSONDecodeError m | CompletionError m => m
  | WebSocketDisconnect => ""
  end.

Inductive resultx (A : Type) : Type :=
  | OkX (a : A)
  | RaiseX (e : pyexn).
Arguments OkX {A} a.
Arguments RaiseX {A} e.

Definition MX (S A : Type) : Type := S → resultx A * S.

Definition retx {S A} (a : A) : MX S A := λ s, (OkX a, s).

Definition bindx {S A B} (m : MX S A) (k : A → MX S B) : MX S B :=
  λ s, match m s with
       | (OkX a, s') => k a s'
       | (RaiseX e, s') => (RaiseX e, s')
       end.

Definition raisex {S A} (e : pyexn) : MX S A := λ s, (RaiseX e, s).

Global Instance MX_ret {S} : MRet (MX S) := λ A, retx.
Global Instance MX_bind {S} : MBind (MX S) := λ A B k m, bindx m k.

(** A value or an exception computed without the state. *)
Definition of_resultx {S A} (r : resultx A) : MX S A := λ s, (r, s).

(** Code of the ledger run where more exceptions are around. *)
Definition liftx {A} (m : M A) : MX World A :=
  λ w, match m w with
       | (Ok a, w') => (OkX a, w')
       | (Raise e, w') => (RaiseX (Builtin e), w')
       end.

(** [try: m except Exception as e: h e], for a body that returns
    normally from both branches. *)
Definition try_catchx {A} (m : MX World A) (h : pyexn → M A) : M A :=
  λ w, match m w with
       | (OkX a, w') => (Ok a, w')
       | (RaiseX e, w') => h e w'
       end.

(** [[f(x) for x in xs]], left to right, up to the first exception. *)
Fixpoint mapM {A B} (f : A → M B) (xs : list A) : M (list B) :=
  match xs with
  | [] => mret []
  | x :: xs' => y ← f x; ys ← mapM f xs'; mret (y :: ys)
  end.

Fixpoint mapx {A B} (f : A → resultx B) (xs : list A) : resultx (list B) :=
  match xs with
  | [] => OkX []
  | x :: xs' =>
      match f x with
      | RaiseX e => RaiseX e
      | OkX y =>
          match mapx f xs' with
          | RaiseX e => RaiseX e
          | OkX ys => OkX (y :: ys)
          end
      end
  end.

(** ** The record store client *)

(** [.execute()]: consult the fault schedule.  A failed call leaves the
    tables as they were. *)
Definition execute : M unit :=
  λ w, match faults w with
       | true :: fs => (Raise (APIError "store call failed"), set_faults fs w)
       | false :: fs => (Ok tt, set_faults fs w)
       | [] => (Ok tt, w)
       end.

(** Modelled from the spec: the schema of the two tables is not in the
    sources; "sessions" has primary key [session_id] and
    "session_events" refers to it by a foreign key (the one
    [delete_session] mentions). *)
Definition sessions_insert (row : Session) : M (list Session) :=
  _ ← execute;
  w ← get_world;
  match sessions w !! session_id row with
  | Some _ => raise (APIError "duplicate key value violates unique constraint")
  | None =>
      _ ← modify_world (set_sessions (insert (session_id row) row));
      mret [row]
  end.

(** [table("sessions").select(...).eq("session_id", sid)]. *)
Definition sessions_select (sid : string) : M (list Session) :=
  _ ← execute;
  w ← get_world;
  mret (option_list (sessions w !! sid)).

(** [table("sessions").update(patch).eq("session_id", sid)]: the rows that
    were changed come back. *)
Definition sessions_update (patch : Session → Session) (sid : string) : M (list Session) :=
  _ ← execute;
  w ← get_world;
  match sessions w !! sid with
  | Some row =>
      _ ← modify_world (set_sessions (insert sid (patch row)));
      mret [patch row]
  | None => mret []
  end.

Definition events_insert (ev : Event) : M (list Event) :=
  _ ← execute;
  w ← get_world;
  match sessions w !! ev_session_id ev with
  | None => raise (APIError "insert violates foreign key constraint")
  | Some _ =>
      _ ← modify_world (set_session_events (λ l, l ++ [ev]));
      mret [ev]
  end.

(** [.order("timestamp", desc=False)]: rows with the same timestamp stay in
    insertion order. *)
Fixpoint insert_by_timestamp (e : Event) (l : list Event) : list Event :=
  match l with
  | [] => [e]
  | x :: xs =>
      if timestamp e <=? timestamp x then e :: x :: xs
      else x :: insert_by_timestamp e xs
  end.

Definition order_by_timestamp (l : list Event) : list Event :=
  foldr insert_by_timestamp [] l.

(** The rows that [select("*").eq("session_id", sid)] finds, narrowed by
    [.in_("event_type", types)] when a non-empty list of types is given,
    in the order asked for. *)
Definition matching_events (sid : string) (event_types : option (list string))
    (log : list Event) : list Event :=
  let rows := filter (λ e, ev_session_id e = sid) log in
  let rows :=
    match event_types with
    | Some (t :: ts) => filter (λ e, event_type e ∈ t :: ts) rows
    | _ => rows
    end in
  order_by_timestamp rows.

Definition events_select (sid : string) (event_types : option (list string)) : M (list Event) :=
  _ ← execute;
  w ← get_world;
  mret (matching_events sid event_types (session_events w)).

(** [.order("start_time", desc=True)]: the latest start first.  (The
    store leaves the order of rows with equal start times open; here they
    come in the order of the table scan.) *)
Fixpoint insert_by_start_desc (s : Session) (l : list Session) : list Session :=
  match l with
  | [] => [s]
  | x :: xs =>
      if start_time x <=? start_time s then s :: x :: xs
      else x :: insert_by_start_desc s xs
  end.

Definition order_by_start_desc (l : list Session) : list Session :=
  foldr insert_by_start_desc [] l.

(** The rows of a user, latest first, at most [limit] of them. *)
Definition recent_rows (uid : string) (limit : nat) (table : gmap string Session)
  : list Session :=
  take limit
    (order_by_start_desc (filter (λ s, user_id s = uid) (snd <$> map_to_list table))).

(** [table("sessions").select("*").eq("user_id", uid)
      .order("start_time", desc=True).limit(limit)]. *)
Definition sessions_select_recent (uid : string) (limit : nat) : M (list Session) :=
  _ ← execute;
  w ← get_world;
  mret (recent_rows uid limit (sessions w)).

(** [table("session_events").delete().eq("session_id", sid)]: the deleted
    rows come back. *)
Definition events_delete (sid : string) : M (list Event) :=
  _ ← execute;
  w ← get_world;
  _ ← modify_world (set_session_events (filter (λ e, ev_session_id e ≠ sid)));
  mret (filter (λ e, ev_session_id e = sid) (session_events w)).

(** [table("sessions").delete().eq("session_id", sid)].  Modelled from the
    spec: the foreign key of "session_events" forbids deleting a session
    that still has events (the reason [delete_session] gives for deleting
    the events first). *)
Definition sessions_delete (sid : string) : M (list Session) :=
  _ ← execute;
  w ← get_world;
  match sessions w !! sid with
  | None => mret []
  | Some row =>
      match filter (λ e, ev_session_id e = sid) (session_events w) with
      | [] =>
          _ ← modify_world (set_sessions (delete sid));
          mret [row]
      | _ :: _ => raise (APIError "update or delete on table violates foreign key constraint")
      end
  end.

(** ** Doubles where the ledger meets them

    [timedelta.total_seconds()] divides the span in microseconds by
    [10**6] with Python's true division of integers, which gives the
    double nearest to the exact quotient, a tie going to the even
    significand; [int()] then cuts the fraction off, towards zero.  A
    double is kept as the pair of integers it stands for, the number
    [significand * 2 ^ binary_exponent], with a significand of 53 bits.
    (Quotients outside the normal range of doubles do not occur: the span
    of two datetimes is a whole number of microseconds below 2^59.) *)

Record double : Type := mkDouble {
  significand : Z;
  binary_exponent : Z
}.

(** The integer nearest to [n / d], for [0 <= n] and [0 < d]; a tie goes
    to the even one. *)
Definition round_half_even (n d : Z) : Z :=
  let q := n / d in
  let r := n mod d in
  if 2 * r <? d then q
  else if d <? 2 * r then q + 1
  else if Z.even q then q else q + 1.

(** The exponent [e] with [2^52 <= n / (d * 2^e) < 2^53], for positive
    [n] and [d]: the floor of the logarithm of [n / d] is the difference
    of the two logarithms or one less. *)
Definition binade (n d : Z) : Z :=
  let e := Z.log2 n - Z.log2 d - 52 in
  if 2 ^ 52 * (d * 2 ^ Z.max 0 e) <=? n * 2 ^ Z.max 0 (- e) then e else e - 1.

(** [n / d] of two [int]s, for a positive [d]. *)
Definition true_divide (n d : Z) : double :=
  if n =? 0 then mkDouble 0 0
  else
    let a := Z.abs n in
    let e := binade a d in
    let m := round_half_even (a * 2 ^ Z.max 0 (- e)) (d * 2 ^ Z.max 0 e) in
    mkDouble (Z.sgn n * m) e.

(** [int(x)]. *)
Definition int_of_double (x : double) : Z :=
  if 0 <=? binary_exponent x then significand x * 2 ^ binary_exponent x
  else significand x ÷ 2 ^ (- binary_exponent x).

(** [delta.total_seconds()] of a span of [micros] microseconds. *)
Definition timedelta_total_seconds (micros : Z) : double :=
  true_divide micros 1000000.

(** ** database.py: class DatabaseManager *)

Module DatabaseManager.

Definition create_session (session_id user_id : string) : M Session :=
  now ← utcnow;
  let session_data :=
    {| session_id := session_id;
       user_id := user_id;
       start_time := now;
       end_time := None;
       duration_seconds := None;
       summary := None;
       status := active |} in
  try_catch
    (_ ← sessions_insert session_data;
     mret session_data)
    (λ e, raise e).

(** [int((end_time - start_time).total_seconds())]. *)
Definition duration_between (start_time end_time : datetime) : Z :=
  int_of_double (timedelta_total_seconds (end_time - start_time)).

(** The patch [update_data] of [end_session]: the three columns it
    names, the others untouched. *)
Definition end_session_update_data (end_time : datetime) (duration : Z)
    (s : Session) : Session :=
  {| session_id := session_id s;
     user_id := user_id s;
     start_time := start_time s;
     end_time := Some end_time;
     duration_seconds := Some duration;
     summary := summary s;
     status := completed |}.

(** The return value is the first updated row, [None] standing for the
    empty dict [{}]. *)
Definition end_session (session_id : string) : M (option Session) :=
  try_catch
    (rows ← sessions_select session_id;
     match rows with
     | [] => raise (ValueError ("Session " +:+ session_id +:+ " not found"))
     | row :: _ =>
         let start_time := start_time row in
         end_time ← utcnow;
         let duration := duration_between start_time end_time in
         rows' ← sessions_update (end_session_update_data end_time duration) session_id;
         mret (head rows')
     end)
    (λ e, raise e).

(** The patch [update_data] of [update_session_summary]. *)
Definition summary_update_data (summary_text : string) (s : Session) : Session :=
  {| session_id := session_id s;
     user_id := user_id s;
     start_time := start_time s;
     end_time := end_time s;
     duration_seconds := duration_seconds s;
     summary := Some summary_text;
     status := summarized |}.

Definition update_session_summary (session_id : string) (summary : string)
  : M (option Session) :=
  try_catch
    (rows ← sessions_update (summary_update_data summary) session_id;
     mret (head rows))
    (λ e, raise e).

(** [metadata or {}]. *)
Definition metadata_or_empty (metadata : option (dict pyval)) : dict pyval :=
  match metadata with
  | Some (kv :: m) => kv :: m
  | _ => []
  end.

Definition log_event (session_id event_type : string) (data : dict pyval)
    (metadata : option (dict pyval)) : M (option Event) :=
  now ← utcnow;
  let event_data :=
    {| ev_session_id := session_id;
       event_type := event_type;
       timestamp := now;
       data := data;
       metadata := metadata_or_empty metadata |} in
  try_catch
    (rows ← events_insert event_data;
     mret (head rows))
    (λ e, (* Don't raise - logging errors shouldn't break the application *)
          mret None).

Definition get_session_events (session_id : string)
    (event_types : option (list string)) : M (list Event) :=
  try_catch
    (events_select session_id event_types)
    (λ e, mret []).

Definition get_session (session_id : string) : M (option Session) :=
  try_catch
    (rows ← sessions_select session_id;
     mret (head rows))
    (λ e, mret None).

(** The body of the loop of [get_conversation_history]. *)
Definition append_message (conversation : list Message) (event : Event) : list Message :=
  if String.eqb (event_type event) "user_message" then
    conversation ++ [ {| role := "user";
                         content := dict_get "content" (PStr "") (data event);
                         msg_timestamp := timestamp event |} ]
  else if String.eqb (event_type event) "assistant_response" then
    conversation ++ [ {| role := "assistant";
                         content := dict_get "content" (PStr "") (data event);
                         msg_timestamp := timestamp event |} ]
  else conversation.

Definition get_conversation_history (session_id : string) : M (list Message) :=
  events ← get_session_events session_id (Some ["user_message"; "assistant_response"]);
  mret (foldl append_message [] events).

Record Stats : Type := mkStats {
  total_events : nat;
  user_messages : nat;
  assistant_responses : nat;
  function_calls : nat;
  event_types : dict nat
}.

(** [sum(1 for e in events if e["event_type"] == ty)]. *)
Definition count_type (ty : string) (events : list Event) : nat :=
  length (filter (λ e, event_type e = ty) events).

(** The body of the loop that counts event types. *)
Definition count_event (types : dict nat) (event : Event) : dict nat :=
  dict_set (event_type event) (dict_get (event_type event) 0%nat types + 1)%nat types.

(** [None] stands for the empty dict of the [except] branch. *)
Definition get_session_statistics (session_id : string) : M (option Stats) :=
  try_catch
    (events ← get_session_events session_id None;
     let stats :=
       {| total_events := length events;
          user_messages := count_type "user_message" events;
          assistant_responses := count_type "assistant_response" events;
          function_calls := count_type "function_call" events;
          event_types := foldl count_event [] events |} in
     mret (Some stats))
    (λ e, mret None).

(** [limit] is a row count (10 when the caller gives none). *)
Definition get_recent_sessions (user_id : string) (limit : nat) : M (list Session) :=
  try_catch
    (sessions_select_recent user_id limit)
    (λ e, mret []).

Definition delete_session (session_id : string) : M bool :=
  try_catch
    ((* Delete events first (due to foreign key constraint) *)
     _ ← events_delete session_id;
     (* Delete session *)
     _ ← sessions_delete session_id;
     mret true)
    (λ e, mret false).

End DatabaseManager.

(** ** session_processor.py: class SessionProcessor *)

Module SessionProcessor.
Import DatabaseManager.

(** The line feed of Python's ["\n"]. *)
Definition nl : string := String (Ascii.ascii_of_nat 10) EmptyString.

(** ["\n".join(lines)]. *)
Fixpoint join_lines (lines : list string) : string :=
  match lines with
  | [] => ""
  | [l] => l
  | l :: ls => l +:+ nl +:+ join_lines ls
  end.

(** [str.upper] on the ASCII letters (the roles are ASCII words). *)
Definition upper_ascii (c : Ascii.ascii) : Ascii.ascii :=
  let n := Ascii.nat_of_ascii c in
  if ((97 <=? n)%nat && (n <=? 122)%nat)%bool then Ascii.ascii_of_nat (n - 32) else c.

Fixpoint upper (s : string) : string :=
  match s with
  | EmptyString => EmptyString
  | String c s' => String (upper_ascii c) (upper s')
  end.

Definition _format_duration (seconds : Z) : string :=
  if seconds <? 60 then
    pretty seconds +:+ " seconds"
  else if seconds <? 3600 then
    let minutes := seconds / 60 in
    let secs := seconds mod 60 in
    pretty minutes +:+ " minutes, " +:+ pretty secs +:+ " seconds"
  else
    let hours := seconds / 3600 in
    let minutes := (seconds mod 3600) / 60 in
    pretty hours +:+ " hours, " +:+ pretty minutes +:+ " minutes".

Definition placeholder_summary : string :=
  "No conversation data available for this session.".

(** The statistics as they are put into an event payload. *)
Definition py_of_stats (stats : option Stats) : pyval :=
  match stats with
  | None => PDict []
  | Some st =>
      PDict [ ("total_events", PInt (Z.of_nat (total_events st)));
              ("user_messages", PInt (Z.of_nat (user_messages st)));
              ("assistant_responses", PInt (Z.of_nat (assistant_responses st)));
              ("function_calls", PInt (Z.of_nat (function_calls st)));
              ("event_types",
               PDict (map (λ kv, (kv.1, PInt (Z.of_nat kv.2))) (event_types st))) ]
  end.

(** The payload of the [post_processing_complete] event. *)
Definition completion_data (summary : string) (stats : option Stats) : dict pyval :=
  [ ("summary_generated", PBool true);
    ("summary_length", PInt (Z.of_nat (String.length summary)));
    ("statistics", py_of_stats stats) ].

Section Processor.

(** [datetime.isoformat], the text of a timestamp as the store returns it. *)
Variable isoformat : datetime → string.
(** [repr] of a list or a dict, for payloads that are no plain text. *)
Variable py_repr : pyval → string.
(** [anthropic_client.messages.create(...)] followed by
    [message.content[0].text]: the provider's answer to a prompt, or
    the exception it raises. *)
Variable messages_create : string → result string.

(** What an f-string shows for a value. *)
Definition py_str (v : pyval) : string :=
  match v with
  | PNone => "None"
  | PBool true => "True"
  | PBool false => "False"
  | PInt z => pretty z
  | PStr s => s
  | PList _ | PDict _ => py_repr v
  end.

Definition _format_conversation (conversation : list Message) : string :=
  let formatted :=
    foldl (λ formatted msg,
             formatted ++ [ "[" +:+ isoformat (msg_timestamp msg) +:+ "] "
                            +:+ upper (role msg) +:+ ": " +:+ py_str (content msg) ])
          [] conversation in
  join_lines formatted.

Definition summary_prompt (session : Session) (duration_str conversation_text : string)
  : string :=
  "Analyze the following conversation and provide a concise summary." +:+ nl +:+
  nl +:+
  "Session Information:" +:+ nl +:+
  "- Session ID: " +:+ session_id session +:+ nl +:+
  "- Duration: " +:+ duration_str +:+ nl +:+
  "- User ID: " +:+ user_id session +:+ nl +:+
  nl +:+
  "Conversation:" +:+ nl +:+
  conversation_text +:+ nl +:+
  nl +:+
  "Please provide:" +:+ nl +:+
  "1. A brief overview (2-3 sentences) of what was discussed" +:+ nl +:+
  "2. Key topics or themes" +:+ nl +:+
  "3. Any actions taken or tools used" +:+ nl +:+
  "4. Overall sentiment and engagement level" +:+ nl +:+
  nl +:+
  "Keep the summary concise and informative.".

(** The call of the provider, which leaves a trace in the world. *)
Definition call_provider (prompt : string) : M string :=
  _ ← modify_world (add_llm_call prompt);
  match messages_create prompt with
  | Ok text => mret text
  | Raise e => raise e
  end.

(** [session.get("duration_seconds", 0)] finds the column, whose value
    is [None] for a session that was never ended; comparing [None]
    with 60 raises. *)
Definition generate_summary (conversation : list Message) (session : Session) : M string :=
  try_catch
    (let conversation_text := _format_conversation conversation in
     match duration_seconds session with
     | None =>
         raise (TypeError "'<' not supported between instances of 'NoneType' and 'int'")
     | Some duration =>
         let duration_str := _format_duration duration in
         let prompt := summary_prompt session duration_str conversation_text in
         call_provider prompt
     end)
    (λ e, mret ("Error generating summary: " +:+ str_exn e)).

Definition process_session (session_id : string) : M unit :=
  try_catch
    (_ ← sleep 1;
     session ← get_session session_id;
     match session with
     | None => mret tt
     | Some session =>
         conversation ← get_conversation_history session_id;
         summary ←
           match conversation with
           | [] => mret placeholder_summary
           | _ :: _ => generate_summary conversation session
           end;
         _ ← update_session_summary session_id summary;
         stats ← get_session_statistics session_id;
         _ ← log_event session_id "post_processing_complete"
               (completion_data summary stats) None;
         mret tt
     end)
    (λ e,
       try_catch
         (_ ← log_event session_id "post_processing_error"
                [("error", PStr (str_exn e))] None;
          mret tt)
         (λ _, mret tt)).

(** *** Reporting *)

(** Python's [float], the span [(t2 - t1).total_seconds()] of a number
    of microseconds, [sum(xs) / len(xs)] of a non-empty list of floats,
    and [a / b] of two integers. *)
Variable float : Type.
Variable total_seconds : Z → float.
Variable mean : list float → float.
Variable truediv : Z → Z → float.
(** What [d[:50]] raises for a dict [d] (a different class from one
    version of Python to another). *)
Variable dict_slice_error : pyexn.

(** [len(content) > 50] and [content[:50]] for a payload value: text and
    lists have a length and slices, a dict has a length only, the other
    values have neither. *)
Definition clip (prefix : string) (content : pyval) : resultx string :=
  match content with
  | PStr s =>
      if (50 <? String.length s)%nat
      then OkX (prefix +:+ String.substring 0 50 s +:+ "...")
      else OkX (prefix +:+ s)
  | PList l =>
      if (50 <? length l)%nat
      then OkX (prefix +:+ py_str (PList (take 50 l)) +:+ "...")
      else OkX (prefix +:+ py_str content)
  | PDict d =>
      if (50 <? length d)%nat
      then RaiseX dict_slice_error
      else OkX (prefix +:+ py_str content)
  | PNone => RaiseX (Builtin (TypeError "object of type 'NoneType' has no len()"))
  | PBool _ => RaiseX (Builtin (TypeError "object of type 'bool' has no len()"))
  | PInt _ => RaiseX (Builtin (TypeError "object of type 'int' has no len()"))
  end.

Definition _summarize_event (event : Event) : resultx string :=
  let event_type := event_type event in
  let data := data event in
  if String.eqb event_type "user_message" then
    clip "User: " (dict_get "content" (PStr "") data)
  else if String.eqb event_type "assistant_response" then
    clip "Assistant: " (dict_get "content" (PStr "") data)
  else if String.eqb event_type "function_call" then
    let func_name := dict_get "function_name" (PStr "unknown") data in
    OkX ("Called function: " +:+ py_str func_name)
  else if String.eqb event_type "function_result" then
    let func_name := dict_get "function_name" (PStr "unknown") data in
    OkX ("Function " +:+ py_str func_name +:+ " completed")
  else
    OkX ("Event: " +:+ event_type).

Record Analysis : Type := mkAnalysis {
  an_user_id : string;
  sessions_analyzed : nat;
  total_duration_seconds : Z;
  average_duration_seconds : float;
  average_user_messages : float;
  average_assistant_responses : float;
  total_function_calls : nat;
  most_recent_session : option string
}.

(** The dict [analyze_session_patterns] returns: the analysis, or
    [{"error": msg}]. *)
Inductive AnalysisResult : Type :=
  | AnalysisError (msg : string)
  | AnalysisOk (a : Analysis).

(** [sum(s.get("duration_seconds", 0) for s in sessions)]: the column is
    there, and adding its [None] to a number raises. *)
Fixpoint sum_durations (acc : Z) (sessions : list Session) : M Z :=
  match sessions with
  | [] => mret acc
  | s :: sessions' =>
      match duration_seconds s with
      | None => raise (TypeError "unsupported operand type(s) for +: 'int' and 'NoneType'")
      | Some d => sum_durations (acc + d) sessions'
      end
  end.

(** [sum(s.get(key, 0) for s in all_stats)], where [{}] counts 0. *)
Definition sum_stat (field : Stats → nat) (all_stats : list (option Stats)) : nat :=
  foldl (λ acc st, acc + from_option field 0 st)%nat 0%nat all_stats.

Definition analyze_session_patterns (user_id : string) (limit : nat) : M AnalysisResult :=
  try_catch
    (sessions ← get_recent_sessions user_id limit;
     match sessions with
     | [] => mret (AnalysisError "No sessions found for user")
     | first :: _ =>
         total_duration ← sum_durations 0 sessions;
         let avg_duration := truediv total_duration (Z.of_nat (length sessions)) in
         all_stats ← mapM (λ session, get_session_statistics (session_id session)) sessions;
         let avg_messages :=
           truediv (Z.of_nat (sum_stat user_messages all_stats))
                   (Z.of_nat (length all_stats)) in
         let avg_responses :=
           truediv (Z.of_nat (sum_stat assistant_responses all_stats))
                   (Z.of_nat (length all_stats)) in
         let total_functions := sum_stat function_calls all_stats in
         mret (AnalysisOk
                 {| an_user_id := user_id;
                    sessions_analyzed := length sessions;
                    total_duration_seconds := total_duration;
                    average_duration_seconds := avg_duration;
                    average_user_messages := avg_messages;
                    average_assistant_responses := avg_responses;
                    total_function_calls := total_functions;
                    most_recent_session := Some (session_id first) |})
     end)
    (λ e, mret (AnalysisError (str_exn e))).

Record TimelineEntry : Type := mkTimelineEntry {
  tl_timestamp : datetime;
  tl_event_type : string;
  tl_summary : string
}.

(** A number that is an [int] or a [float]. *)
Inductive number : Type :=
  | NInt (z : Z)
  | NFloat (f : float).

Record Insights : Type := mkInsights {
  in_session_id : string;
  session_summary : option string;
  statistics : option Stats;
  timeline : list TimelineEntry;
  average_response_time_seconds : number;
  total_interactions : nat;
  tools_utilized : nat
}.

Inductive InsightsResult : Type :=
  | InsightsError (msg : string)
  | InsightsOk (i : Insights).

Definition timeline_entry (event : Event) : resultx TimelineEntry :=
  match _summarize_event event with
  | OkX text => OkX (mkTimelineEntry (timestamp event) (event_type event) text)
  | RaiseX e => RaiseX e
  end.

(** The loop over [range(len(events) - 1)]: the spans, in microseconds,
    from a user message to the assistant response right after it. *)
Fixpoint response_spans (events : list Event) : list Z :=
  match events with
  | e1 :: (e2 :: _) as rest =>
      if (String.eqb (event_type e1) "user_message"
          && String.eqb (event_type e2) "assistant_response")%bool
      then (timestamp e2 - timestamp e1) :: response_spans rest
      else response_spans rest
  | _ => []
  end.

(** [session.get("summary", ...)] finds the column (which holds [None]
    until the session is summarized); with no session at all,
    [session] is [None] and has no [get]. *)
Definition generate_insights_report (session_id : string) : M InsightsResult :=
  try_catchx
    (session ← liftx (get_session session_id);
     events ← liftx (get_session_events session_id None);
     stats ← liftx (get_session_statistics session_id);
     timeline ← of_resultx (mapx timeline_entry events);
     let response_times := total_seconds <$> response_spans events in
     let avg_response_time :=
       match response_times with
       | [] => NInt 0
       | _ :: _ => NFloat (mean response_times)
       end in
     match session with
     | None => raisex (AttributeError "'NoneType' object has no attribute 'get'")
     | Some row =>
         mret (InsightsOk
                 {| in_session_id := session_id;
                    session_summary := summary row;
                    statistics := stats;
                    timeline := timeline;
                    average_response_time_seconds := avg_response_time;
                    total_interactions := from_option user_messages 0%nat stats;
                    tools_utilized := from_option function_calls 0%nat stats |})
     end)
    (λ e, mret (InsightsError (str_pyexn e))).

End Processor.

End SessionProcessor.

(** ** main.py: the tools and the WebSocket endpoint *)

(** The JSON values of the frames sent to the client: the payload values,
    and the floating-point literals of the tool results, kept as the
    decimal they are written as (mantissa and power of ten). *)
#[warnings="-register-all"]
Inductive jval : Type :=
  | JNone
  | JBool (b : bool)
  | JInt (z : Z)
  | JFloat (mantissa exponent : Z)
  | JStr (s : string)
  | JList (l : list jval)
  | JDict (d : list (string * jval)).

Fixpoint jval_of (v : pyval) : jval :=
  match v with
  | PNone => JNone
  | PBool b => JBool b
  | PInt z => JInt z
  | PStr s => JStr s
  | PList l => JList (List.map jval_of l)
  | PDict d => JDict (List.map (λ kv, (kv.1, jval_of kv.2)) d)
  end.

(** The frames of the connection protocol, server to client. *)
Inductive frame : Type :=
  | SessionStartFrame (session_id : string) (start_time : datetime)
  | FunctionResultFrame (function_name : string) (result : dict jval)
  | TokenFrame (content : string)
  | ResponseCompleteFrame
  | ErrorFrame (message : string).

(** What [websocket.receive_text()] and [json.loads] give for one text of
    the client: the clock's reading when it arrives, and the value it
    parses to or the text of the [JSONDecodeError].  (Values with
    floating-point numbers are outside [pyval].)  After the last text
    the client disconnects, at a clock reading of its own. *)
Inductive inbound : Type :=
  | Received (arrival : datetime) (parsed : pyval)
  | Garbled (arrival : datetime) (error : string).

(** An entry of the in-memory [conversation_history]. *)
Record ChatMessage : Type := mkChatMessage {
  cm_role : string;
  cm_content : pyval
}.

(** The answer of the completion client to one call: the chunks of the
    stream ([None] for a chunk without choices or content), and the text
    of the exception that ends it, if one does.  A call that fails at
    once is a stream without chunks that ends in the exception. *)
Record Stream : Type := mkStream {
  chunks : list (option string);
  failure : option string
}.

(** The world of one connection: the store and clock; the frames that
    reached the client, and what the transport does with the coming
    [send_json] calls ([Some e]: it raises [e], and the frame is lost);
    the module-level handles [session_processor] and [openai_client],
    [None] until [lifespan] assigns them; the calls of the completion
    client; and the sessions handed to
    [asyncio.create_task(session_processor.process_session(...))]. *)
Record Relay : Type := mkRelay {
  world : World;
  outbox : list frame;
  line : list (option pyexn);
  session_processor : option unit;
  openai_client : option unit;
  completion_calls : list (list ChatMessage);
  scheduled : list string
}.

Definition set_world (f : World → World) (r : Relay) : Relay :=
  mkRelay (f (world r)) (outbox r) (line r) (session_processor r) (openai_client r)
    (completion_calls r) (scheduled r).

Definition set_line (l : list (option pyexn)) (r : Relay) : Relay :=
  mkRelay (world r) (outbox r) l (session_processor r) (openai_client r)
    (completion_calls r) (scheduled r).

Definition push_frame (f : frame) (r : Relay) : Relay :=
  mkRelay (world r) (outbox r ++ [f]) (line r) (session_processor r) (openai_client r)
    (completion_calls r) (scheduled r).

Definition set_session_processor (h : option unit) (r : Relay) : Relay :=
  mkRelay (world r) (outbox r) (line r) h (openai_client r)
    (completion_calls r) (scheduled r).

Definition set_openai_client (h : option unit) (r : Relay) : Relay :=
  mkRelay (world r) (outbox r) (line r) (session_processor r) h
    (completion_calls r) (scheduled r).

Definition add_completion_call (history : list ChatMessage) (r : Relay) : Relay :=
  mkRelay (world r) (outbox r) (line r) (session_processor r) (openai_client r)
    (completion_calls r ++ [history]) (scheduled r).

Definition add_scheduled (session_id : string) (r : Relay) : Relay :=
  mkRelay (world r) (outbox r) (line r) (session_processor r) (openai_client r)
    (completion_calls r) (scheduled r ++ [session_id]).

Module Main.

(** The endpoint is modelled with the connection accepted and with
    [db_manager] constructed, which [lifespan] does before anything of it
    can fail; the client is a script of texts, after the last of which
    it disconnects. *)

(** [SessionProcessor(supabase_client, anthropic_api_key)], the second
    argument given or not: [__init__] has no default for it.  (The text
    of the [TypeError] is the one of Python 3.10 and later.) *)
Definition new_session_processor (supabase_client : string)
    (anthropic_api_key : option string) : resultx unit :=
  match anthropic_api_key with
  | Some _ => OkX tt
  | None =>
      RaiseX (Builtin (TypeError
        "SessionProcessor.__init__() missing 1 required positional argument: 'anthropic_api_key'"))
  end.

(** An assignment to a module-level name. *)
Definition assign (f : Relay → Relay) : MX Relay unit := λ r, (OkX tt, f r).

(** [lifespan], up to its [yield]: [supabase] and [db_manager] are
    assigned, then [session_processor], from [SessionProcessor(supabase)],
    and [openai_client]. *)
Definition lifespan : MX Relay unit :=
  processor ← of_resultx (new_session_processor "supabase" None);
  _ ← assign (set_session_processor (Some processor));
  assign (set_openai_client (Some tt)).

(** Code of the ledger run in a connection. *)
Definition ledger {A} (m : M A) : MX Relay A :=
  λ r, match m (world r) with
       | (Ok a, w') => (OkX a, set_world (λ _, w') r)
       | (Raise e, w') => (RaiseX (Builtin e), set_world (λ _, w') r)
       end.

(** [websocket.send_json(frame)]: the transport takes the frame or
    raises. *)
Definition send_json (f : frame) : MX Relay unit :=
  λ r, match line r with
       | Some e :: l => (RaiseX e, set_line l r)
       | None :: l => (OkX tt, push_frame f (set_line l r))
       | [] => (OkX tt, push_frame f r)
       end.

(** [asyncio.create_task(session_processor.process_session(session_id))]:
    the method is looked up on the handle, and the task is handed over,
    not awaited. *)
Definition create_task (session_id : string) : MX Relay unit :=
  λ r, match session_processor r with
       | None =>
           (RaiseX (AttributeError
                      "'NoneType' object has no attribute 'process_session'"), r)
       | Some _ => (OkX tt, add_scheduled session_id r)
       end.

(** The clock's reading when a text of the client arrives. *)
Definition arrive (t : datetime) : MX Relay unit :=
  λ r, (OkX tt, set_world (set_clock t) r).

(** [try: body except WebSocketDisconnect: pass except Exception as e: h e
    finally: cleanup]. *)
Definition try_except_finally (body : MX Relay unit) (h : pyexn → MX Relay unit)
    (cleanup : MX Relay unit) : MX Relay unit :=
  λ r, match body r with
       | (OkX tt, r1) => cleanup r1
       | (RaiseX WebSocketDisconnect, r1) => cleanup r1
       | (RaiseX e, r1) =>
           match h e r1 with
           | (OkX tt, r2) => cleanup r2
           | (RaiseX e', r2) =>
               match cleanup r2 with
               | (OkX tt, r3) => (RaiseX e', r3)
               | (RaiseX e'', r3) => (RaiseX e'', r3)
               end
           end
       end.

(** [str.lower] on the code points below 256. *)
Definition lower_char (c : Ascii.ascii) : Ascii.ascii :=
  let n := Ascii.nat_of_ascii c in
  if ((65 <=? n) && (n <=? 90) || (192 <=? n) && (n <=? 222) && negb (n =? 215))%nat%bool
  then Ascii.ascii_of_nat (n + 32) else c.

Fixpoint lower (s : string) : string :=
  match s with
  | EmptyString => EmptyString
  | String c s' => String (lower_char c) (lower s')
  end.

(** [needle in hay]. *)
Fixpoint contains (needle hay : string) : bool :=
  match hay with
  | EmptyString => String.prefix needle EmptyString
  | String _ hay' => String.prefix needle hay || contains needle hay'
  end.

(** [s[-n:]] for a positive [n]. *)
Definition last_chars (n : nat) (s : string) : string :=
  String.substring (String.length s - n) n s.

(** [ty == "user_message"]. *)
Definition is_user_message (ty : pyval) : bool :=
  match ty with
  | PStr s => String.eqb s "user_message"
  | _ => false
  end.

(** The name of a value's type, as error texts show it. *)
Definition type_name (v : pyval) : string :=
  match v with
  | PNone => "NoneType"
  | PBool _ => "bool"
  | PInt _ => "int"
  | PStr _ => "str"
  | PList _ => "list"
  | PDict _ => "dict"
  end.

Section Endpoint.

(** [repr] of lists and dicts of payload values, and of a tool result. *)
Variable py_repr : pyval → string.
Variable tool_repr : dict jval → string.
(** The text of the [TypeError] of [msg["type"]] for a [msg] that is no
    dict (it differs between versions of Python). *)
Variable subscript_error_text : pyval → string.
(** [openai_client.chat.completions.create(..., stream=True)]. *)
Variable completions_create : list ChatMessage → Stream.

Definition execute_tool (tool_name : string) (tool_input : dict pyval) : dict jval :=
  if String.eqb tool_name "get_weather" then
    [ ("location", jval_of (dict_get "location" (PStr "Unknown") tool_input));
      ("temperature", JInt 28);
      ("unit", JStr "celsius");
      ("conditions", JStr "Partly Cloudy") ]
  else if String.eqb tool_name "search_database" then
    let query := dict_get "query" (PStr "") tool_input in
    [ ("results",
       JList [ JDict [ ("title", JStr ("Result for " +:+ SessionProcessor.py_str py_repr query));
                       ("score", JFloat 95 (-2)) ] ]) ]
  else
    [ ("error", JStr "Unknown tool") ].

(** [msg[key]]. *)
Definition subscript (msg : pyval) (key : string) : resultx pyval :=
  match msg with
  | PDict d =>
      match dict_lookup key d with
      | Some v => OkX v
      | None => RaiseX (KeyError ("'" +:+ key +:+ "'"))
      end
  | _ => RaiseX (Builtin (TypeError (subscript_error_text msg)))
  end.

(** [user_text.lower()]. *)
Definition lower_of (user_text : pyval) : resultx string :=
  match user_text with
  | PStr s => OkX (lower s)
  | _ => RaiseX (AttributeError
                   ("'" +:+ type_name user_text +:+ "' object has no attribute 'lower'"))
  end.

(** The loop over the chunks of a stream. *)
Fixpoint relay_chunks (chunks : list (option string)) (full_response : string)
  : MX Relay string :=
  match chunks with
  | [] => mret full_response
  | Some (String c token') :: chunks' =>
      let token := String c token' in
      _ ← send_json (TokenFrame token);
      relay_chunks chunks' (full_response +:+ token)
  | _ :: chunks' => relay_chunks chunks' full_response
  end.

Definition relay_stream (stream : Stream) : MX Relay string :=
  full_response ← relay_chunks (chunks stream) "";
  match failure stream with
  | Some text => raisex (CompletionError text)
  | None => mret full_response
  end.

(** [openai_client.chat.completions.create(...)] with the conversation so
    far: [chat] is looked up on the handle first. *)
Definition call_completions (conversation_history : list ChatMessage) : MX Relay Stream :=
  λ r, match openai_client r with
       | None => (RaiseX (AttributeError "'NoneType' object has no attribute 'chat'"), r)
       | Some _ =>
           (OkX (completions_create conversation_history),
            add_completion_call conversation_history r)
       end.

(** One round of the loop with a user message: the conversation history
    it leaves. *)
Definition handle_user_message (session_id : string) (msg : pyval)
    (conversation_history : list ChatMessage) : MX Relay (list ChatMessage) :=
  user_text ← of_resultx (subscript msg "content");
  _ ← ledger (DatabaseManager.log_event session_id "user_message"
                [("content", user_text)] None);
  let conversation_history :=
    conversation_history ++ [ mkChatMessage "user" user_text ] in
  lowered ← of_resultx (lower_of user_text);
  conversation_history ←
    (if contains "weather" lowered then
       let tool_result := execute_tool "get_weather" [("location", PStr "Bangalore")] in
       _ ← send_json (FunctionResultFrame "get_weather" tool_result);
       mret (conversation_history
             ++ [ mkChatMessage "system"
                    (PStr ("Weather data: " +:+ tool_repr tool_result)) ])
     else mret conversation_history);
  stream ← call_completions conversation_history;
  full_response ← relay_stream stream;
  _ ← send_json ResponseCompleteFrame;
  let conversation_history :=
    conversation_history ++ [ mkChatMessage "assistant" (PStr full_response) ] in
  _ ← ledger (DatabaseManager.log_event session_id "assistant_response"
                [("content", PStr full_response)] None);
  mret conversation_history.

(** The [while True] loop: it ends when the client has no more text, by
    the [WebSocketDisconnect] that [receive_text] raises when the client
    goes, at the clock reading [gone], or by an exception. *)
Fixpoint receive_loop (session_id : string) (script : list inbound) (gone : datetime)
    (conversation_history : list ChatMessage) : MX Relay unit :=
  match script with
  | [] =>
      _ ← arrive gone;
      raisex WebSocketDisconnect
  | Garbled t error :: _ =>
      _ ← arrive t;
      raisex (JSONDecodeError error)
  | Received t msg :: script' =>
      _ ← arrive t;
      ty ← of_resultx (subscript msg "type");
      if is_user_message ty then
        conversation_history ← handle_user_message session_id msg conversation_history;
        receive_loop session_id script' gone conversation_history
      else receive_loop session_id script' gone conversation_history
  end.

Definition websocket_endpoint (session_id : string) (script : list inbound)
    (gone : datetime) : MX Relay unit :=
  let user_id := "user_" +:+ last_chars 6 session_id in
  _ ← ledger (DatabaseManager.create_session session_id user_id);
  _ ← ledger (DatabaseManager.log_event session_id "session_start"
                [("user_id", PStr user_id)] None);
  now ← ledger utcnow;
  _ ← send_json (SessionStartFrame session_id now);
  try_except_finally
    (receive_loop session_id script gone [])
    (λ e, send_json (ErrorFrame (str_pyexn e)))
    (_ ← ledger (DatabaseManager.end_session session_id);
     _ ← ledger (DatabaseManager.log_event session_id "session_end" [] None);
     create_task session_id).

End Endpoint.

End Main.

(** ** Vocabulary of the properties *)

(** The coming store call is scheduled to fail. *)
Definition store_fails (w : World) : bool :=
  match faults w with
  | true :: _ => true
  | _ => false
  end.

(** The three ledger operations that write a session row. *)
Inductive ledger_op : Type :=
  | CreateSession (user_id : string)
  | EndSession
  | UpdateSummary (summary_text : string).

Definition ledger_call (sid : string) (op : ledger_op) : M unit :=
  match op with
  | CreateSession uid => _ ← DatabaseManager.create_session sid uid; mret tt
  | EndSession => _ ← DatabaseManager.end_session sid; mret tt
  | UpdateSummary text => _ ← DatabaseManager.update_session_summary sid text; mret tt
  end.

(** One operation invoked when the clock reads [t]; an exception goes to
    the caller and the world stays as the operation left it. *)
Definition ledger_step (sid : string) (w : World) (step : datetime * ledger_op) : World :=
  (ledger_call sid step.2 (set_clock step.1 w)).2.

(** The status an observer reads for the session. *)
Definition observe (sid : string) (w : World) : option Status :=
  status <$> sessions w !! sid.

(** The statuses read after each operation of a sequence, while the
    session has a row. *)
Fixpoint status_trace (sid : string) (steps : list (datetime * ledger_op)) (w : World)
  : list Status :=
  match steps with
  | [] => []
  | step :: steps' =>
      let w' := ledger_step sid w step in
      match observe sid w' with
      | Some st => st :: status_trace sid steps' w'
      | None => status_trace sid steps' w'
      end
  end.

(** The place of a status in [active, completed, summarized]. *)
Definition rank (st : Status) : nat :=
  match st with
  | active => 0
  | completed => 1
  | summarized => 2
  end.

(** A status is no earlier in the order than the one read, if one is read. *)
Definition at_least (o : option Status) (st : Status) : Prop :=
  ∀ st0, o = Some st0 → (rank st0 ≤ rank st)%nat.

Definition never_decreases (trace : list Status) : Prop :=
  Sorted (λ a b, (rank a ≤ rank b)%nat) trace.

Definition is_end (op : ledger_op) : bool :=
  match op with EndSession => true | _ => false end.

(** No [EndSession] comes after an [UpdateSummary]. *)
Fixpoint no_end_after_summary (ops : list ledger_op) : bool :=
  match ops with
  | [] => true
  | UpdateSummary _ :: ops' => forallb (λ op, negb (is_end op)) ops' && no_end_after_summary ops'
  | _ :: ops' => no_end_after_summary ops'
  end.

(** The events a conversation is made of. *)
Definition is_conversation_event (e : Event) : Prop :=
  event_type e = "user_message" ∨ event_type e = "assistant_response".

Global Instance is_conversation_event_dec e : Decision (is_conversation_event e).
Proof. unfold is_conversation_event. apply _. Defined.

(** The message of a conversation event. *)
Definition message_of (e : Event) : Message :=
  {| role := if String.eqb (event_type e) "user_message" then "user" else "assistant";
     content := dict_get "content" (PStr "") (data e);
     msg_timestamp := timestamp e |}.

(** The events of a session in the order they were logged. *)
Definition session_log (sid : string) (w : World) : list Event :=
  filter (λ e, ev_session_id e = sid) (session_events w).

(** An event that is no user message, assistant response or function call. *)
Definition is_other_event (e : Event) : Prop :=
  event_type e ≠ "user_message" ∧ event_type e ≠ "assistant_response"
  ∧ event_type e ≠ "function_call".

Global Instance is_other_event_dec e : Decision (is_other_event e).
Proof. unfold is_other_event. apply _. Defined.

(** The sum of the counts of a mapping from type to count. *)
Definition sum_counts (d : dict nat) : nat :=
  foldr (λ kv acc, (kv.2 + acc)%nat) 0%nat d.

Definition timestamps_ascend (l : list Event) : Prop :=
  Sorted (λ a b, timestamp a ≤ timestamp b) l.

(** The statistics of a list of events, as [get_session_statistics]
    computes them. *)
Definition stats_of (events : list Event) : DatabaseManager.Stats :=
  {| DatabaseManager.total_events := length events;
     DatabaseManager.user_messages := DatabaseManager.count_type "user_message" events;
     DatabaseManager.assistant_responses :=
       DatabaseManager.count_type "assistant_response" events;
     DatabaseManager.function_calls := DatabaseManager.count_type "function_call" events;
     DatabaseManager.event_types := foldl DatabaseManager.count_event [] events |}.

(** The event that closes a successful post-processing. *)
Definition completion_event (sid : string) (t : datetime) (summary_text : string)
    (stats : DatabaseManager.Stats) : Event :=
  mkEvent sid "post_processing_complete" t
    (SessionProcessor.completion_data summary_text (Some stats)) [].

(** The world after one store call that left the tables alone. *)
Definition after_call (w : World) : World := set_faults (tail (faults w)) w.

(** A world whose coming store calls have the given outcomes. *)
Definition with_faults (fs : list bool) (w : World) : World := set_faults fs w.

(** The rows of a user in the table. *)
Definition user_rows (uid : string) (w : World) : list Session :=
  filter (λ s, user_id s = uid) (snd <$> map_to_list (sessions w)).

(** Latest start first. *)
Definition starts_descend (l : list Session) : Prop :=
  StronglySorted (λ a b, start_time b ≤ start_time a) l.

(** A connection whose store is up and whose session has a row. *)
Definition healthy (sid : string) (r : Relay) : Prop :=
  store_up (world r) ∧ is_Some (sessions (world r) !! sid).

(** The two handles are as the module declares them and as [lifespan]
    leaves them. *)
Definition unserved (r : Relay) : Prop :=
  session_processor r = None ∧ openai_client r = None.

(** The exception the transport has for the coming frame, if it has
    one. *)
Definition send_failure (r : Relay) : option pyexn :=
  match line r with
  | Some e :: _ => Some e
  | _ => None
  end.

(** The connection after one call of the transport. *)
Definition after_send (r : Relay) : Relay := set_line (tail (line r)) r.

(** A text of the client that the loop passes over: a JSON object whose
    "type" is there and is not "user_message". *)
Definition ignorable (item : inbound) : Prop :=
  match item with
  | Received _ (PDict d) =>
      ∃ ty, dict_lookup "type" d = Some ty ∧ ty ≠ PStr "user_message"
  | _ => False
  end.

(** The result of the weather tool as the loop calls it. *)
Definition weather_report : dict jval :=
  [ ("location", JStr "Bangalore"); ("temperature", JInt 28);
    ("unit", JStr "celsius"); ("conditions", JStr "Partly Cloudy") ].

(** At most one element, of a given kind. *)
Definition at_most_one {A} (P : A → Prop) (l : list A) : Prop :=
  l = [] ∨ ∃ x, l = [x] ∧ P x.

Definition is_error_frame (f : frame) : Prop := ∃ msg, f = ErrorFrame msg.

Definition is_weather_frame (f : frame) : Prop :=
  f = FunctionResultFrame "get_weather" weather_report.

(** A user message logged for a session. *)
Definition is_user_message_of (sid : string) (e : Event) : Prop :=
  ∃ t v, e = mkEvent sid "user_message" t [("content", v)] [].

(** What the loop of a connection may do to it while no completion client
    is there: send the frame of the weather tool once, and log one user
    message of its session; the store stays up, and the rows, the
    handles, the calls of the completion client and the handed-over
    tasks stay as they were. *)
Definition extends (sid : string) (r r' : Relay) : Prop :=
  healthy sid r'
  ∧ sessions (world r') = sessions (world r)
  ∧ scheduled r' = scheduled r
  ∧ completion_calls r' = completion_calls r
  ∧ session_processor r' = session_processor r
  ∧ openai_client r' = openai_client r
  ∧ (∃ frames, outbox r' = outbox r ++ frames ∧ at_most_one is_weather_frame frames)
  ∧ (∃ events, session_events (world r') = session_events (world r) ++ events
               ∧ at_most_one (is_user_message_of sid) events).

(** ** Sample worlds *)

Definition fresh_world : World := mkWorld ∅ [] [] 0 [].

(** One active session that started at second 1, read at second 3.5. *)
Definition demo_session : Session :=
  mkSession "s1" "user_s1" 1000000 None None None active.

Definition demo_world : World :=
  mkWorld {[ "s1" := demo_session ]} [] [] 3500000 [].

(** The clock was set back: it reads 0 while the session's start time is
    second 1.5. *)
Definition skewed_world : World :=
  mkWorld {[ "s1" := mkSession "s1" "user_s1" 1500000 None None None active ]} [] [] 0 [].

(** A session read 20000000000.999999 s after its start, the clock ahead
    of the stored start time. *)
Definition long_world : World :=
  mkWorld {[ "s1" := mkSession "s1" "user_s1" 0 None None None active ]} []
    [] 20000000000999999 [].

(** A lifecycle followed by a second end of the session. *)
Definition double_end_steps : list (datetime * ledger_op) :=
  [ (0, CreateSession "user_s1"); (1000000, EndSession);
    (2000000, UpdateSummary "a summary"); (3000000, EndSession) ].

(** The create, end, summarize order of a session's life. *)
Definition lifecycle_steps : list (datetime * ledger_op) :=
  [ (0, CreateSession "user_s1"); (1000000, EndSession);
    (2000000, UpdateSummary "a summary") ].

(** An ended session with a short exchange in its log, next to an event
    of another session. *)
Definition chat_session : Session :=
  mkSession "s1" "user_s1" 0 (Some 3000000) (Some 3) None completed.

Definition chat_log : list Event :=
  [ mkEvent "s1" "session_start" 0 [("user_id", PStr "user_s1")] [];
    mkEvent "s1" "user_message" 1500000 [("content", PStr "hi")] [];
    mkEvent "s2" "user_message" 1600000 [("content", PStr "elsewhere")] [];
    mkEvent "s1" "function_call" 1700000 [("function_name", PStr "get_weather")] [];
    mkEvent "s1" "assistant_response" 2000000 [("content", PStr "hello")] [];
    mkEvent "s1" "session_end" 3000000 [] [] ].

Definition chat_world : World :=
  mkWorld {[ "s1" := chat_session ]} chat_log [] 4000000 [].

(** An ended session whose client sent nothing. *)
Definition quiet_session : Session :=
  mkSession "s1" "user_s1" 0 (Some 3000000) (Some 3) None completed.

Definition quiet_world : World :=
  mkWorld {[ "s1" := quiet_session ]}
    [ mkEvent "s1" "session_start" 0 [("user_id", PStr "user_s1")] [];
      mkEvent "s1" "session_end" 3000000 [] [] ]
    [] 4000000 [].

(** Stand-ins for the library functions and the provider. *)
Definition sample_isoformat (t : datetime) : string := pretty t.
Definition sample_repr (v : pyval) : string := "<object>".
Definition answering_provider (prompt : string) : result string := Ok "They said hello.".
Definition failing_provider (prompt : string) : result string :=
  Raise (ProviderError "overloaded").

(** Four sessions of two users; "a3" is still active. *)
Definition fleet_sessions : gmap string Session :=
  {[ "a1" := mkSession "a1" "u1" 0 (Some 60000000) (Some 60) (Some "first") summarized;
     "a2" := mkSession "a2" "u1" 100000000 (Some 130000000) (Some 30) None completed;
     "a3" := mkSession "a3" "u1" 200000000 None None None active;
     "b1" := mkSession "b1" "u2" 50000000 (Some 60000000) (Some 10) None completed ]}.

Definition fleet_log : list Event :=
  [ mkEvent "a1" "user_message" 1000000 [("content", PStr "what is the weather")] [];
    mkEvent "a1" "function_call" 2000000 [("function_name", PStr "get_weather")] [];
    mkEvent "a1" "assistant_response" 3500000 [("content", PStr "sunny")] [];
    mkEvent "b1" "user_message" 51000000 [("content", PInt 5)] [];
    mkEvent "a2" "user_message" 101000000 [("content", PStr "hello")] [] ].

Definition fleet_world : World := mkWorld fleet_sessions fleet_log [] 300000000 [].

(** Stand-ins for Python's floats: a quotient kept as its two integers. *)
Definition sample_total_seconds (micros : Z) : Z * Z := (micros, 1000000).
Definition sample_mean (xs : list (Z * Z)) : Z * Z :=
  (foldr (λ x acc, x.1 + acc) 0 xs, 1000000 * Z.of_nat (length xs)).
Definition sample_truediv (a b : Z) : Z * Z := (a, b).
Definition sample_slice_error : pyexn := Builtin (TypeError "unhashable type: 'slice'").

(** The session "s1" of [chat_world] before it was ended. *)
Definition open_chat_world : World :=
  mkWorld {[ "s1" := mkSession "s1" "user_s1" 0 None None None active ]}
    chat_log [] 4000000 [].

(** Stand-ins for the relay: a completion client that answers "Hello" in
    two tokens among empty chunks, and a client script with a ping and a
    question about the weather. *)
Definition sample_tool_repr (d : dict jval) : string := "<tool result>".
Definition sample_subscript_error (v : pyval) : string := "value is not subscriptable".
Definition sample_completions (history : list ChatMessage) : Stream :=
  mkStream [Some "Hel"; None; Some ""; Some "lo"] None.
(** A connection as the module declares its handles, and the same after
    the start-up. *)
Definition fresh_relay : Relay := mkRelay fresh_world [] [] None None [] [].
Definition started_relay : Relay := (Main.lifespan fresh_relay).2.
Definition demo_relay : Relay := mkRelay demo_world [] [] None None [] [].
Definition ping_script : list inbound :=
  [ Received 1000000 (PDict [("type", PStr "ping")]) ].
Definition weather_message : dict pyval :=
  [("type", PStr "user_message"); ("content", PStr "What is the WEATHER?")].
Definition sample_script : list inbound :=
  [ Received 1000000 (PDict [("type", PStr "ping")]);
    Received 2000000 (PDict weather_message);
    Garbled 3000000 "Expecting value: line 1 column 1 (char 0)";
    Received 4000000 (PDict weather_message) ].

(** * Properties *)

(** ** The store client when the store is up *)

Ltac unfold_monad :=
  cbv [mbind M_bind bind mret M_ret ret raise try_catch get_world modify_world utcnow].

Lemma execute_up (w : World) : store_up w → execute w = (Ok tt, w).
Proof. unfold store_up, execute. by intros ->. Qed.

Lemma store_up_set_sessions f w : store_up w → store_up (set_sessions f w).
Proof. done. Qed.

Lemma store_up_set_session_events f w : store_up w → store_up (set_session_events f w).
Proof. done. Qed.

Lemma store_up_set_clock t w : store_up w → store_up (set_clock t w).
Proof. done. Qed.

Lemma store_up_add_llm_call p w : store_up w → store_up (add_llm_call p w).
Proof. done. Qed.

Create HintDb store.

#[global] Hint Resolve store_up_set_sessions store_up_set_session_events
  store_up_set_clock store_up_add_llm_call : store.

Lemma sessions_select_up sid w :
  store_up w → sessions_select sid w = (Ok (option_list (sessions w !! sid)), w).
Proof. intros Hup. unfold sessions_select. unfold_monad. by rewrite execute_up. Qed.

Lemma sessions_update_up patch sid w :
  store_up w →
  sessions_update patch sid w =
    match sessions w !! sid with
    | Some row => (Ok [patch row], set_sessions (insert sid (patch row)) w)
    | None => (Ok [], w)
    end.
Proof.
  intros Hup. unfold sessions_update. unfold_monad. rewrite execute_up by done.
  by destruct (sessions w !! sid).
Qed.

Lemma sessions_insert_up row w :
  store_up w →
  sessions_insert row w =
    match sessions w !! session_id row with
    | Some _ => (Raise (APIError "duplicate key value violates unique constraint"), w)
    | None => (Ok [row], set_sessions (insert (session_id row) row) w)
    end.
Proof.
  intros Hup. unfold sessions_insert. unfold_monad. rewrite execute_up by done.
  by destruct (sessions w !! session_id row).
Qed.

Lemma events_insert_up ev w :
  store_up w →
  events_insert ev w =
    match sessions w !! ev_session_id ev with
    | Some _ => (Ok [ev], set_session_events (λ l, l ++ [ev]) w)
    | None => (Raise (APIError "insert violates foreign key constraint"), w)
    end.
Proof.
  intros Hup. unfold events_insert. unfold_monad. rewrite execute_up by done.
  by destruct (sessions w !! ev_session_id ev).
Qed.

Lemma events_select_up sid tys w :
  store_up w →
  events_select sid tys w = (Ok (matching_events sid tys (session_events w)), w).
Proof. intros Hup. unfold events_select. unfold_monad. by rewrite execute_up. Qed.

(** ** The ledger when the store is up *)

Section LedgerUp.
Import DatabaseManager.

Lemma get_session_up sid w :
  store_up w → get_session sid w = (Ok (sessions w !! sid), w).
Proof.
  intros Hup. unfold get_session. unfold_monad. rewrite sessions_select_up by done.
  by destruct (sessions w !! sid).
Qed.

Lemma get_session_events_up sid tys w :
  store_up w →
  get_session_events sid tys w = (Ok (matching_events sid tys (session_events w)), w).
Proof.
  intros Hup. unfold get_session_events. unfold_monad. by rewrite events_select_up.
Qed.

Lemma create_session_up sid uid w :
  store_up w →
  create_session sid uid w =
    let row := mkSession sid uid (clock w) None None None active in
    match sessions w !! sid with
    | Some _ => (Raise (APIError "duplicate key value violates unique constraint"), w)
    | None => (Ok row, set_sessions (insert sid row) w)
    end.
Proof.
  intros Hup. unfold create_session. unfold_monad. rewrite sessions_insert_up by done.
  simpl. by destruct (sessions w !! sid).
Qed.

Lemma end_session_up sid w :
  store_up w →
  end_session sid w =
    match sessions w !! sid with
    | Some row =>
        let row' :=
          end_session_update_data (clock w)
            (duration_between (start_time row) (clock w)) row in
        (Ok (Some row'), set_sessions (insert sid row') w)
    | None => (Raise (ValueError ("Session " +:+ sid +:+ " not found")), w)
    end.
Proof.
  intros Hup. unfold end_session. unfold_monad. rewrite sessions_select_up by done.
  destruct (sessions w !! sid) as [row|] eqn:Hrow; simpl; [|done].
  rewrite sessions_update_up by done. by rewrite Hrow.
Qed.

Lemma update_session_summary_up sid text w :
  store_up w →
  update_session_summary sid text w =
    match sessions w !! sid with
    | Some row =>
        (Ok (Some (summary_update_data text row)),
         set_sessions (insert sid (summary_update_data text row)) w)
    | None => (Ok None, w)
    end.
Proof.
  intros Hup. unfold update_session_summary. unfold_monad.
  rewrite sessions_update_up by done. by destruct (sessions w !! sid).
Qed.

Lemma log_event_up sid ty d md w :
  store_up w →
  log_event sid ty d md w =
    let ev := mkEvent sid ty (clock w) d (metadata_or_empty md) in
    match sessions w !! sid with
    | Some _ => (Ok (Some ev), set_session_events (λ l, l ++ [ev]) w)
    | None => (Ok None, w)
    end.
Proof.
  intros Hup. unfold log_event. unfold_monad. rewrite events_insert_up by done.
  simpl. by destruct (sessions w !! sid).
Qed.

End LedgerUp.

(** ** Logging never raises *)

Section Logging.
Import DatabaseManager.

(** Whatever the store does, the only exception in [log_event] comes
    from the insert, and the handler turns it into the empty record. *)
Lemma log_event_cases sid ty d md w :
  let ev := mkEvent sid ty (clock w) d (metadata_or_empty md) in
  log_event sid ty d md w =
    if store_fails w then (Ok None, set_faults (tail (faults w)) w)
    else match sessions w !! sid with
         | Some _ =>
             (Ok (Some ev),
              set_session_events (λ l, l ++ [ev]) (set_faults (tail (faults w)) w))
         | None => (Ok None, set_faults (tail (faults w)) w)
         end.
Proof.
  unfold log_event, events_insert, execute, store_fails. unfold_monad.
  destruct w as [ss evs fs t calls]; simpl.
  destruct fs as [|[] fs]; simpl; try done; by destruct (ss !! sid).
Qed.

(** C1: for every session id, event type, payload and optional metadata,
    and in every world, [log_event] returns and never raises; when the
    store insert fails the caller receives the empty record ([None]) and
    both tables are as before, and otherwise the event is appended when
    its session exists. *)
Theorem log_event_never_raises sid ty d md w :
  ∃ out w',
    log_event sid ty d md w = (Ok out, w')
    ∧ sessions w' = sessions w
    ∧ clock w' = clock w
    ∧ (if store_fails w then
         out = None ∧ session_events w' = session_events w
       else
         match sessions w !! sid with
         | Some _ =>
             out = Some (mkEvent sid ty (clock w) d (metadata_or_empty md))
             ∧ session_events w' = session_events w ++ [ mkEvent sid ty (clock w) d (metadata_or_empty md) ]
         | None => out = None ∧ session_events w' = session_events w
         end).
Proof.
  pose proof (log_event_cases sid ty d md w) as Hcases. simpl in Hcases.
  destruct (store_fails w).
  - eexists _, _. split; [exact Hcases|]. by repeat split.
  - destruct (sessions w !! sid); eexists _, _; (split; [exact Hcases|]); by repeat split.
Qed.

End Logging.

(** ** A session that is not there *)

Section Absent.
Import DatabaseManager.

(** C10: with the store up and no row for the session id,
    [update_session_summary] checks nothing: it returns the empty record
    ([None]) without raising and the world is unchanged, whereas
    [end_session] raises its not-found [ValueError]. *)
Theorem update_summary_absent_no_error sid text w :
  store_up w →
  sessions w !! sid = None →
  update_session_summary sid text w = (Ok None, w)
  ∧ end_session sid w = (Raise (ValueError ("Session " +:+ sid +:+ " not found")), w).
Proof.
  intros Hup Hnone.
  rewrite update_session_summary_up, end_session_up by done.
  by rewrite Hnone.
Qed.

End Absent.

Lemma update_summary_absent_witness :
  DatabaseManager.update_session_summary "ghost" "text" demo_world = (Ok None, demo_world)
  ∧ DatabaseManager.end_session "ghost" demo_world
    = (Raise (ValueError ("Session " +:+ "ghost" +:+ " not found")), demo_world).
Proof. apply (update_summary_absent_no_error "ghost" "text" demo_world); reflexivity. Defined.

(** ** The duration written by [end_session] *)

Section Duration.
Import DatabaseManager.

(** The rounded quotient is within a half of the exact one. *)
Lemma round_half_even_near N D :
  0 ≤ N → 0 < D →
  2 * N - D ≤ 2 * round_half_even N D * D ≤ 2 * N + D.
Proof.
  intros HN HD. unfold round_half_even.
  pose proof (Z.div_mod N D ltac:(lia)) as Hdm.
  pose proof (Z.mod_pos_bound N D HD) as Hr.
  set (q := N / D) in *. set (r := N mod D) in *.
  destruct (Z.ltb_spec (2 * r) D); [nia|].
  destruct (Z.ltb_spec D (2 * r)); [nia|].
  destruct (Z.even q); nia.
Qed.

(** The exponent of the double for a span below [2^k] seconds. *)
Lemma binade_below n k :
  0 ≤ k → 1 ≤ n < 2 ^ k * 1000000 →
  - 72 ≤ binade n 1000000 ≤ k - 53.
Proof.
  intros Hk [Hlo Hhi]. unfold binade.
  change (Z.log2 1000000) with 19.
  pose proof (Z.log2_nonneg n) as Hnn.
  assert (Hlog : Z.log2 n < k + 20).
  { apply Z.log2_lt_pow2; [lia|].
    rewrite Z.pow_add_r by lia. change (2 ^ 20) with 1048576.
    pose proof (Z.pow_pos_nonneg 2 k ltac:(lia) Hk). nia. }
  destruct (Z.leb_spec (2 ^ 52 * (1000000 * 2 ^ Z.max 0 (Z.log2 n - 19 - 52)))
              (n * 2 ^ Z.max 0 (- (Z.log2 n - 19 - 52)))) as [Hle|Hgt]; [|lia].
  split; [lia|].
  destruct (Z.eq_dec (Z.log2 n) (k + 19)) as [Heq|]; [|lia].
  exfalso. rewrite Heq in Hle.
  replace (k + 19 - 19 - 52) with (k - 52) in Hle by lia.
  destruct (Z.le_gt_cases 52 k) as [Hbig|Hsmall].
  - rewrite (Z.max_r 0 (k - 52)) in Hle by lia.
    rewrite (Z.max_l 0 (- (k - 52))) in Hle by lia.
    change (2 ^ 0) with 1 in Hle.
    assert (2 ^ k = 2 ^ 52 * 2 ^ (k - 52)) as Hsplit
      by (rewrite <- Z.pow_add_r by lia; f_equal; lia).
    nia.
  - rewrite (Z.max_l 0 (k - 52)) in Hle by lia.
    rewrite (Z.max_r 0 (- (k - 52))) in Hle by lia.
    change (2 ^ 0) with 1 in Hle.
    assert (2 ^ 52 = 2 ^ k * 2 ^ (- (k - 52))) as Hsplit
      by (rewrite <- Z.pow_add_r by lia; f_equal; lia).
    pose proof (Z.pow_pos_nonneg 2 (- (k - 52)) ltac:(lia) ltac:(lia)).
    nia.
Qed.

(** The significand of the double of a span of [n] microseconds below
    2^53 seconds, scaled back, lies between the whole seconds of the span
    and the next second. *)
Lemma true_divide_brackets n :
  1 ≤ n < 2 ^ 53 * 1000000 →
  let x := timedelta_total_seconds n in
  let P := 2 ^ (- binary_exponent x) in
  - 72 ≤ binary_exponent x ≤ 0
  ∧ n / 1000000 * P ≤ significand x ≤ (n / 1000000 + 1) * P
  ∧ (1000000 < 2 * P → significand x < (n / 1000000 + 1) * P).
Proof.
  intros [Hlo Hhi] x P. subst x P.
  unfold timedelta_total_seconds, true_divide.
  destruct (Z.eqb_spec n 0) as [->|Hne]; [lia|].
  rewrite Z.abs_eq by lia. rewrite Z.sgn_pos by lia.
  pose proof (binade_below n 53 ltac:(lia) ltac:(lia)) as He.
  set (e := binade n 1000000) in *.
  cbn [binary_exponent significand].
  rewrite (Z.max_r 0 (- e)) by lia. rewrite (Z.max_l 0 e) by lia.
  change (2 ^ 0) with 1. rewrite Z.mul_1_r, Z.mul_1_l.
  pose proof (Z.pow_pos_nonneg 2 (- e) ltac:(lia) ltac:(lia)) as HP.
  set (P := 2 ^ (- e)) in *.
  pose proof (round_half_even_near (n * P) 1000000 ltac:(nia) ltac:(lia)) as Hm.
  set (m := round_half_even (n * P) 1000000) in *.
  pose proof (Z.div_mod n 1000000 ltac:(lia)) as Hdm.
  pose proof (Z.mod_pos_bound n 1000000 ltac:(lia)) as Hr.
  set (q := n / 1000000) in *. set (r := n mod 1000000) in *.
  split; [lia|]. split; [nia|]. intros Hfine. nia.
Qed.

(** Below 2^34 seconds the double is fine enough for [int()] to give the
    whole seconds of the span. *)
Lemma int_of_total_seconds_short n :
  0 ≤ n < 2 ^ 34 * 1000000 →
  int_of_double (timedelta_total_seconds n) = n / 1000000.
Proof.
  intros [Hlo Hhi].
  destruct (Z.eq_dec n 0) as [->|Hne]; [reflexivity|].
  pose proof (true_divide_brackets n ltac:(lia)) as (He & Hm & Hfine).
  assert (He34 : binary_exponent (timedelta_total_seconds n) ≤ - 19).
  { unfold timedelta_total_seconds, true_divide.
    destruct (Z.eqb_spec n 0); [lia|]. rewrite Z.abs_eq by lia.
    cbn [binary_exponent].
    pose proof (binade_below n 34 ltac:(lia) ltac:(lia)). lia. }
  unfold int_of_double.
  set (x := timedelta_total_seconds n) in *.
  destruct (Z.leb_spec 0 (binary_exponent x)); [lia|].
  assert (HP : 2 ^ 19 ≤ 2 ^ (- binary_exponent x)) by (apply Z.pow_le_mono_r; lia).
  change (2 ^ 19) with 524288 in HP.
  set (P := 2 ^ (- binary_exponent x)) in *.
  assert (Hq : 0 ≤ n / 1000000) by (apply Z.div_pos; lia).
  specialize (Hfine ltac:(lia)).
  rewrite Z.quot_div_nonneg by nia.
  symmetry.
  apply (Z.div_unique (significand x) P (n / 1000000)
           (significand x - n / 1000000 * P)); [left; lia|lia].
Qed.

(** Below 2^53 seconds, which the span of two datetimes is, [int()]
    gives the whole seconds of the span or one more. *)
Lemma int_of_total_seconds_long n :
  0 ≤ n < 2 ^ 53 * 1000000 →
  n / 1000000 ≤ int_of_double (timedelta_total_seconds n) ≤ n / 1000000 + 1.
Proof.
  intros [Hlo Hhi].
  destruct (Z.eq_dec n 0) as [->|Hne]; [by vm_compute|].
  pose proof (true_divide_brackets n ltac:(lia)) as (He & Hm & _).
  unfold int_of_double.
  set (x := timedelta_total_seconds n) in *.
  assert (Hq : 0 ≤ n / 1000000) by (apply Z.div_pos; lia).
  destruct (Z.leb_spec 0 (binary_exponent x)).
  - replace (binary_exponent x) with 0 in * by lia.
    change (2 ^ (- 0)) with 1 in Hm. change (2 ^ 0) with 1. lia.
  - pose proof (Z.pow_pos_nonneg 2 (- binary_exponent x) ltac:(lia) ltac:(lia)) as HP.
    set (P := 2 ^ (- binary_exponent x)) in *.
    rewrite Z.quot_div_nonneg by nia. split.
    + apply Z.div_le_lower_bound; lia.
    + apply Z.div_le_upper_bound; lia.
Qed.

(** The double of the opposite span is the opposite double. *)
Lemma int_of_total_seconds_opp n :
  int_of_double (timedelta_total_seconds (- n))
  = - int_of_double (timedelta_total_seconds n).
Proof.
  unfold timedelta_total_seconds, true_divide. rewrite Z.abs_opp, Z.sgn_opp.
  destruct (Z.eqb_spec n 0) as [->|Hne]; [reflexivity|].
  destruct (Z.eqb_spec (- n) 0); [lia|].
  unfold int_of_double. cbn [significand binary_exponent].
  set (e := binade (Z.abs n) 1000000).
  destruct (Z.leb_spec 0 e); [lia|].
  rewrite Z.mul_opp_l. apply Z.quot_opp_l.
  pose proof (Z.pow_pos_nonneg 2 (- e) ltac:(lia) ltac:(lia)). lia.
Qed.

Lemma duration_between_short t0 t1 :
  Z.abs (t1 - t0) < 2 ^ 34 * 1000000 →
  duration_between t0 t1 = (t1 - t0) ÷ 1000000.
Proof.
  intros Hshort. unfold duration_between.
  destruct (Z.le_gt_cases 0 (t1 - t0)) as [Hpos|Hneg].
  - rewrite int_of_total_seconds_short by lia. symmetry. apply Z.quot_div_nonneg; lia.
  - replace (t1 - t0) with (- (t0 - t1)) by lia.
    rewrite int_of_total_seconds_opp, int_of_total_seconds_short by lia.
    rewrite Z.quot_opp_l by lia. f_equal. symmetry. apply Z.quot_div_nonneg; lia.
Qed.

Lemma duration_between_forward t0 t1 :
  0 ≤ t1 - t0 < 2 ^ 34 * 1000000 → duration_between t0 t1 = (t1 - t0) / 1000000.
Proof. intros Hle. unfold duration_between. by apply int_of_total_seconds_short. Qed.

Lemma duration_between_backward t0 t1 :
  0 ≤ t0 - t1 < 2 ^ 34 * 1000000 → duration_between t0 t1 = - ((t0 - t1) / 1000000).
Proof.
  intros Hle. unfold duration_between.
  replace (t1 - t0) with (- (t0 - t1)) by lia.
  by rewrite int_of_total_seconds_opp, int_of_total_seconds_short.
Qed.

(** C3, as stated, fails in two ways.  With the clock ahead of the stored
    start time: a span of 20000000000.999999 s has no double of its own,
    the nearest one is 20000000001.0, and that is written, one more than
    the floor.  With the clock behind the stored start time: the span of
    -1.5 s is cut to -1, its floor is -2. *)
Lemma end_session_duration_not_floor :
  (∃ row w',
     end_session "s1" long_world = (Ok (Some row), w')
     ∧ start_time row ≤ clock long_world
     ∧ duration_seconds row = Some 20000000001
     ∧ (clock long_world - start_time row) / 1000000 = 20000000000
     ∧ duration_seconds row ≠ Some ((clock long_world - start_time row) / 1000000))
  ∧ (∃ row w',
       end_session "s1" skewed_world = (Ok (Some row), w')
       ∧ duration_seconds row = Some (-1)
       ∧ (clock skewed_world - 1500000) / 1000000 = -2
       ∧ duration_seconds row ≠ Some ((clock skewed_world - 1500000) / 1000000)).
Proof.
  split.
  - eexists _, _. split; [by vm_compute|]. repeat split; by vm_compute.
  - eexists _, _. split; [by vm_compute|]. repeat split; by vm_compute.
Qed.

(** C3 (amended): with the store up, [end_session] at clock reading T1 on
    a session whose stored start time is T0 writes [end_time] = T1,
    [status] = completed and [duration_seconds] =
    [int((T1 - T0).total_seconds())]: the double nearest to the span in
    seconds, its fraction cut off towards zero.  For a span of less than
    2^34 seconds either way this is the exact span cut off towards zero:
    floor(T1 - T0) when T0 <= T1, and -floor(T0 - T1) when the clock
    reads less than T0.  For a span forward of less than 2^53 seconds,
    which all spans of two datetimes are, it is floor(T1 - T0) or one
    more.  The other columns keep their values. *)
Theorem end_session_duration sid row w :
  store_up w →
  sessions w !! sid = Some row →
  ∃ row' d,
    end_session sid w = (Ok (Some row'), set_sessions (insert sid row') w)
    ∧ end_time row' = Some (clock w)
    ∧ status row' = completed
    ∧ duration_seconds row' = Some d
    ∧ d = int_of_double (timedelta_total_seconds (clock w - start_time row))
    ∧ (Z.abs (clock w - start_time row) < 2 ^ 34 * 1000000 →
       d = (clock w - start_time row) ÷ 1000000)
    ∧ (0 ≤ clock w - start_time row < 2 ^ 34 * 1000000 →
       d = (clock w - start_time row) / 1000000
       ∧ d * 1000000 ≤ clock w - start_time row < (d + 1) * 1000000)
    ∧ (0 ≤ start_time row - clock w < 2 ^ 34 * 1000000 →
       d = - ((start_time row - clock w) / 1000000))
    ∧ (0 ≤ clock w - start_time row < 2 ^ 53 * 1000000 →
       (clock w - start_time row) / 1000000 ≤ d ≤ (clock w - start_time row) / 1000000 + 1)
    ∧ session_id row' = session_id row ∧ user_id row' = user_id row
    ∧ start_time row' = start_time row ∧ summary row' = summary row.
Proof.
  intros Hup Hrow. rewrite end_session_up by done. rewrite Hrow. simpl.
  eexists _, _. split; [reflexivity|]. simpl. repeat apply conj; try reflexivity.
  - apply duration_between_short.
  - intros Hle. rewrite duration_between_forward by done.
    pose proof (Z.mod_pos_bound (clock w - start_time row) 1000000).
    pose proof (Z.div_mod (clock w - start_time row) 1000000). lia.
  - apply duration_between_backward.
  - apply int_of_total_seconds_long.
Qed.

Lemma end_session_duration_witness :
  ∃ row' d,
    end_session "s1" demo_world = (Ok (Some row'), set_sessions (insert "s1" row') demo_world)
    ∧ end_time row' = Some 3500000
    ∧ status row' = completed
    ∧ duration_seconds row' = Some d
    ∧ d = 2.
Proof.
  destruct (end_session_duration "s1" demo_session demo_world)
    as (row' & d & Hrun & Hend & Hst & Hd & _ & _ & Hq & _); [reflexivity|reflexivity|].
  exists row', d. repeat split; try done.
  apply Hq. by vm_compute.
Defined.

End Duration.

(** ** The order of the statuses *)

Section StatusOrder.
Import DatabaseManager.

(** What one ledger operation can do to the status that is read, in any
    world: nothing (it raised, or matched no row), or the one change it
    is written to make. *)
Lemma create_session_observe sid uid w :
  let w' := (create_session sid uid w).2 in
  observe sid w' = observe sid w
  ∨ (observe sid w = None ∧ observe sid w' = Some active).
Proof.
  unfold create_session, sessions_insert, execute, observe. unfold_monad.
  destruct w as [ss evs fs t calls]; simpl.
  destruct fs as [|[] fs]; simpl; auto;
    destruct (ss !! sid) eqn:Hrow; simpl; rewrite ?Hrow, ?lookup_insert_eq; simpl; auto.
Qed.

Lemma end_session_observe sid w :
  let w' := (end_session sid w).2 in
  observe sid w' = observe sid w
  ∨ (is_Some (observe sid w) ∧ observe sid w' = Some completed).
Proof.
  unfold end_session, sessions_select, sessions_update, execute, observe. unfold_monad.
  destruct w as [ss evs fs t calls]; simpl.
  destruct fs as [|[] fs]; simpl; auto;
    destruct (ss !! sid) eqn:Hrow; simpl; rewrite ?Hrow; simpl; auto;
    try (destruct fs as [|[] fs]; simpl);
    rewrite ?Hrow; simpl; rewrite ?lookup_insert_eq; simpl; eauto.
Qed.

Lemma update_session_summary_observe sid text w :
  let w' := (update_session_summary sid text w).2 in
  observe sid w' = observe sid w
  ∨ (is_Some (observe sid w) ∧ observe sid w' = Some summarized).
Proof.
  unfold update_session_summary, sessions_update, execute, observe. unfold_monad.
  destruct w as [ss evs fs t calls]; simpl.
  destruct fs as [|[] fs]; simpl; auto;
    destruct (ss !! sid) eqn:Hrow; simpl; rewrite ?Hrow, ?lookup_insert_eq; simpl; eauto.
Qed.

Lemma ledger_call_snd_create sid uid w :
  (ledger_call sid (CreateSession uid) w).2 = (create_session sid uid w).2.
Proof.
  unfold ledger_call. unfold_monad. by destruct (create_session sid uid w) as [[] ?].
Qed.

Lemma ledger_call_snd_end sid w :
  (ledger_call sid EndSession w).2 = (end_session sid w).2.
Proof.
  unfold ledger_call. unfold_monad. by destruct (end_session sid w) as [[] ?].
Qed.

Lemma ledger_call_snd_summary sid text w :
  (ledger_call sid (UpdateSummary text) w).2 = (update_session_summary sid text w).2.
Proof.
  unfold ledger_call. unfold_monad.
  by destruct (update_session_summary sid text w) as [[] ?].
Qed.

(** The status after a step is the status before it, or the one the
    operation writes. *)
Lemma ledger_step_observe sid w t op :
  let w' := ledger_step sid w (t, op) in
  observe sid w' = observe sid w
  ∨ match op with
    | CreateSession _ => observe sid w = None ∧ observe sid w' = Some active
    | EndSession => is_Some (observe sid w) ∧ observe sid w' = Some completed
    | UpdateSummary _ => is_Some (observe sid w) ∧ observe sid w' = Some summarized
    end.
Proof.
  unfold ledger_step. simpl.
  destruct op as [uid| |text].
  - rewrite ledger_call_snd_create. apply (create_session_observe sid uid (set_clock t w)).
  - rewrite ledger_call_snd_end. apply (end_session_observe sid (set_clock t w)).
  - rewrite ledger_call_snd_summary.
    apply (update_session_summary_observe sid text (set_clock t w)).
Qed.

Lemma ledger_step_create_up sid uid t w :
  store_up w →
  sessions w !! sid = None →
  ledger_step sid w (t, CreateSession uid)
    = set_sessions (insert sid (mkSession sid uid t None None None active)) (set_clock t w).
Proof.
  intros Hup Hnone. unfold ledger_step. cbn [fst snd].
  rewrite ledger_call_snd_create, create_session_up by auto with store.
  cbn [sessions set_clock]. by rewrite Hnone.
Qed.

Lemma ledger_step_end_up sid t w row :
  store_up w →
  sessions w !! sid = Some row →
  ledger_step sid w (t, EndSession)
    = set_sessions
        (insert sid (end_session_update_data t (duration_between (start_time row) t) row))
        (set_clock t w).
Proof.
  intros Hup Hrow. unfold ledger_step. cbn [fst snd].
  rewrite ledger_call_snd_end, end_session_up by auto with store.
  cbn [sessions set_clock]. by rewrite Hrow.
Qed.

Lemma ledger_step_summary_up sid text t w row :
  store_up w →
  sessions w !! sid = Some row →
  ledger_step sid w (t, UpdateSummary text)
    = set_sessions (insert sid (summary_update_data text row)) (set_clock t w).
Proof.
  intros Hup Hrow. unfold ledger_step. cbn [fst snd].
  rewrite ledger_call_snd_summary, update_session_summary_up by auto with store.
  cbn [sessions set_clock]. by rewrite Hrow.
Qed.

Lemma no_end_after_summary_tail op ops :
  no_end_after_summary (op :: ops) = true → no_end_after_summary ops = true.
Proof. destruct op; simpl; auto. intros [_ ?]%andb_prop. done. Qed.

(** The invariant behind the order: once the status reads summarized, no
    [EndSession] is left in the sequence. *)
Lemma status_trace_sorted sid steps :
  ∀ w,
    no_end_after_summary (map snd steps) = true →
    (observe sid w = Some summarized →
     forallb (λ op, negb (is_end op)) (map snd steps) = true) →
    Forall (at_least (observe sid w)) (status_trace sid steps w)
    ∧ never_decreases (status_trace sid steps w).
Proof.
  induction steps as [|[t op] steps IH]; intros w Hord Hsum; simpl.
  { split; constructor. }
  pose proof (ledger_step_observe sid w t op) as Hstep. simpl in Hstep.
  set (w' := ledger_step sid w (t, op)) in *.
  assert (Hmono : ∀ st', observe sid w' = Some st' → at_least (observe sid w) st').
  { intros st' Hst' st0 Hst0.
    destruct Hstep as [Heq|Hch].
    - rewrite Heq, Hst0 in Hst'. by injection Hst' as ->.
    - destruct op as [uid| |text]; destruct Hch as [Hbefore Hafter].
      + congruence.
      + rewrite Hafter in Hst'. injection Hst' as <-.
        destruct st0; simpl; try lia.
        specialize (Hsum Hst0). simpl in Hsum. done.
      + rewrite Hafter in Hst'. injection Hst' as <-. destruct st0; simpl; lia. }
  assert (Hsum' : observe sid w' = Some summarized →
                  forallb (λ op, negb (is_end op)) (map snd steps) = true).
  { intros Hw'. destruct Hstep as [Heq|Hch].
    - rewrite Heq in Hw'. specialize (Hsum Hw'). simpl in Hsum.
      by apply andb_prop in Hsum as [_ ?].
    - destruct op as [uid| |text]; destruct Hch as [_ Hafter]; try congruence.
      simpl in Hord. by apply andb_prop in Hord as [? _]. }
  destruct (IH w' (no_end_after_summary_tail _ _ Hord) Hsum') as [Hall Hsorted].
  destruct (observe sid w') as [st'|] eqn:Hobs.
  - split.
    + constructor; [by apply Hmono|].
      eapply Forall_impl; [exact Hall|].
      intros st Hst st0 Hst0. specialize (Hst st' eq_refl).
      specialize (Hmono st' eq_refl st0 Hst0). lia.
    + constructor; [done|].
      destruct (status_trace sid steps w') as [|st rest]; constructor.
      apply Forall_cons in Hall as [Hst _]. by apply Hst.
  - split; [|done].
    eapply Forall_impl; [exact Hall|].
    intros st _ st0 Hst0.
    destruct Hstep as [Heq|Hch].
    + congruence.
    + destruct op; destruct Hch as [_ ?]; congruence.
Qed.

(** C2, as stated, fails: the operations check no status, and an
    [end_session] after the summary takes the status back from
    summarized to completed. *)
Lemma status_goes_back_on_second_end :
  status_trace "s1" double_end_steps fresh_world
    = [active; completed; summarized; completed]
  ∧ ¬ never_decreases (status_trace "s1" double_end_steps fresh_world).
Proof.
  assert (Htrace : status_trace "s1" double_end_steps fresh_world
                   = [active; completed; summarized; completed]) by reflexivity.
  split; [done|]. rewrite Htrace. intros Hs.
  apply Sorted_inv in Hs as [Hs _]. apply Sorted_inv in Hs as [Hs _].
  apply Sorted_inv in Hs as [_ Hhd]. apply HdRel_inv in Hhd. simpl in Hhd. lia.
Qed.

(** C2 (amended): for a session that starts without a row and every
    sequence of [create_session], [end_session] and
    [update_session_summary] calls in which no [end_session] follows an
    [update_session_summary], whatever the clock reads and whichever
    store calls fail, the status read after each call never decreases
    along active, completed, summarized.  (No operation checks the
    status, so nothing is promised for the other sequences.)  In the
    order create, end, summarize with the store up the statuses are
    active, completed, summarized; [end_time] and [duration_seconds]
    are written by the step to completed and [summary] by the step to
    summarized. *)
Theorem status_never_decreases sid steps w :
  sessions w !! sid = None →
  no_end_after_summary (map snd steps) = true →
  never_decreases (status_trace sid steps w)
  ∧ (store_up w →
     ∀ uid text t0 t1 t2,
       let w1 := ledger_step sid w (t0, CreateSession uid) in
       let w2 := ledger_step sid w1 (t1, EndSession) in
       let w3 := ledger_step sid w2 (t2, UpdateSummary text) in
       sessions w1 !! sid = Some (mkSession sid uid t0 None None None active)
       ∧ sessions w2 !! sid
         = Some (mkSession sid uid t0 (Some t1) (Some (duration_between t0 t1)) None completed)
       ∧ sessions w3 !! sid
         = Some (mkSession sid uid t0 (Some t1) (Some (duration_between t0 t1))
                   (Some text) summarized)).
Proof.
  intros Hnone Hord. split.
  - apply status_trace_sorted; [done|].
    unfold observe. rewrite Hnone. done.
  - intros Hup uid text t0 t1 t2. cbv zeta.
    rewrite (ledger_step_create_up sid uid t0 w) by done.
    rewrite (ledger_step_end_up sid t1 _ (mkSession sid uid t0 None None None active))
      by (auto with store || apply lookup_insert_eq).
    rewrite (ledger_step_summary_up sid text t2 _
               (mkSession sid uid t0 (Some t1) (Some (duration_between t0 t1)) None completed))
      by (auto with store || apply lookup_insert_eq).
    repeat apply conj; simpl; by rewrite ?lookup_insert_eq.
Qed.

End StatusOrder.

Lemma status_never_decreases_witness :
  never_decreases (status_trace "s1" lifecycle_steps fresh_world).
Proof.
  exact (proj1 (status_never_decreases "s1" lifecycle_steps fresh_world eq_refl eq_refl)).
Defined.

(** ** Ordering by timestamp *)

Section Ordering.

Lemma insert_by_timestamp_perm e l : insert_by_timestamp e l ≡ₚ e :: l.
Proof.
  induction l as [|x xs IH]; simpl; [done|].
  destruct (timestamp e <=? timestamp x); [done|].
  rewrite IH. apply Permutation_swap.
Qed.

Lemma order_by_timestamp_perm l : order_by_timestamp l ≡ₚ l.
Proof.
  induction l as [|x xs IH]; simpl; [done|].
  rewrite insert_by_timestamp_perm. by rewrite IH.
Qed.

(** An event no later than all of a list goes in front of it. *)
Lemma insert_by_timestamp_front e l :
  Forall (λ x, timestamp e ≤ timestamp x) l → insert_by_timestamp e l = e :: l.
Proof.
  destruct l as [|x xs]; simpl; [done|].
  intros [Hx _]%Forall_cons. by rewrite (proj2 (Z.leb_le _ _) Hx).
Qed.

Lemma insert_by_timestamp_sorted e l :
  StronglySorted (λ a b, timestamp a ≤ timestamp b) l →
  StronglySorted (λ a b, timestamp a ≤ timestamp b) (insert_by_timestamp e l).
Proof.
  induction 1 as [|x xs Hs IH Hall]; simpl.
  { repeat constructor. }
  destruct (timestamp e <=? timestamp x) eqn:Hle.
  - apply Z.leb_le in Hle. constructor; [by constructor|].
    constructor; [done|]. eapply Forall_impl; [exact Hall|]. simpl. lia.
  - apply Z.leb_gt in Hle. constructor; [done|].
    rewrite insert_by_timestamp_perm. constructor; [lia|done].
Qed.

Lemma order_by_timestamp_sorted l :
  StronglySorted (λ a b, timestamp a ≤ timestamp b) (order_by_timestamp l).
Proof.
  induction l as [|x xs IH]; simpl; [constructor|].
  by apply insert_by_timestamp_sorted.
Qed.

(** A log whose timestamps already ascend comes back as it is. *)
Lemma order_by_timestamp_id l : timestamps_ascend l → order_by_timestamp l = l.
Proof.
  unfold timestamps_ascend. induction 1 as [|x xs Hs IH Hhd]; simpl; [done|].
  rewrite IH. destruct Hhd as [|y ys Hxy]; simpl; [done|].
  by rewrite (proj2 (Z.leb_le _ _) Hxy).
Qed.

(** Narrowing the rows before or after the ordering gives the same
    rows: equal timestamps keep their insertion order. *)
Lemma filter_insert_by_timestamp (P : Event → Prop) `{!∀ e, Decision (P e)} e l :
  StronglySorted (λ a b, timestamp a ≤ timestamp b) l →
  filter P (insert_by_timestamp e l) =
    if decide (P e) then insert_by_timestamp e (filter P l) else filter P l.
Proof.
  induction 1 as [|x xs Hs IH Hall]; simpl.
  { rewrite filter_cons, filter_nil. by destruct (decide (P e)). }
  destruct (timestamp e <=? timestamp x) eqn:Hle.
  - apply Z.leb_le in Hle. rewrite filter_cons.
    destruct (decide (P e)); [|done].
    rewrite insert_by_timestamp_front; [done|].
    apply Forall_forall. intros y Hy.
    apply list_elem_of_filter in Hy as [_ Hy].
    apply elem_of_cons in Hy as [->|Hy]; [done|].
    rewrite Forall_forall in Hall. specialize (Hall y Hy). simpl in Hall. lia.
  - rewrite !(filter_cons _ x), IH.
    destruct (decide (P x)), (decide (P e)); simpl; by rewrite ?Hle.
Qed.

Lemma filter_order_by_timestamp (P : Event → Prop) `{!∀ e, Decision (P e)} l :
  filter P (order_by_timestamp l) = order_by_timestamp (filter P l).
Proof.
  induction l as [|x xs IH]; simpl; [done|].
  rewrite filter_insert_by_timestamp by apply order_by_timestamp_sorted.
  rewrite filter_cons, IH. by destruct (decide (P x)).
Qed.

Lemma timestamps_ascend_filter (P : Event → Prop) `{!∀ e, Decision (P e)} l :
  timestamps_ascend l → timestamps_ascend (filter P l).
Proof.
  unfold timestamps_ascend. intros Hs.
  apply StronglySorted_Sorted.
  apply Sorted_StronglySorted in Hs; [|intros a b c; simpl; lia].
  induction Hs as [|x xs Hs IH Hall]; [constructor|].
  rewrite filter_cons. destruct (decide (P x)); [|done].
  constructor; [done|].
  apply Forall_forall. intros y [_ Hy]%list_elem_of_filter.
  rewrite Forall_forall in Hall. by apply Hall.
Qed.

End Ordering.

(** ** The conversation of a session *)

Section Conversation.
Import DatabaseManager.

Lemma message_of_role e :
  (event_type e = "user_message" → role (message_of e) = "user")
  ∧ (event_type e = "assistant_response" → role (message_of e) = "assistant").
Proof. unfold message_of. split; intros ->; reflexivity. Qed.

(** The loop adds the message of each conversation event and skips the
    other events. *)
Lemma append_message_cases conversation e :
  append_message conversation e
  = if decide (is_conversation_event e) then conversation ++ [message_of e]
    else conversation.
Proof.
  unfold append_message, message_of.
  destruct (String.eqb_spec (event_type e) "user_message") as [Hu|Hu];
    destruct (String.eqb_spec (event_type e) "assistant_response") as [Ha|Ha];
    destruct (decide (is_conversation_event e)) as [Hc|Hc];
    unfold is_conversation_event in Hc; try done; tauto.
Qed.

Lemma foldl_append_message events :
  ∀ conversation,
    foldl append_message conversation events
    = conversation ++ map message_of (filter is_conversation_event events).
Proof.
  induction events as [|e events IH]; intros conversation; simpl.
  { by rewrite app_nil_r. }
  rewrite IH, filter_cons, append_message_cases.
  destruct (decide (is_conversation_event e)); [|done].
  by rewrite <- app_assoc.
Qed.

(** Asking the store for the two conversation types gives the
    conversation events of the session's ordered log. *)
Lemma matching_events_conversation sid log :
  matching_events sid (Some ["user_message"; "assistant_response"]) log
  = filter is_conversation_event (matching_events sid None log).
Proof.
  unfold matching_events. rewrite filter_order_by_timestamp. f_equal.
  apply list_filter_iff. intros e. unfold is_conversation_event.
  rewrite !elem_of_cons, elem_of_nil. tauto.
Qed.

Lemma get_conversation_history_up sid w :
  store_up w →
  get_conversation_history sid w
  = (Ok (map message_of
           (filter is_conversation_event (matching_events sid None (session_events w)))), w).
Proof.
  intros Hup. unfold get_conversation_history. unfold_monad.
  rewrite get_session_events_up by done.
  rewrite foldl_append_message, matching_events_conversation, list_filter_filter.
  simpl. do 3 f_equal. apply list_filter_iff. tauto.
Qed.

(** C4: with the store up, [get_conversation_history] returns one
    message per [user_message] or [assistant_response] event of the
    session, with its role, content and timestamp, in the order of the
    events as [get_session_events] returns them (ascending timestamps,
    which is the order of logging when the log's timestamps ascend);
    events of other types are left out, and a log made of conversation
    events only comes back with the same count, contents and order. *)
Theorem conversation_round_trip sid w :
  store_up w →
  ∃ events conversation,
    get_session_events sid None w = (Ok events, w)
    ∧ get_conversation_history sid w = (Ok conversation, w)
    ∧ events ≡ₚ session_log sid w
    ∧ timestamps_ascend events
    ∧ conversation = map message_of (filter is_conversation_event events)
    ∧ length conversation = length (filter is_conversation_event (session_log sid w))
    ∧ (timestamps_ascend (session_log sid w) →
       conversation = map message_of (filter is_conversation_event (session_log sid w)))
    ∧ (timestamps_ascend (session_log sid w) →
       Forall is_conversation_event (session_log sid w) →
       conversation = map message_of (session_log sid w)).
Proof.
  intros Hup. eexists _, _.
  split; [by apply get_session_events_up|].
  split; [by apply get_conversation_history_up|].
  unfold matching_events. fold (session_log sid w).
  repeat apply conj.
  - apply order_by_timestamp_perm.
  - apply StronglySorted_Sorted, order_by_timestamp_sorted.
  - done.
  - rewrite length_map. by rewrite order_by_timestamp_perm.
  - intros Hasc. by rewrite order_by_timestamp_id.
  - intros Hasc Hall. rewrite order_by_timestamp_id by done.
    f_equal. clear Hasc. induction Hall as [|e l He Hall IH]; [done|].
    rewrite filter_cons, decide_True by done. by rewrite IH.
Qed.

Lemma conversation_round_trip_witness :
  get_conversation_history "s1" chat_world
  = (Ok [ mkMessage "user" (PStr "hi") 1500000;
          mkMessage "assistant" (PStr "hello") 2000000 ], chat_world).
Proof.
  destruct (conversation_round_trip "s1" chat_world)
    as (events & conversation & _ & Hrun & _ & _ & _ & _ & Hlog & _); [reflexivity|].
  rewrite Hrun, Hlog; [reflexivity|].
  unfold timestamps_ascend.
  let l := eval vm_compute in (session_log "s1" chat_world) in
  change (session_log "s1" chat_world) with l.
  repeat constructor; simpl; lia.
Defined.

End Conversation.

(** ** The statistics of a session *)

Section Statistics.
Import DatabaseManager.

Lemma dict_get_set (k k' : string) (v default : nat) (d : dict nat) :
  dict_get k' default (dict_set k v d)
  = if decide (k' = k) then v else dict_get k' default d.
Proof.
  unfold dict_get. induction d as [|[k0 v0] d IH]; simpl.
  - destruct (String.eqb_spec k' k); by destruct (decide (k' = k)).
  - destruct (String.eqb_spec k k0) as [->|Hk]; simpl.
    + destruct (String.eqb_spec k' k0); by destruct (decide (k' = k0)).
    + destruct (String.eqb_spec k' k0) as [->|Hk']; [|done].
      by rewrite decide_False by done.
Qed.

(** Counting one more event of a type adds one to the sum of the counts. *)
Lemma sum_counts_bump (k : string) (d : dict nat) :
  sum_counts (dict_set k (dict_get k 0 d + 1)%nat d) = S (sum_counts d).
Proof.
  unfold dict_get. induction d as [|[k0 v0] d IH]; simpl; [done|].
  destruct (String.eqb_spec k k0) as [->|Hk]; simpl; [lia|].
  rewrite IH. lia.
Qed.

Lemma sum_counts_foldl events :
  ∀ types, sum_counts (foldl count_event types events)
           = (sum_counts types + length events)%nat.
Proof.
  induction events as [|e events IH]; intros types; simpl; [lia|].
  rewrite IH. unfold count_event. rewrite sum_counts_bump. lia.
Qed.

Lemma dict_get_foldl ty events :
  ∀ types, dict_get ty 0%nat (foldl count_event types events)
           = (dict_get ty 0 types + count_type ty events)%nat.
Proof.
  unfold count_type.
  induction events as [|e events IH]; intros types; simpl; [lia|].
  rewrite IH, filter_cons. unfold count_event at 1. rewrite dict_get_set.
  destruct (decide (ty = event_type e)) as [->|Hne].
  - rewrite decide_True by done. simpl. lia.
  - rewrite decide_False by done. lia.
Qed.

(** Every event is a user message, an assistant response, a function
    call, or of another type. *)
Lemma length_by_kind (events : list Event) :
  length events
  = (count_type "user_message" events + count_type "assistant_response" events
     + count_type "function_call" events + length (filter is_other_event events))%nat.
Proof.
  unfold count_type. induction events as [|e events IH]; [done|].
  rewrite !filter_cons. simpl. rewrite IH.
  destruct (decide (is_other_event e)) as [Ho|Ho]; unfold is_other_event in Ho;
    destruct (decide (event_type e = "user_message")) as [Hu|Hu];
    destruct (decide (event_type e = "assistant_response")) as [Ha|Ha];
    destruct (decide (event_type e = "function_call")) as [Hf|Hf];
    simpl; try lia; try congruence; tauto.
Qed.

Lemma count_type_ordered ty l : count_type ty (order_by_timestamp l) = count_type ty l.
Proof. unfold count_type. by rewrite order_by_timestamp_perm. Qed.

(** C7: with the store up, for a session whose log holds u user
    messages, a assistant responses, f function calls and t events of
    other types, [get_session_statistics] returns total_events =
    u + a + f + t, the three counts u, a and f, and an event_types
    mapping whose counts sum to total_events (each type mapped to the
    number of its events). *)
Theorem statistics_additivity sid w :
  store_up w →
  ∃ st,
    get_session_statistics sid w = (Ok (Some st), w)
    ∧ total_events st
      = (count_type "user_message" (session_log sid w)
         + count_type "assistant_response" (session_log sid w)
         + count_type "function_call" (session_log sid w)
         + length (filter is_other_event (session_log sid w)))%nat
    ∧ user_messages st = count_type "user_message" (session_log sid w)
    ∧ assistant_responses st = count_type "assistant_response" (session_log sid w)
    ∧ function_calls st = count_type "function_call" (session_log sid w)
    ∧ sum_counts (event_types st) = total_events st
    ∧ ∀ ty, dict_get ty 0%nat (event_types st) = count_type ty (session_log sid w).
Proof.
  intros Hup. unfold get_session_statistics. unfold_monad.
  rewrite get_session_events_up by done.
  eexists. split; [reflexivity|]. simpl.
  unfold matching_events. fold (session_log sid w).
  rewrite !count_type_ordered.
  repeat apply conj; try reflexivity.
  - rewrite order_by_timestamp_perm. apply length_by_kind.
  - by rewrite sum_counts_foldl.
  - intros ty. by rewrite dict_get_foldl, count_type_ordered.
Qed.

Lemma statistics_additivity_witness :
  ∃ st,
    get_session_statistics "s1" chat_world = (Ok (Some st), chat_world)
    ∧ total_events st = 5%nat
    ∧ user_messages st = 1%nat
    ∧ assistant_responses st = 1%nat
    ∧ function_calls st = 1%nat
    ∧ sum_counts (event_types st) = 5%nat.
Proof.
  destruct (statistics_additivity "s1" chat_world)
    as (st & Hrun & Htotal & Hu & Ha & Hf & Hsum & _); [reflexivity|].
  exists st. rewrite Hsum, Htotal, Hu, Ha, Hf. by repeat split.
Defined.

End Statistics.

(** ** The humanized duration *)

Section FormatDuration.
Import SessionProcessor.

(** C8: for every non-negative number of seconds s, [_format_duration]
    returns "S seconds" when s < 60, "M minutes, S seconds" with
    M = s div 60 and S = s mod 60 when 60 <= s < 3600, and
    "H hours, M minutes" with H = s div 3600 and M = (s mod 3600) div 60
    otherwise; the parts are whole quotients and remainders (nothing is
    rounded up), and 45, 125 and 3725 give "45 seconds",
    "2 minutes, 5 seconds" and "1 hours, 2 minutes". *)
Theorem format_duration_spec (s : Z) :
  0 ≤ s →
  (s < 60 → _format_duration s = pretty s +:+ " seconds")
  ∧ (60 ≤ s < 3600 →
     _format_duration s
     = pretty (s / 60) +:+ " minutes, " +:+ pretty (s mod 60) +:+ " seconds"
     ∧ s = 60 * (s / 60) + s mod 60
     ∧ 1 ≤ s / 60 < 60 ∧ 0 ≤ s mod 60 < 60)
  ∧ (3600 ≤ s →
     _format_duration s
     = pretty (s / 3600) +:+ " hours, " +:+ pretty ((s mod 3600) / 60) +:+ " minutes"
     ∧ 1 ≤ s / 3600 ∧ 0 ≤ (s mod 3600) / 60 < 60
     ∧ 3600 * (s / 3600) + 60 * ((s mod 3600) / 60) ≤ s
       < 3600 * (s / 3600) + 60 * ((s mod 3600) / 60) + 60)
  ∧ _format_duration 45 = "45 seconds"
  ∧ _format_duration 125 = "2 minutes, 5 seconds"
  ∧ _format_duration 3725 = "1 hours, 2 minutes".
Proof.
  intros Hs. unfold _format_duration. repeat apply conj; try reflexivity.
  - intros Hlt. by rewrite (proj2 (Z.ltb_lt _ _) Hlt).
  - intros [Hge Hlt].
    rewrite (proj2 (Z.ltb_ge _ _) Hge), (proj2 (Z.ltb_lt _ _) Hlt).
    pose proof (Z.div_mod s 60). pose proof (Z.mod_pos_bound s 60).
    repeat apply conj; try reflexivity; try lia;
      (apply Z.div_le_lower_bound; lia) || (apply Z.div_lt_upper_bound; lia).
  - intros Hge.
    rewrite (proj2 (Z.ltb_ge s 60)), (proj2 (Z.ltb_ge s 3600)) by lia.
    pose proof (Z.div_mod s 3600). pose proof (Z.mod_pos_bound s 3600).
    pose proof (Z.div_mod (s mod 3600) 60). pose proof (Z.mod_pos_bound (s mod 3600) 60).
    repeat apply conj; try reflexivity; try lia;
      (apply Z.div_le_lower_bound; lia) || (apply Z.div_lt_upper_bound; lia).
Qed.

Lemma format_duration_spec_witness :
  _format_duration 59 = "59 seconds"
  ∧ _format_duration 3599 = "59 minutes, 59 seconds"
  ∧ _format_duration 7325 = "2 hours, 2 minutes".
Proof.
  repeat apply conj.
  - rewrite (proj1 (format_duration_spec 59 ltac:(lia))) by lia. reflexivity.
  - rewrite (proj1 (proj1 (proj2 (format_duration_spec 3599 ltac:(lia))) ltac:(lia))).
    reflexivity.
  - rewrite (proj1 (proj1 (proj2 (proj2 (format_duration_spec 7325 ltac:(lia)))) ltac:(lia))).
    reflexivity.
Defined.

End FormatDuration.

(** ** Post-session processing *)

Section Processing.
Import DatabaseManager SessionProcessor.

Variable isoformat : datetime → string.
Variable py_repr : pyval → string.
Variable messages_create : string → result string.

Lemma get_session_statistics_up sid w :
  store_up w →
  get_session_statistics sid w
  = (Ok (Some (stats_of (matching_events sid None (session_events w)))), w).
Proof.
  intros Hup. unfold get_session_statistics. unfold_monad.
  by rewrite get_session_events_up.
Qed.

(** Every exception inside [generate_summary] ends in its handler: the
    function returns a text in every world, and touches the world only by
    the call of the provider. *)
Lemma generate_summary_cases conversation session w :
  generate_summary isoformat py_repr messages_create conversation session w
  = match duration_seconds session with
    | None =>
        (Ok ("Error generating summary: "
             +:+ "'<' not supported between instances of 'NoneType' and 'int'"), w)
    | Some d =>
        let prompt :=
          summary_prompt session (_format_duration d)
            (_format_conversation isoformat py_repr conversation) in
        (Ok match messages_create prompt with
            | Ok text => text
            | Raise e => "Error generating summary: " +:+ str_exn e
            end,
         add_llm_call prompt w)
    end.
Proof.
  unfold generate_summary, call_provider. unfold_monad.
  destruct (duration_seconds session) as [d|]; [|done].
  by destruct (messages_create _).
Qed.

(** With the store up and the session there, post-processing runs to its
    end: it persists the summary it chose and logs the completion event,
    whose statistics were computed before that event was written. *)
Lemma process_session_up sid row w :
  store_up w →
  sessions w !! sid = Some row →
  ∃ text w2,
    match map message_of
            (filter is_conversation_event (matching_events sid None (session_events w)))
    with
    | [] => (Ok placeholder_summary, set_clock (clock w + 1 * 1000000) w)
    | m :: ms =>
        generate_summary isoformat py_repr messages_create (m :: ms) row
          (set_clock (clock w + 1 * 1000000) w)
    end = (Ok text, w2)
    ∧ process_session isoformat py_repr messages_create sid w
      = (Ok tt,
         set_session_events
           (λ l, l ++ [ completion_event sid (clock w + 1 * 1000000) text
                          (stats_of (matching_events sid None (session_events w))) ])
           (set_sessions (insert sid (summary_update_data text row)) w2)).
Proof.
  intros Hup Hrow.
  set (w1 := set_clock (clock w + 1 * 1000000) w).
  assert (Hup1 : store_up w1) by done.
  unfold process_session, sleep. unfold_monad. fold w1.
  rewrite get_session_up by done. simpl. rewrite Hrow.
  rewrite get_conversation_history_up by done. simpl.
  destruct (map message_of _) as [|m ms].
  - eexists _, _. split; [reflexivity|].
    rewrite update_session_summary_up by done. simpl. rewrite Hrow.
    rewrite get_session_statistics_up by done.
    rewrite log_event_up by done. simpl.
    by rewrite lookup_insert_eq.
  - rewrite generate_summary_cases.
    destruct (duration_seconds row) as [d|].
    + eexists _, _. split; [reflexivity|]. simpl.
      rewrite update_session_summary_up by done. simpl. rewrite Hrow.
      rewrite get_session_statistics_up by done.
      rewrite log_event_up by done. simpl.
      by rewrite lookup_insert_eq.
    + eexists _, _. split; [reflexivity|].
      rewrite update_session_summary_up by done. simpl. rewrite Hrow.
      rewrite get_session_statistics_up by done.
      rewrite log_event_up by done. simpl.
      by rewrite lookup_insert_eq.
Qed.

(** C5: with the store up, when [process_session] runs for a session
    whose reconstructed conversation is empty, the summarization provider
    is not called and the literal placeholder is persisted by
    [update_session_summary]; afterwards the session's status is
    summarized. *)
Theorem empty_conversation_gets_placeholder sid row w :
  store_up w →
  sessions w !! sid = Some row →
  (get_conversation_history sid w).1 = Ok [] →
  ∃ w',
    process_session isoformat py_repr messages_create sid w = (Ok tt, w')
    ∧ llm_calls w' = llm_calls w
    ∧ sessions w' !! sid = Some (summary_update_data placeholder_summary row)
    ∧ summary <$> sessions w' !! sid
      = Some (Some "No conversation data available for this session.")
    ∧ observe sid w' = Some summarized.
Proof.
  intros Hup Hrow Hempty.
  rewrite get_conversation_history_up in Hempty by done. simpl in Hempty.
  destruct (process_session_up sid row w Hup Hrow) as (text & w2 & Hchoose & Hrun).
  injection Hempty as Hempty. rewrite Hempty in Hchoose.
  injection Hchoose as <- <-.
  eexists. split; [exact Hrun|]. unfold observe. simpl.
  rewrite lookup_insert_eq. by repeat split.
Qed.

(** C6, as stated, fails: the flag [summary_generated] is the constant
    True.  On the placeholder path (no call of the provider) the event
    carries the same flag as on the path where the provider wrote the
    summary, so it does not tell the two apart. *)
Lemma summary_generated_true_on_placeholder_path :
  let quiet := (process_session sample_isoformat sample_repr answering_provider
                  "s1" quiet_world).2 in
  let chat := (process_session sample_isoformat sample_repr answering_provider
                 "s1" chat_world).2 in
  llm_calls quiet = []
  ∧ summary <$> sessions quiet !! "s1" = Some (Some placeholder_summary)
  ∧ (dict_lookup "summary_generated" ∘ data) <$> last (session_events quiet)
    = Some (Some (PBool true))
  ∧ length (llm_calls chat) = 1%nat
  ∧ summary <$> sessions chat !! "s1" = Some (Some "They said hello.")
  ∧ (dict_lookup "summary_generated" ∘ data) <$> last (session_events chat)
    = Some (Some (PBool true)).
Proof. vm_compute. by repeat split. Qed.

(** C6 (amended): with the store up and the session there,
    [process_session] completes and appends exactly one event, of type
    [post_processing_complete], to the log; its payload carries
    [summary_generated] = True on every path (the placeholder path and
    the provider-failure path included), the length of the persisted
    summary, and the session's statistics as they were before this event
    was written. *)
Theorem completion_event_logged sid row w :
  store_up w →
  sessions w !! sid = Some row →
  ∃ text stats ev w',
    process_session isoformat py_repr messages_create sid w = (Ok tt, w')
    ∧ session_events w' = session_events w ++ [ev]
    ∧ ev_session_id ev = sid
    ∧ event_type ev = "post_processing_complete"
    ∧ data ev = [ ("summary_generated", PBool true);
                  ("summary_length", PInt (Z.of_nat (String.length text)));
                  ("statistics", py_of_stats (Some stats)) ]
    ∧ summary <$> sessions w' !! sid = Some (Some text)
    ∧ get_session_statistics sid w = (Ok (Some stats), w)
    ∧ count_type "post_processing_complete" (session_log sid w')
      = S (count_type "post_processing_complete" (session_log sid w)).
Proof.
  intros Hup Hrow.
  destruct (process_session_up sid row w Hup Hrow) as (text & w2 & Hchoose & Hrun).
  assert (Hevs : session_events w2 = session_events w).
  { destruct (map message_of _) as [|m ms].
    - by injection Hchoose as _ <-.
    - rewrite generate_summary_cases in Hchoose.
      destruct (duration_seconds row); by injection Hchoose as _ <-. }
  eexists text, _, _, _. split; [exact Hrun|].
  split; [simpl; by rewrite Hevs|].
  repeat apply conj; try reflexivity.
  - simpl. by rewrite lookup_insert_eq.
  - by apply get_session_statistics_up.
  - unfold session_log, count_type. simpl. rewrite Hevs.
    rewrite !filter_app, length_app.
    rewrite (filter_cons (λ e, ev_session_id e = sid)), filter_nil.
    destruct (decide _) as [_|Hne]; [|by destruct Hne].
    rewrite filter_cons, filter_nil.
    destruct (decide _) as [_|Hne]; [|by destruct Hne].
    simpl. lia.
Qed.

(** C9: [generate_summary] never lets a failure out: in every world it
    returns a text.  When the call of the provider for the session's
    prompt fails with an exception e, that text is the literal
    "Error generating summary: " followed by the error text, and
    [process_session] (store up, session there, conversation not empty)
    persists it, so the session ends up summarized. *)
Theorem provider_failure_becomes_summary sid row d e w :
  let conversation :=
    map message_of
      (filter is_conversation_event (matching_events sid None (session_events w))) in
  let prompt :=
    summary_prompt row (_format_duration d)
      (_format_conversation isoformat py_repr conversation) in
  store_up w →
  sessions w !! sid = Some row →
  duration_seconds row = Some d →
  conversation ≠ [] →
  messages_create prompt = Raise e →
  (∀ conversation0 session0 w0, ∃ text w0',
      generate_summary isoformat py_repr messages_create conversation0 session0 w0
      = (Ok text, w0'))
  ∧ (∀ w0,
      generate_summary isoformat py_repr messages_create conversation row w0
      = (Ok ("Error generating summary: " +:+ str_exn e), add_llm_call prompt w0))
  ∧ ∃ w',
      process_session isoformat py_repr messages_create sid w = (Ok tt, w')
      ∧ sessions w' !! sid
        = Some (summary_update_data ("Error generating summary: " +:+ str_exn e) row)
      ∧ summary <$> sessions w' !! sid
        = Some (Some ("Error generating summary: " +:+ str_exn e))
      ∧ observe sid w' = Some summarized.
Proof.
  intros conversation prompt Hup Hrow Hd Hconv Hfail.
  assert (Hgen : ∀ w0,
             generate_summary isoformat py_repr messages_create conversation row w0
             = (Ok ("Error generating summary: " +:+ str_exn e), add_llm_call prompt w0)).
  { intros w0. rewrite generate_summary_cases, Hd. cbv zeta.
    fold prompt. by rewrite Hfail. }
  repeat apply conj.
  - intros conversation0 session0 w0. rewrite generate_summary_cases.
    destruct (duration_seconds session0); by eexists _, _.
  - exact Hgen.
  - destruct (process_session_up sid row w Hup Hrow) as (text & w2 & Hchoose & Hrun).
    fold conversation in Hchoose.
    destruct conversation as [|m ms] eqn:Hc; [done|].
    rewrite Hgen in Hchoose. injection Hchoose as <- <-.
    eexists. split; [exact Hrun|]. unfold observe. simpl.
    rewrite lookup_insert_eq. by repeat split.
Qed.

End Processing.

Lemma empty_conversation_gets_placeholder_witness :
  ∃ w',
    SessionProcessor.process_session sample_isoformat sample_repr answering_provider "s1" quiet_world
    = (Ok tt, w')
    ∧ llm_calls w' = []
    ∧ observe "s1" w' = Some summarized.
Proof.
  destruct (empty_conversation_gets_placeholder
              sample_isoformat sample_repr answering_provider "s1" quiet_session quiet_world)
    as (w' & Hrun & Hcalls & _ & _ & Hobs); [reflexivity..|].
  exists w'. by repeat split.
Defined.

Lemma completion_event_logged_witness :
  ∃ w',
    SessionProcessor.process_session sample_isoformat sample_repr answering_provider "s1" chat_world
    = (Ok tt, w')
    ∧ length (session_events w') = 7%nat
    ∧ summary <$> sessions w' !! "s1" = Some (Some "They said hello.").
Proof.
  destruct (completion_event_logged
              sample_isoformat sample_repr answering_provider "s1" chat_session chat_world)
    as (text & stats & ev & w' & Hrun & Hevs & _ & _ & _ & Hsum & _); [reflexivity..|].
  exists w'. split; [exact Hrun|]. split.
  - rewrite Hevs, length_app. reflexivity.
  - rewrite Hsum. vm_compute in Hrun. by injection Hrun as <-.
Defined.

Lemma provider_failure_becomes_summary_witness :
  ∃ w',
    SessionProcessor.process_session sample_isoformat sample_repr failing_provider "s1" chat_world
    = (Ok tt, w')
    ∧ summary <$> sessions w' !! "s1"
      = Some (Some "Error generating summary: overloaded")
    ∧ observe "s1" w' = Some summarized.
Proof.
  destruct (provider_failure_becomes_summary
              sample_isoformat sample_repr failing_provider
              "s1" chat_session 3 (ProviderError "overloaded") chat_world)
    as (_ & _ & w' & Hrun & _ & Hsum & Hobs); [reflexivity|reflexivity|reflexivity|..].
  - vm_compute. discriminate.
  - reflexivity.
  - exists w'. by repeat split.
Defined.

(** * Further properties of the ledger *)

Section LedgerReads.
Import DatabaseManager.

Lemma execute_cases w :
  execute w
  = if store_fails w then (Raise (APIError "store call failed"), after_call w)
    else (Ok tt, after_call w).
Proof.
  unfold execute, store_fails, after_call.
  destruct w as [ss evs fs t calls]; simpl. by destruct fs as [|[] fs].
Qed.

Lemma get_session_events_cases sid tys w :
  get_session_events sid tys w
  = (Ok (if store_fails w then [] else matching_events sid tys (session_events w)),
     after_call w).
Proof.
  unfold get_session_events, events_select. unfold_monad.
  rewrite execute_cases. by destruct (store_fails w).
Qed.

(** X1: [get_session_events] never raises and writes nothing.  When the
    store call fails the answer is the empty list; otherwise it is the
    session's events of the wanted types, each as often as it is in the
    log, with ascending timestamps.  An empty list of types wants every
    type, like no list at all. *)
Theorem get_session_events_contract sid tys w :
  ∃ events,
    get_session_events sid tys w = (Ok events, after_call w)
    ∧ (if store_fails w then events = []
       else
         timestamps_ascend events
         ∧ events ≡ₚ match tys with
                     | Some (t :: ts) =>
                         filter (λ e, event_type e ∈ t :: ts) (session_log sid w)
                     | _ => session_log sid w
                     end)
    ∧ get_session_events sid (Some []) w = get_session_events sid None w.
Proof.
  eexists. split; [apply get_session_events_cases|]. split.
  - destruct (store_fails w); [done|]. split.
    + apply StronglySorted_Sorted, order_by_timestamp_sorted.
    + unfold matching_events. rewrite order_by_timestamp_perm.
      by destruct tys as [[|t ts]|].
  - by rewrite !get_session_events_cases.
Qed.

Lemma get_session_cases sid w :
  get_session sid w
  = (Ok (if store_fails w then None else sessions w !! sid), after_call w).
Proof.
  unfold get_session, sessions_select. unfold_monad.
  rewrite execute_cases. destruct (store_fails w); [done|]. simpl.
  by destruct (sessions w !! sid).
Qed.

(** X2: [get_session] never raises and writes nothing; it answers [None]
    for a session that has no row and also when the store call fails, so
    a caller cannot tell the two apart. *)
Theorem get_session_none_on_failure sid w :
  ∃ answer,
    get_session sid w = (Ok answer, after_call w)
    ∧ (store_fails w = true → answer = None)
    ∧ (store_fails w = false → answer = sessions w !! sid).
Proof.
  eexists. split; [apply get_session_cases|].
  split; intros ->; done.
Qed.

Lemma get_session_none_on_failure_witness :
  (get_session "s1" demo_world).1 = Ok (Some demo_session)
  ∧ (get_session "s1" (with_faults [true] demo_world)).1 = Ok None.
Proof.
  split.
  - destruct (get_session_none_on_failure "s1" demo_world) as (answer & -> & _ & Hup).
    simpl. f_equal. by apply Hup.
  - destruct (get_session_none_on_failure "s1" (with_faults [true] demo_world))
      as (answer & -> & Hdown & _).
    simpl. f_equal. by apply Hdown.
Defined.

End LedgerReads.

Section LedgerWrites.
Import DatabaseManager.

(** An event no earlier than the others of a list is ordered last. *)
Lemma insert_by_timestamp_snoc x acc e :
  timestamp x ≤ timestamp e →
  insert_by_timestamp x (acc ++ [e]) = insert_by_timestamp x acc ++ [e].
Proof.
  intros Hle. induction acc as [|a acc IH]; simpl.
  - by rewrite (proj2 (Z.leb_le _ _) Hle).
  - destruct (timestamp x <=? timestamp a); [done|]. by rewrite IH.
Qed.

Lemma order_by_timestamp_snoc l e :
  Forall (λ x, timestamp x ≤ timestamp e) l →
  order_by_timestamp (l ++ [e]) = order_by_timestamp l ++ [e].
Proof.
  induction 1 as [|x l Hx Hall IH]; simpl; [done|].
  by rewrite IH, insert_by_timestamp_snoc.
Qed.

(** X3: an event that was logged can be read back.  With the store up and
    the session there, [log_event] returns the event it wrote, and
    [get_session_events] then returns the events it returned before plus
    that event: as a permutation in general, and with the new event last
    when no event of the session has a later timestamp than the clock. *)
Theorem log_event_read_back sid ty d md w :
  store_up w →
  is_Some (sessions w !! sid) →
  let ev := mkEvent sid ty (clock w) d (metadata_or_empty md) in
  ∃ w' before after,
    log_event sid ty d md w = (Ok (Some ev), w')
    ∧ get_session_events sid None w = (Ok before, w)
    ∧ get_session_events sid None w' = (Ok after, w')
    ∧ after ≡ₚ before ++ [ev]
    ∧ (Forall (λ e, timestamp e ≤ clock w) (session_log sid w) → after = before ++ [ev]).
Proof.
  intros Hup [row Hrow] ev.
  rewrite log_event_up by done. simpl. rewrite Hrow.
  eexists _, _, _. split; [reflexivity|].
  rewrite !get_session_events_up by done. do 2 (split; [reflexivity|]).
  unfold matching_events. simpl.
  rewrite filter_app, filter_cons, decide_True, filter_nil by done.
  split.
  - by rewrite !order_by_timestamp_perm.
  - intros Hall. by apply order_by_timestamp_snoc.
Qed.

Lemma log_event_read_back_witness :
  ∃ w' after,
    log_event "s1" "function_call" [("function_name", PStr "get_weather")] None chat_world
    = (Ok (Some (mkEvent "s1" "function_call" 4000000
                   [("function_name", PStr "get_weather")] [])), w')
    ∧ get_session_events "s1" None w' = (Ok after, w')
    ∧ length after = 6%nat.
Proof.
  destruct (log_event_read_back "s1" "function_call"
              [("function_name", PStr "get_weather")] None chat_world)
    as (w' & before & after & Hlog & Hbefore & Hafter & Hperm & _);
    [reflexivity|by eexists|].
  exists w', after. split; [exact Hlog|]. split; [exact Hafter|].
  rewrite Hperm, length_app.
  vm_compute in Hbefore. by injection Hbefore as <-.
Defined.

End LedgerWrites.

Section LedgerRows.
Import DatabaseManager.

(** X4: a session that was created can be read back.  With the store up
    and the id free, [create_session] returns an active session that
    starts at the clock's reading and has no end time, duration or
    summary; [get_session] then returns that row, and the rows of the
    other sessions are as before. *)
Theorem create_session_read_back sid uid w :
  store_up w →
  sessions w !! sid = None →
  let row := mkSession sid uid (clock w) None None None active in
  ∃ w',
    create_session sid uid w = (Ok row, w')
    ∧ get_session sid w' = (Ok (Some row), w')
    ∧ (∀ sid', sid' ≠ sid → sessions w' !! sid' = sessions w !! sid')
    ∧ session_events w' = session_events w.
Proof.
  intros Hup Hnone row. rewrite create_session_up by done. simpl. rewrite Hnone.
  eexists. split; [reflexivity|].
  rewrite get_session_up by done. simpl. rewrite lookup_insert_eq.
  repeat split. intros sid' Hne. by rewrite lookup_insert_ne.
Qed.

Lemma create_session_read_back_witness :
  ∃ w',
    create_session "s9" "user_s9" demo_world
    = (Ok (mkSession "s9" "user_s9" 3500000 None None None active), w')
    ∧ get_session "s9" w'
      = (Ok (Some (mkSession "s9" "user_s9" 3500000 None None None active)), w')
    ∧ sessions w' !! "s1" = Some demo_session.
Proof.
  destruct (create_session_read_back "s9" "user_s9" demo_world)
    as (w' & Hcreate & Hget & Hothers & _); [reflexivity..|].
  exists w'. split; [exact Hcreate|]. split; [exact Hget|].
  by rewrite Hothers.
Defined.

(** X5: a ledger write that raises has written nothing.  In every world,
    when [create_session], [end_session] or [update_session_summary]
    raises, both tables are as they were before the call. *)
Theorem ledger_write_raises_unchanged sid op w e w' :
  ledger_call sid op w = (Raise e, w') →
  sessions w' = sessions w ∧ session_events w' = session_events w.
Proof.
  destruct op as [uid| |text]; unfold ledger_call. all: unfold_monad.
  - unfold create_session, sessions_insert. unfold_monad.
    rewrite execute_cases. destruct (store_fails w); simpl.
    + by intros [= _ <-].
    + destruct (sessions w !! sid); simpl; [|done]. by intros [= _ <-].
  - unfold end_session, sessions_select, sessions_update. unfold_monad.
    rewrite execute_cases. destruct (store_fails w); simpl.
    + by intros [= _ <-].
    + destruct (sessions w !! sid) as [row|]; simpl; [|by intros [= _ <-]].
      rewrite execute_cases. destruct (store_fails (after_call w)); simpl.
      * by intros [= _ <-].
      * destruct (sessions w !! sid); done.
  - unfold update_session_summary, sessions_update. unfold_monad.
    rewrite execute_cases. destruct (store_fails w); simpl.
    + by intros [= _ <-].
    + destruct (sessions w !! sid); done.
Qed.

Lemma ledger_write_raises_unchanged_witness :
  ∃ e w',
    ledger_call "s1" EndSession (with_faults [false; true] demo_world) = (Raise e, w')
    ∧ sessions w' = sessions demo_world.
Proof.
  eexists _, _. split; [reflexivity|].
  by apply (ledger_write_raises_unchanged "s1" EndSession
              (with_faults [false; true] demo_world) _ _ eq_refl).
Defined.

(** X6: ending a session twice is ending it once at the later call.  With
    the store up, [end_session] at clock reading t1 and again at t2
    leaves the world that a single [end_session] at t2 leaves: the second
    call overwrites [end_time] and computes the duration from the
    unchanged [start_time]. *)
Theorem end_session_twice sid row t1 t2 w :
  store_up w →
  sessions w !! sid = Some row →
  ledger_step sid (ledger_step sid w (t1, EndSession)) (t2, EndSession)
  = ledger_step sid w (t2, EndSession)
  ∧ sessions (ledger_step sid w (t2, EndSession)) !! sid
    = Some (mkSession (session_id row) (user_id row) (start_time row) (Some t2)
              (Some (duration_between (start_time row) t2)) (summary row) completed).
Proof.
  intros Hup Hrow.
  rewrite (ledger_step_end_up sid t1 w row) by done.
  rewrite (ledger_step_end_up sid t2 _
             (end_session_update_data t1 (duration_between (start_time row) t1) row))
    by (auto with store || apply lookup_insert_eq).
  rewrite (ledger_step_end_up sid t2 w row) by done.
  split.
  - unfold set_sessions, set_clock. simpl. by rewrite insert_insert_eq.
  - simpl. by rewrite lookup_insert_eq.
Qed.

Lemma end_session_twice_witness :
  sessions (ledger_step "s1" (ledger_step "s1" demo_world (2000000, EndSession))
              (9000000, EndSession)) !! "s1"
  = Some (mkSession "s1" "user_s1" 1000000 (Some 9000000) (Some 8) None completed).
Proof.
  destruct (end_session_twice "s1" demo_session 2000000 9000000 demo_world)
    as [Hsame Hrow]; [reflexivity..|].
  exact (eq_trans (f_equal (λ w, sessions w !! "s1") Hsame) Hrow).
Defined.

(** X7: [update_session_summary] looks at no column.  With the store up
    it writes the summary and the status summarized into the row
    whatever its status was, also for a session that was never ended,
    and leaves the start time, end time and duration alone; of two
    updates the second one's summary stays. *)
Theorem update_summary_overwrites sid row text1 text2 t1 t2 w :
  store_up w →
  sessions w !! sid = Some row →
  sessions (ledger_step sid (ledger_step sid w (t1, UpdateSummary text1))
              (t2, UpdateSummary text2)) !! sid
  = Some (mkSession (session_id row) (user_id row) (start_time row) (end_time row)
            (duration_seconds row) (Some text2) summarized).
Proof.
  intros Hup Hrow.
  rewrite (ledger_step_summary_up sid text1 t1 w row) by done.
  rewrite (ledger_step_summary_up sid text2 t2 _ (summary_update_data text1 row))
    by (auto with store || apply lookup_insert_eq).
  simpl. by rewrite lookup_insert_eq.
Qed.

Lemma update_summary_overwrites_witness :
  sessions (ledger_step "s1" (ledger_step "s1" demo_world (1, UpdateSummary "draft"))
              (2, UpdateSummary "final")) !! "s1"
  = Some (mkSession "s1" "user_s1" 1000000 None None (Some "final") summarized).
Proof.
  exact (update_summary_overwrites "s1" demo_session "draft" "final" 1 2 demo_world
           eq_refl eq_refl).
Defined.

End LedgerRows.

Section Deletion.
Import DatabaseManager.

Lemma filter_session_removed sid (log : list Event) :
  filter (λ e, ev_session_id e = sid) (filter (λ e, ev_session_id e ≠ sid) log) = [].
Proof.
  rewrite list_filter_filter. induction log as [|e log IH]; [done|].
  rewrite filter_cons, IH. by rewrite decide_False by tauto.
Qed.

Lemma filter_session_other sid sid' (log : list Event) :
  sid' ≠ sid →
  filter (λ e, ev_session_id e = sid') (filter (λ e, ev_session_id e ≠ sid) log)
  = filter (λ e, ev_session_id e = sid') log.
Proof.
  intros Hne. rewrite list_filter_filter. apply list_filter_iff.
  intros e. split; [tauto|]. intros He. split; [done|congruence].
Qed.

(** The three ways [delete_session] can go, in any world. *)
Lemma delete_session_cases sid w :
  let w1 := set_session_events (filter (λ e, ev_session_id e ≠ sid)) (after_call w) in
  delete_session sid w
  = if store_fails w then (Ok false, after_call w)
    else if store_fails w1 then (Ok false, after_call w1)
    else (Ok true, set_sessions (delete sid) (after_call w1)).
Proof.
  unfold delete_session, events_delete, sessions_delete. unfold_monad.
  rewrite execute_cases. destruct (store_fails w); [done|]. simpl.
  rewrite execute_cases.
  destruct (store_fails (set_session_events _ (after_call w))); [done|]. simpl.
  rewrite filter_session_removed.
  destruct (sessions w !! sid) as [row|] eqn:Hrow; simpl; [done|].
  do 2 f_equal. unfold set_sessions. simpl. by rewrite delete_id.
Qed.

(** X8: with the store up, [delete_session] returns True and removes the
    session's row and all of its events; the rows and the events of every
    other session stay as they are, and the session can no longer be
    read. *)
Theorem delete_session_removes sid w :
  store_up w →
  ∃ w',
    delete_session sid w = (Ok true, w')
    ∧ sessions w' = delete sid (sessions w)
    ∧ session_log sid w' = []
    ∧ (∀ sid', sid' ≠ sid →
         sessions w' !! sid' = sessions w !! sid'
         ∧ session_log sid' w' = session_log sid' w)
    ∧ get_session sid w' = (Ok None, w').
Proof.
  intros Hup. pose proof (delete_session_cases sid w) as Hcases. simpl in Hcases.
  unfold store_up in Hup. unfold store_fails, after_call in Hcases.
  rewrite Hup in Hcases. simpl in Hcases.
  eexists. split; [exact Hcases|]. unfold session_log. simpl.
  repeat apply conj.
  - done.
  - apply filter_session_removed.
  - intros sid' Hne. split; [by rewrite lookup_delete_ne|by apply filter_session_other].
  - rewrite get_session_up by done. simpl. by rewrite lookup_delete_eq.
Qed.

Lemma delete_session_removes_witness :
  ∃ w',
    delete_session "a1" fleet_world = (Ok true, w')
    ∧ session_log "a1" w' = []
    ∧ length (session_events w') = 2%nat
    ∧ get_session "a1" w' = (Ok None, w').
Proof.
  destruct (delete_session_removes "a1" fleet_world)
    as (w' & Hrun & _ & Hlog & _ & Hget); [reflexivity|].
  exists w'. repeat split; try done.
  vm_compute in Hrun. by injection Hrun as <-.
Defined.

(** X9: [delete_session] never raises, and it is not atomic.  It returns
    False when a store call fails: with nothing changed when the first
    call fails, and with the session's events gone but its row still
    there when the second call fails. *)
Theorem delete_session_partial sid w :
  ∃ ok w',
    delete_session sid w = (Ok ok, w')
    ∧ (store_fails w = true →
       ok = false ∧ sessions w' = sessions w ∧ session_events w' = session_events w)
    ∧ (faults w = false :: true :: drop 2 (faults w) →
       ok = false ∧ sessions w' = sessions w
       ∧ session_events w' = filter (λ e, ev_session_id e ≠ sid) (session_events w)).
Proof.
  pose proof (delete_session_cases sid w) as Hcases. simpl in Hcases.
  destruct (store_fails w) eqn:Hf1.
  { eexists _, _. split; [exact Hcases|]. split; [done|].
    intros Hfs. unfold store_fails in Hf1. by rewrite Hfs in Hf1. }
  destruct (store_fails (set_session_events _ (after_call w))) eqn:Hf2.
  - eexists _, _. split; [exact Hcases|]. split; done.
  - eexists _, _. split; [exact Hcases|]. split; [done|].
    intros Hfs. unfold store_fails, after_call in Hf2. simpl in Hf2.
    by rewrite Hfs in Hf2.
Qed.

Lemma delete_session_partial_witness :
  ∃ w',
    delete_session "a1" (with_faults [false; true] fleet_world) = (Ok false, w')
    ∧ is_Some (sessions w' !! "a1")
    ∧ session_log "a1" w' = [].
Proof.
  destruct (delete_session_partial "a1" (with_faults [false; true] fleet_world))
    as (ok & w' & Hrun & _ & Hsecond).
  destruct (Hsecond eq_refl) as (-> & Hss & Hevs).
  exists w'. split; [exact Hrun|]. split.
  - rewrite Hss. by eexists.
  - unfold session_log. rewrite Hevs. apply filter_session_removed.
Defined.

End Deletion.

Section RecentSessions.
Import DatabaseManager.

Lemma insert_by_start_desc_perm s l : insert_by_start_desc s l ≡ₚ s :: l.
Proof.
  induction l as [|x xs IH]; simpl; [done|].
  destruct (start_time x <=? start_time s); [done|].
  rewrite IH. apply Permutation_swap.
Qed.

Lemma order_by_start_desc_perm l : order_by_start_desc l ≡ₚ l.
Proof.
  induction l as [|x xs IH]; simpl; [done|].
  rewrite insert_by_start_desc_perm. by rewrite IH.
Qed.

Lemma insert_by_start_desc_sorted s l :
  starts_descend l → starts_descend (insert_by_start_desc s l).
Proof.
  unfold starts_descend. induction 1 as [|x xs Hs IH Hall]; simpl.
  { repeat constructor. }
  destruct (start_time x <=? start_time s) eqn:Hle.
  - apply Z.leb_le in Hle. constructor; [by constructor|].
    constructor; [done|]. eapply Forall_impl; [exact Hall|]. simpl. lia.
  - apply Z.leb_gt in Hle. constructor; [done|].
    rewrite insert_by_start_desc_perm. constructor; [lia|done].
Qed.

Lemma order_by_start_desc_sorted l : starts_descend (order_by_start_desc l).
Proof.
  induction l as [|x xs IH]; simpl; [constructor|].
  by apply insert_by_start_desc_sorted.
Qed.

Lemma get_recent_sessions_cases uid limit w :
  get_recent_sessions uid limit w
  = (Ok (if store_fails w then [] else recent_rows uid limit (sessions w)), after_call w).
Proof.
  unfold get_recent_sessions, sessions_select_recent. unfold_monad.
  rewrite execute_cases. by destruct (store_fails w).
Qed.

(** X10: [get_recent_sessions] never raises and writes nothing.  On a
    store failure it returns the empty list.  Otherwise it returns
    min(limit, number of the user's sessions) rows, all of them rows of
    that user in the table, latest start first; and every session of the
    user that is left out started no later than each one returned. *)
Theorem get_recent_sessions_contract uid limit w :
  ∃ rows,
    get_recent_sessions uid limit w = (Ok rows, after_call w)
    ∧ (if store_fails w then rows = []
       else
         length rows = (limit `min` length (user_rows uid w))%nat
         ∧ Forall (λ r, user_id r = uid ∧ ∃ k, sessions w !! k = Some r) rows
         ∧ starts_descend rows
         ∧ ∀ k r, sessions w !! k = Some r → user_id r = uid → r ∉ rows →
                  Forall (λ r', start_time r ≤ start_time r') rows).
Proof.
  eexists. split; [apply get_recent_sessions_cases|].
  destruct (store_fails w); [done|].
  unfold recent_rows. fold (user_rows uid w).
  set (sorted := order_by_start_desc (user_rows uid w)).
  assert (Hperm : sorted ≡ₚ user_rows uid w) by apply order_by_start_desc_perm.
  assert (Hsorted : starts_descend sorted) by apply order_by_start_desc_sorted.
  repeat apply conj.
  - by rewrite length_take, Hperm.
  - apply Forall_forall. intros r Hr.
    apply subseteq_take in Hr. rewrite Hperm in Hr.
    apply list_elem_of_filter in Hr as [Hu Hr]. split; [done|].
    apply list_elem_of_fmap in Hr as ([k r'] & -> & Hkr).
    exists k. by apply elem_of_map_to_list.
  - unfold starts_descend in *. rewrite <- (take_drop limit sorted) in Hsorted.
    by apply StronglySorted_app_1_l in Hsorted.
  - intros k r Hkr Hu Hout. apply Forall_forall. intros r' Hr'.
    assert (Hin : r ∈ sorted).
    { rewrite Hperm. apply list_elem_of_filter. split; [done|].
      apply list_elem_of_fmap. exists (k, r). split; [done|].
      by apply elem_of_map_to_list. }
    rewrite <- (take_drop limit sorted) in Hin, Hsorted.
    apply elem_of_app in Hin as [Hin|Hin]; [done|].
    exact (StronglySorted_app_1_elem_of _ _ _ _ _ Hsorted Hr' Hin).
Qed.

End RecentSessions.

(** * Further properties of the processor *)

Lemma get_conversation_history_cases sid w :
  DatabaseManager.get_conversation_history sid w
  = (Ok (if store_fails w then []
         else map message_of
                (filter is_conversation_event
                   (matching_events sid None (session_events w)))),
     after_call w).
Proof.
  unfold DatabaseManager.get_conversation_history. unfold_monad.
  rewrite get_session_events_cases. destruct (store_fails w); [done|].
  rewrite foldl_append_message, matching_events_conversation, list_filter_filter.
  simpl. do 3 f_equal. apply list_filter_iff. tauto.
Qed.

Lemma update_session_summary_fails sid text w :
  store_fails w = true →
  DatabaseManager.update_session_summary sid text w = (Raise (APIError "store call failed"), after_call w).
Proof.
  intros Hf. unfold DatabaseManager.update_session_summary, sessions_update. unfold_monad.
  by rewrite execute_cases, Hf.
Qed.

(** [log_event] returns in every world. *)
Lemma log_event_never_raises_any sid ty d md w :
  ∃ out w', DatabaseManager.log_event sid ty d md w = (Ok out, w').
Proof.
  pose proof (log_event_cases sid ty d md w) as Hcases. simpl in Hcases.
  rewrite Hcases. destruct (store_fails w); [by eexists _, _|].
  destruct (sessions w !! sid); by eexists _, _.
Qed.

Section ProcessingFailures.
Import DatabaseManager SessionProcessor.

Variable isoformat : datetime → string.
Variable py_repr : pyval → string.
Variable messages_create : string → result string.

(** The handler of [process_session] swallows everything. *)
Lemma error_handler_total sid e w :
  ∃ w',
    try_catch
      (_ ← log_event sid "post_processing_error" [("error", PStr (str_exn e))] None;
       mret tt)
      (λ _, mret tt) w = (Ok tt, w').
Proof.
  unfold_monad.
  destruct (log_event_never_raises_any sid "post_processing_error"
              [("error", PStr (str_exn e))] None w) as (out & w' & ->).
  by eexists.
Qed.

(** X11: post-processing is isolated.  In every world, whatever the store
    and the provider do, [process_session] returns without raising. *)
Theorem process_session_never_raises sid w :
  ∃ w', process_session isoformat py_repr messages_create sid w = (Ok tt, w').
Proof.
  unfold process_session.
  match goal with
  | |- ∃ w', try_catch ?body ?handler w = _ =>
      unfold try_catch at 1; destruct (body w) as [[[]|e] w1]
  end.
  - by eexists.
  - apply error_handler_total.
Qed.

End ProcessingFailures.

Section ProcessingPaths.
Import DatabaseManager SessionProcessor.

Variable isoformat : datetime → string.
Variable py_repr : pyval → string.
Variable messages_create : string → result string.

(** X12: when the session cannot be read, nothing happens.  If the first
    store call fails, or it succeeds and finds no row, [process_session]
    returns with both tables unchanged, no call of the provider and no
    event logged: a session that is there stays without a summary and
    without an error event when that one read fails. *)
Theorem process_session_unreadable sid w :
  store_fails w = true ∨ (store_fails w = false ∧ sessions w !! sid = None) →
  ∃ w',
    process_session isoformat py_repr messages_create sid w = (Ok tt, w')
    ∧ sessions w' = sessions w
    ∧ session_events w' = session_events w
    ∧ llm_calls w' = llm_calls w.
Proof.
  intros Hcase. unfold process_session, sleep. unfold_monad.
  rewrite get_session_cases.
  change (store_fails (set_clock (clock w + 1 * 1000000) w)) with (store_fails w).
  destruct Hcase as [->|[-> Hnone]].
  - by eexists.
  - simpl. rewrite Hnone. by eexists.
Qed.

(** The summary that [process_session] chooses, in a world where the
    read of the conversation gave [conversation]. *)
Lemma choose_summary_keeps conversation row w :
  ∃ text w2,
    match conversation with
    | [] => λ w0, (Ok placeholder_summary, w0)
    | _ :: _ => generate_summary isoformat py_repr messages_create conversation row
    end w = (Ok text, w2)
    ∧ sessions w2 = sessions w ∧ session_events w2 = session_events w
    ∧ faults w2 = faults w ∧ clock w2 = clock w.
Proof.
  destruct conversation as [|m ms].
  - by eexists _, _.
  - rewrite generate_summary_cases. destruct (duration_seconds row); by eexists _, _.
Qed.

(** X13: when the summary cannot be persisted, the failure is recorded.
    If the two reads succeed and the update of the session fails (the
    store answering again afterwards), [process_session] leaves the
    session's row as it was and appends one [post_processing_error] event
    that carries the text of the store's exception; no
    [post_processing_complete] event is written. *)
Theorem process_session_update_fails sid row w :
  faults w = [false; false; true] →
  sessions w !! sid = Some row →
  ∃ w',
    process_session isoformat py_repr messages_create sid w = (Ok tt, w')
    ∧ sessions w' = sessions w
    ∧ session_events w'
      = session_events w
        ++ [ mkEvent sid "post_processing_error" (clock w + 1 * 1000000)
               [("error", PStr "store call failed")] [] ].
Proof.
  intros Hfs Hrow. unfold process_session, sleep. unfold_monad.
  set (w1 := set_clock (clock w + 1 * 1000000) w).
  rewrite get_session_cases.
  assert (Hf1 : store_fails w1 = false) by (unfold store_fails; simpl; by rewrite Hfs).
  rewrite Hf1. simpl. rewrite Hrow.
  rewrite get_conversation_history_cases.
  assert (Hf2 : store_fails (after_call w1) = false)
    by (unfold store_fails; simpl; by rewrite Hfs).
  rewrite Hf2. simpl.
  assert (Hf3 : ∀ w0, faults w0 = [true] → store_fails w0 = true)
    by (intros w0 Hw0; unfold store_fails; by rewrite Hw0).
  assert (Hf4 : ∀ w0, faults w0 = [] → store_fails w0 = false)
    by (intros w0 Hw0; unfold store_fails; by rewrite Hw0).
  destruct (map message_of _) as [|m ms]; [|rewrite generate_summary_cases;
    destruct (duration_seconds row) as [d|]; cbv zeta];
  subst w1; cbv beta iota zeta;
  (rewrite update_session_summary_fails by (apply Hf3; simpl; by rewrite Hfs));
  cbv beta iota zeta;
  rewrite log_event_cases;
  (rewrite Hf4 by (simpl; by rewrite Hfs));
  simpl; rewrite Hrow;
  (eexists; split; [reflexivity|]; done).
Qed.

(** X14: when the events cannot be read, the session is taken to be
    silent.  If the read of the session succeeds and the read of its
    events fails (the store answering again afterwards),
    [process_session] persists the placeholder summary without calling
    the provider, whatever conversation the log holds. *)
Theorem process_session_events_unreadable sid row w :
  faults w = [false; true] →
  sessions w !! sid = Some row →
  ∃ w',
    process_session isoformat py_repr messages_create sid w = (Ok tt, w')
    ∧ llm_calls w' = llm_calls w
    ∧ sessions w' !! sid = Some (summary_update_data placeholder_summary row)
    ∧ observe sid w' = Some summarized.
Proof.
  intros Hfs Hrow. unfold process_session, sleep. unfold_monad.
  set (w1 := set_clock (clock w + 1 * 1000000) w).
  rewrite get_session_cases.
  assert (Hf1 : store_fails w1 = false) by (unfold store_fails; simpl; by rewrite Hfs).
  rewrite Hf1. simpl. rewrite Hrow.
  rewrite get_conversation_history_cases.
  assert (Hf2 : store_fails (after_call w1) = true)
    by (unfold store_fails; simpl; by rewrite Hfs).
  rewrite Hf2. simpl.
  set (w3 := after_call (after_call w1)).
  assert (Hup3 : store_up w3) by (unfold store_up; simpl; by rewrite Hfs).
  rewrite update_session_summary_up by done.
  change (sessions w3) with (sessions w). rewrite Hrow.
  rewrite get_session_statistics_up by done.
  rewrite log_event_up by done. simpl. rewrite lookup_insert_eq.
  eexists. split; [reflexivity|]. unfold observe. simpl.
  by rewrite lookup_insert_eq.
Qed.

(** X15: a session that was never ended gets an error text for a
    summary.  [generate_summary] for a session whose duration is [None]
    returns the text of the comparison's [TypeError] without calling the
    provider; with the store up and a conversation in the log,
    [process_session] persists that text. *)
Theorem unfinished_session_summary sid row w :
  let text := "Error generating summary: "
              +:+ "'<' not supported between instances of 'NoneType' and 'int'" in
  store_up w →
  sessions w !! sid = Some row →
  duration_seconds row = None →
  (get_conversation_history sid w).1 ≠ Ok [] →
  (∀ conversation w0,
      generate_summary isoformat py_repr messages_create conversation row w0
      = (Ok text, w0))
  ∧ ∃ w',
      process_session isoformat py_repr messages_create sid w = (Ok tt, w')
      ∧ llm_calls w' = llm_calls w
      ∧ sessions w' !! sid = Some (summary_update_data text row).
Proof.
  intros text Hup Hrow Hd Hconv.
  assert (Hgen : ∀ conversation w0,
             generate_summary isoformat py_repr messages_create conversation row w0
             = (Ok text, w0)).
  { intros conversation w0. by rewrite generate_summary_cases, Hd. }
  split; [exact Hgen|].
  destruct (process_session_up isoformat py_repr messages_create sid row w Hup Hrow)
    as (text' & w2 & Hchoose & Hrun).
  rewrite get_conversation_history_up in Hconv by done. simpl in Hconv.
  destruct (map message_of _) as [|m ms]; [done|].
  rewrite Hgen in Hchoose. injection Hchoose as <- <-.
  eexists. split; [exact Hrun|]. simpl. by rewrite lookup_insert_eq.
Qed.

(** X16: the path with an answer.  With the store up, the session ended
    and a conversation in the log, when the provider answers the
    session's prompt with a text, [process_session] calls the provider
    once, with that prompt, persists the text as the summary and logs its
    length in the completion event. *)
Theorem process_session_summarizes sid row d text w :
  let conversation :=
    map message_of
      (filter is_conversation_event (matching_events sid None (session_events w))) in
  let prompt :=
    summary_prompt row (_format_duration d)
      (_format_conversation isoformat py_repr conversation) in
  store_up w →
  sessions w !! sid = Some row →
  duration_seconds row = Some d →
  conversation ≠ [] →
  messages_create prompt = Ok text →
  ∃ w',
    process_session isoformat py_repr messages_create sid w = (Ok tt, w')
    ∧ llm_calls w' = llm_calls w ++ [prompt]
    ∧ sessions w' !! sid = Some (summary_update_data text row)
    ∧ (dict_lookup "summary_length" ∘ data) <$> last (session_events w')
      = Some (Some (PInt (Z.of_nat (String.length text)))).
Proof.
  intros conversation prompt Hup Hrow Hd Hconv Hanswer.
  destruct (process_session_up isoformat py_repr messages_create sid row w Hup Hrow)
    as (text' & w2 & Hchoose & Hrun).
  fold conversation in Hchoose.
  destruct conversation as [|m ms] eqn:Hc; [done|].
  rewrite generate_summary_cases, Hd in Hchoose. cbv zeta in Hchoose.
  fold prompt in Hchoose. rewrite Hanswer in Hchoose. injection Hchoose as <- <-.
  eexists. split; [exact Hrun|]. simpl.
  rewrite lookup_insert_eq, last_snoc. done.
Qed.

End ProcessingPaths.

Lemma process_session_unreadable_witness :
  ∃ w',
    SessionProcessor.process_session sample_isoformat sample_repr answering_provider "s1"
      (with_faults [true] chat_world) = (Ok tt, w')
    ∧ sessions w' !! "s1" = Some chat_session
    ∧ session_events w' = chat_log.
Proof.
  destruct (process_session_unreadable sample_isoformat sample_repr answering_provider
              "s1" (with_faults [true] chat_world))
    as (w' & Hrun & Hss & Hevs & _); [by left|].
  exists w'. split; [exact Hrun|]. by rewrite Hss, Hevs.
Defined.

Lemma process_session_update_fails_witness :
  ∃ w',
    SessionProcessor.process_session sample_isoformat sample_repr answering_provider "s1"
      (with_faults [false; false; true] chat_world) = (Ok tt, w')
    ∧ sessions w' !! "s1" = Some chat_session
    ∧ event_type <$> last (session_events w') = Some "post_processing_error".
Proof.
  destruct (process_session_update_fails sample_isoformat sample_repr answering_provider
              "s1" chat_session (with_faults [false; false; true] chat_world))
    as (w' & Hrun & Hss & Hevs); [reflexivity..|].
  exists w'. split; [exact Hrun|]. rewrite Hss, Hevs. split; [reflexivity|].
  by rewrite last_snoc.
Defined.

Lemma process_session_events_unreadable_witness :
  ∃ w',
    SessionProcessor.process_session sample_isoformat sample_repr answering_provider "s1"
      (with_faults [false; true] chat_world) = (Ok tt, w')
    ∧ llm_calls w' = []
    ∧ summary <$> sessions w' !! "s1" = Some (Some SessionProcessor.placeholder_summary).
Proof.
  destruct (process_session_events_unreadable sample_isoformat sample_repr
              answering_provider "s1" chat_session (with_faults [false; true] chat_world))
    as (w' & Hrun & Hcalls & Hss & _); [reflexivity..|].
  exists w'. split; [exact Hrun|]. split; [exact Hcalls|]. by rewrite Hss.
Defined.

Lemma unfinished_session_summary_witness :
  ∃ w',
    SessionProcessor.process_session sample_isoformat sample_repr answering_provider "s1" open_chat_world
    = (Ok tt, w')
    ∧ llm_calls w' = []
    ∧ summary <$> sessions w' !! "s1"
      = Some (Some ("Error generating summary: "
                    +:+ "'<' not supported between instances of 'NoneType' and 'int'")).
Proof.
  destruct (unfinished_session_summary sample_isoformat sample_repr answering_provider
              "s1" (mkSession "s1" "user_s1" 0 None None None active) open_chat_world)
    as (_ & w' & Hrun & Hcalls & Hss); [reflexivity..| |].
  - vm_compute. discriminate.
  - exists w'. split; [exact Hrun|]. split; [exact Hcalls|]. by rewrite Hss.
Defined.

Lemma process_session_summarizes_witness :
  ∃ w',
    SessionProcessor.process_session sample_isoformat sample_repr answering_provider "s1" chat_world
    = (Ok tt, w')
    ∧ length (llm_calls w') = 1%nat
    ∧ summary <$> sessions w' !! "s1" = Some (Some "They said hello.").
Proof.
  destruct (process_session_summarizes sample_isoformat sample_repr answering_provider
              "s1" chat_session 3 "They said hello." chat_world)
    as (w' & Hrun & Hcalls & Hss & _); [reflexivity..| | |].
  - vm_compute. discriminate.
  - reflexivity.
  - exists w'. split; [exact Hrun|]. rewrite Hcalls, Hss. by split.
Defined.

(** * Further properties of the reports *)

Section DurationEdges.
Import SessionProcessor.

(** X17: the edges of [_format_duration].  A negative number of seconds
    is shown as it is, in seconds.  From one hour on the seconds are
    dropped: two durations with the same number of whole minutes give the
    same text. *)
Theorem format_duration_edges (s s' : Z) :
  (s < 0 → _format_duration s = pretty s +:+ " seconds")
  ∧ (3600 ≤ s → 3600 ≤ s' → s / 60 = s' / 60 →
     _format_duration s = _format_duration s').
Proof.
  unfold _format_duration. split.
  - intros Hneg. by rewrite (proj2 (Z.ltb_lt s 60)) by lia.
  - intros Hs Hs' Hmin.
    rewrite (proj2 (Z.ltb_ge s 60)), (proj2 (Z.ltb_ge s 3600)) by lia.
    rewrite (proj2 (Z.ltb_ge s' 60)), (proj2 (Z.ltb_ge s' 3600)) by lia.
    assert (Hh : s / 3600 = s' / 3600) by (Z.to_euclidean_division_equations; lia).
    assert (Hm : s mod 3600 / 60 = s' mod 3600 / 60)
      by (Z.to_euclidean_division_equations; lia).
    by rewrite Hh, Hm.
Qed.

Lemma format_duration_edges_witness :
  _format_duration (-90) = "-90 seconds"
  ∧ _format_duration 3659 = _format_duration 3600.
Proof.
  split.
  - rewrite (proj1 (format_duration_edges (-90) 0)) by lia. reflexivity.
  - apply (proj2 (format_duration_edges 3659 3600)); [lia|lia|reflexivity].
Defined.

End DurationEdges.

Section StringFacts.

Lemma string_length_app (a b : string) :
  String.length (a +:+ b) = (String.length a + String.length b)%nat.
Proof. induction a as [|c a IH]; simpl; [done|]. by rewrite IH. Qed.

Lemma substring_prefix_length (n : nat) (s : string) :
  String.length (String.substring 0 n s) = (n `min` String.length s)%nat.
Proof.
  revert s. induction n as [|n IH]; intros [|c s]; simpl; try done.
  by rewrite IH.
Qed.

(** [s[:n]] is the start of [s]. *)
Lemma substring_prefix_split (n : nat) (s : string) :
  ∃ rest,
    s = String.substring 0 n s +:+ rest
    ∧ String.length rest = (String.length s - n)%nat.
Proof.
  revert s. induction n as [|n IH]; intros [|c s]; simpl.
  - by exists "".
  - exists (String c s). split; [done|]. simpl. lia.
  - by exists "".
  - destruct (IH s) as (rest & Hs & Hlen). exists rest. split; [|done].
    change (String c s = String c (String.substring 0 n s +:+ rest)). by f_equal.
Qed.

End StringFacts.

Section SummarizeEvent.
Import SessionProcessor.

Variable py_repr : pyval → string.
Variable dict_slice_error : pyexn.

(** The label of a message's line. *)
Lemma summarize_conversation_event event :
  is_conversation_event event →
  _summarize_event py_repr dict_slice_error event
  = clip py_repr dict_slice_error
      (if String.eqb (event_type event) "user_message" then "User: " else "Assistant: ")
      (dict_get "content" (PStr "") (data event)).
Proof.
  unfold _summarize_event, is_conversation_event. cbv zeta. intros Hconv.
  destruct (String.eqb_spec (event_type event) "user_message") as [Hu|Hu]; [done|].
  destruct (String.eqb_spec (event_type event) "assistant_response") as [Ha|Ha]; [done|].
  tauto.
Qed.

(** Text is cut to 50 characters. *)
Lemma clip_text label s :
  ∃ line,
    clip py_repr dict_slice_error label (PStr s) = OkX line
    ∧ (String.length s ≤ 50 → line = label +:+ s)%nat
    ∧ (50 < String.length s →
       line = label +:+ String.substring 0 50 s +:+ "..."
       ∧ String.length (String.substring 0 50 s) = 50
       ∧ ∃ rest, rest ≠ "" ∧ s = String.substring 0 50 s +:+ rest)%nat
    ∧ (String.length line ≤ String.length label + 53)%nat.
Proof.
  unfold clip. destruct (50 <? String.length s)%nat eqn:Hlong.
  - apply Nat.ltb_lt in Hlong. eexists. split; [reflexivity|].
    repeat apply conj.
    + lia.
    + intros _. repeat apply conj; [done|rewrite substring_prefix_length; lia|].
      destruct (substring_prefix_split 50 s) as (rest & Hs & Hlen).
      exists rest. split; [|done]. intros ->. simpl in Hlen. lia.
    + rewrite !string_length_app, substring_prefix_length.
      change (String.length "...") with 3%nat. lia.
  - apply Nat.ltb_ge in Hlong. eexists. split; [reflexivity|].
    repeat apply conj.
    + done.
    + lia.
    + rewrite string_length_app. lia.
Qed.

(** A value without a length cannot be cut. *)
Lemma clip_unsized label v :
  (v = PNone ∨ (∃ b, v = PBool b) ∨ (∃ z, v = PInt z)) →
  ∃ msg, clip py_repr dict_slice_error label v = RaiseX (Builtin (TypeError msg)).
Proof. intros [->|[[b ->]|[z ->]]]; by eexists. Qed.

(** X18: the one-line summary of a message is short.  For a user message
    or an assistant response whose content is text (or is missing),
    [_summarize_event] returns the role's label followed by the whole
    text when it has at most 50 characters, and by its first 50
    characters and "..." when it is longer; the line is never longer
    than the label plus 53 characters. *)
Theorem summarize_event_text event s :
  is_conversation_event event →
  dict_get "content" (PStr "") (data event) = PStr s →
  let label := if String.eqb (event_type event) "user_message"
               then "User: " else "Assistant: " in
  ∃ line,
    _summarize_event py_repr dict_slice_error event = OkX line
    ∧ (String.length s ≤ 50 → line = label +:+ s)%nat
    ∧ (50 < String.length s →
       line = label +:+ String.substring 0 50 s +:+ "..."
       ∧ String.length (String.substring 0 50 s) = 50
       ∧ ∃ rest, rest ≠ "" ∧ s = String.substring 0 50 s +:+ rest)%nat
    ∧ (String.length line ≤ String.length label + 53)%nat.
Proof.
  intros Hconv Hcontent label.
  rewrite summarize_conversation_event by done.
  rewrite Hcontent. fold label.
  apply clip_text.
Qed.

(** X19: a message whose content has no length cannot be summarized.
    For a user message or an assistant response whose content is [None],
    a boolean or an integer, [_summarize_event] raises a [TypeError]. *)
Theorem summarize_event_unsized event v :
  is_conversation_event event →
  dict_get "content" (PStr "") (data event) = v →
  (v = PNone ∨ (∃ b, v = PBool b) ∨ (∃ z, v = PInt z)) →
  ∃ msg, _summarize_event py_repr dict_slice_error event = RaiseX (Builtin (TypeError msg)).
Proof.
  intros Hconv Hcontent Hv.
  rewrite summarize_conversation_event by done.
  rewrite Hcontent.
  by apply clip_unsized.
Qed.

End SummarizeEvent.

Lemma summarize_event_text_witness :
  SessionProcessor._summarize_event sample_repr sample_slice_error
    (mkEvent "s1" "user_message" 0
       [("content", PStr "0123456789012345678901234567890123456789012345678901234")] [])
  = OkX "User: 01234567890123456789012345678901234567890123456789...".
Proof.
  destruct (summarize_event_text sample_repr sample_slice_error
              (mkEvent "s1" "user_message" 0
                 [("content", PStr "0123456789012345678901234567890123456789012345678901234")] [])
              "0123456789012345678901234567890123456789012345678901234")
    as (line & -> & _ & Hlong & _); [by left|reflexivity|].
  f_equal. apply Hlong. simpl. lia.
Defined.

Lemma summarize_event_unsized_witness :
  ∃ msg,
    SessionProcessor._summarize_event sample_repr sample_slice_error
      (mkEvent "b1" "user_message" 51000000 [("content", PInt 5)] [])
    = RaiseX (Builtin (TypeError msg)).
Proof.
  apply (summarize_event_unsized sample_repr sample_slice_error _ (PInt 5));
    [by left|reflexivity|right; right; by eexists].
Defined.

Section MapFacts.

Lemma mapx_ok {A B} (f : A → resultx B) (l : list A) :
  Forall (λ x, ∃ y, f x = OkX y) l →
  ∃ ys, mapx f l = OkX ys ∧ Forall2 (λ x y, f x = OkX y) l ys.
Proof.
  induction 1 as [|x l [y Hy] Hall (ys & Hys & Hrel)]; simpl.
  - exists []. by split.
  - rewrite Hy, Hys. exists (y :: ys). split; [done|]. by constructor.
Qed.

Lemma mapx_raises {A B} (f : A → resultx B) (l : list A) :
  Exists (λ x, ∃ e, f x = RaiseX e) l → ∃ e, mapx f l = RaiseX e.
Proof.
  induction 1 as [x l [e He]|x l Hex (e & He)]; simpl.
  - rewrite He. by eexists.
  - destruct (f x); [|by eexists]. rewrite He. by eexists.
Qed.

(** The spans of a log whose timestamps ascend are not negative. *)
Lemma response_spans_nonneg events :
  timestamps_ascend events → Forall (λ span, 0 ≤ span) (SessionProcessor.response_spans events).
Proof.
  unfold timestamps_ascend. induction 1 as [|e1 events Hs IH Hhd]; simpl; [constructor|].
  destruct Hhd as [|e2 rest Hle]; [constructor|].
  destruct (_ && _); [|done]. constructor; [lia|done].
Qed.

End MapFacts.

Section Insights.
Import DatabaseManager SessionProcessor.

Variable py_repr : pyval → string.
Variable float : Type.
Variable total_seconds : Z → float.
Variable mean : list float → float.
Variable dict_slice_error : pyexn.

Local Abbreviation timeline_of := (timeline_entry py_repr dict_slice_error).
Local Abbreviation report :=
  (generate_insights_report py_repr float total_seconds mean dict_slice_error).

(** The report when the store is up: what the three reads return decides
    the rest. *)
Lemma generate_insights_report_up sid w :
  store_up w →
  let events := matching_events sid None (session_events w) in
  report sid w
  = (Ok match mapx timeline_of events with
        | RaiseX e => InsightsError float (str_pyexn e)
        | OkX entries =>
            match sessions w !! sid with
            | None => InsightsError float "'NoneType' object has no attribute 'get'"
            | Some row =>
                InsightsOk float
                  {| in_session_id := sid;
                     session_summary := summary row;
                     statistics := Some (stats_of events);
                     timeline := entries;
                     average_response_time_seconds :=
                       match total_seconds <$> response_spans events with
                       | [] => NInt float 0
                       | _ :: _ => NFloat float (mean (total_seconds <$> response_spans events))
                       end;
                     total_interactions := count_type "user_message" events;
                     tools_utilized := count_type "function_call" events |}
            end
        end, w).
Proof.
  intros Hup events. unfold generate_insights_report, try_catchx, liftx, of_resultx.
  cbv [mbind MX_bind bindx mret MX_ret retx raisex].
  rewrite get_session_up by done.
  rewrite get_session_events_up by done.
  rewrite get_session_statistics_up by done. fold events.
  destruct (mapx timeline_of events) as [entries|e]; [|done].
  by destruct (sessions w !! sid).
Qed.

(** X20: one message that cannot be summarized spoils the report.  With
    the store up, if the session's log holds a user message or an
    assistant response whose content is [None], a boolean or an integer,
    [generate_insights_report] returns an error dict instead of the
    report. *)
Theorem insights_spoiled_by_unsized_content sid event w :
  store_up w →
  event ∈ session_log sid w →
  is_conversation_event event →
  (let v := dict_get "content" (PStr "") (data event) in
   v = PNone ∨ (∃ b, v = PBool b) ∨ (∃ z, v = PInt z)) →
  ∃ msg, report sid w = (Ok (InsightsError float msg), w).
Proof.
  intros Hup Hin Hconv Hv. rewrite generate_insights_report_up by done. cbv zeta.
  destruct (mapx_raises timeline_of (matching_events sid None (session_events w)))
    as [e ->]; [|by eexists].
  apply Exists_exists. exists event. split.
  - unfold matching_events. by rewrite order_by_timestamp_perm.
  - destruct (clip_unsized py_repr dict_slice_error
                (if String.eqb (event_type event) "user_message"
                 then "User: " else "Assistant: ") _ Hv) as [msg Hmsg].
    unfold timeline_entry.
    rewrite summarize_conversation_event, Hmsg by done. by eexists.
Qed.

(** X21: there is no report for a session that is not there.  With the
    store up, no row and no events for the session id,
    [generate_insights_report] returns the error dict of the
    [AttributeError] that reading a field of [None] raises. *)
Theorem insights_absent_session sid w :
  store_up w →
  sessions w !! sid = None →
  session_log sid w = [] →
  report sid w
  = (Ok (InsightsError float "'NoneType' object has no attribute 'get'"), w).
Proof.
  intros Hup Hnone Hlog. rewrite generate_insights_report_up by done. cbv zeta.
  unfold matching_events. fold (session_log sid w). rewrite Hlog. simpl.
  by rewrite Hnone.
Qed.

Lemma summarize_event_ok event :
  (is_conversation_event event →
   ∃ s, dict_get "content" (PStr "") (data event) = PStr s) →
  ∃ line, _summarize_event py_repr dict_slice_error event = OkX line.
Proof.
  intros Htext. destruct (decide (is_conversation_event event)) as [Hconv|Hother].
  - destruct (Htext Hconv) as [s Hs].
    destruct (clip_text py_repr dict_slice_error
                (if String.eqb (event_type event) "user_message"
                 then "User: " else "Assistant: ") s) as (line & Hline & _).
    exists line. by rewrite summarize_conversation_event, Hs.
  - unfold _summarize_event, is_conversation_event in *. cbv zeta.
    destruct (String.eqb_spec (event_type event) "user_message"); [tauto|].
    destruct (String.eqb_spec (event_type event) "assistant_response"); [tauto|].
    destruct (String.eqb _ "function_call"); [by eexists|].
    destruct (String.eqb _ "function_result"); by eexists.
Qed.

(** The entries of a timeline carry the timestamps and the types of the
    events they were made from. *)
Lemma timeline_entries_follow events entries :
  Forall2 (λ e entry, timeline_of e = OkX entry) events entries →
  tl_timestamp <$> entries = timestamp <$> events
  ∧ tl_event_type <$> entries = event_type <$> events.
Proof.
  induction 1 as [|e entry events' entries' He Hrel [IHt IHk]]; [done|].
  unfold timeline_entry in He. destruct (_summarize_event _ _ e); [|done].
  injection He as <-. rewrite !fmap_cons, IHt, IHk. done.
Qed.

(** X22: the report of a session whose messages are text.  With the store
    up and the session there, when every user message and assistant
    response of the session has text for its content,
    [generate_insights_report] returns a report whose timeline has one
    entry per event of the session, in ascending order of timestamp, with
    the event's timestamp and type; its session summary is the stored
    one ([None] until the session is summarized); the interactions and
    tools count the user messages and the function calls; and the
    average response time is the integer 0 when no assistant response
    comes right after a user message, and otherwise the mean of the
    spans from each such user message to its response, in seconds,
    spans that are never negative. *)
Theorem insights_of_text_session sid row w :
  store_up w →
  sessions w !! sid = Some row →
  Forall (λ e, is_conversation_event e →
               ∃ s, dict_get "content" (PStr "") (data e) = PStr s) (session_log sid w) →
  ∃ events ins,
    get_session_events sid None w = (Ok events, w)
    ∧ report sid w = (Ok (InsightsOk float ins), w)
    ∧ session_summary float ins = summary row
    ∧ tl_timestamp <$> timeline float ins = timestamp <$> events
    ∧ tl_event_type <$> timeline float ins = event_type <$> events
    ∧ timestamps_ascend events
    ∧ total_interactions float ins = count_type "user_message" (session_log sid w)
    ∧ tools_utilized float ins = count_type "function_call" (session_log sid w)
    ∧ average_response_time_seconds float ins
      = match response_spans events with
        | [] => NInt float 0
        | _ :: _ => NFloat float (mean (total_seconds <$> response_spans events))
        end
    ∧ (average_response_time_seconds float ins = NInt float 0 ↔ response_spans events = [])
    ∧ Forall (λ span, 0 ≤ span) (response_spans events).
Proof.
  intros Hup Hrow Htext.
  exists (matching_events sid None (session_events w)).
  rewrite generate_insights_report_up, get_session_events_up by done. cbv zeta.
  set (events := matching_events sid None (session_events w)).
  assert (Hperm : events ≡ₚ session_log sid w) by apply order_by_timestamp_perm.
  assert (Hasc : timestamps_ascend events)
    by apply StronglySorted_Sorted, order_by_timestamp_sorted.
  destruct (mapx_ok timeline_of events) as (entries & -> & Hrel).
  { rewrite Hperm. eapply Forall_impl; [exact Htext|].
    intros e He. destruct (summarize_event_ok e He) as [line Hline].
    unfold timeline_entry. rewrite Hline. by eexists. }
  rewrite Hrow. eexists. split; [reflexivity|]. split; [reflexivity|]. simpl.
  repeat apply conj.
  - done.
  - by apply timeline_entries_follow.
  - by apply timeline_entries_follow.
  - done.
  - unfold count_type. by rewrite Hperm.
  - unfold count_type. by rewrite Hperm.
  - by destruct (response_spans events).
  - by destruct (response_spans events).
  - by destruct (response_spans events).
  - by apply response_spans_nonneg.
Qed.

End Insights.

Lemma insights_spoiled_by_unsized_content_witness :
  ∃ msg,
    SessionProcessor.generate_insights_report sample_repr (Z * Z) sample_total_seconds
      sample_mean sample_slice_error "b1" fleet_world
    = (Ok (SessionProcessor.InsightsError (Z * Z) msg), fleet_world).
Proof.
  apply (insights_spoiled_by_unsized_content sample_repr (Z * Z) sample_total_seconds
           sample_mean sample_slice_error "b1"
           (mkEvent "b1" "user_message" 51000000 [("content", PInt 5)] []) fleet_world).
  - reflexivity.
  - vm_compute. apply list_elem_of_here.
  - by left.
  - right; right. by eexists.
Defined.

Lemma insights_absent_session_witness :
  SessionProcessor.generate_insights_report sample_repr (Z * Z) sample_total_seconds
    sample_mean sample_slice_error "zz" fleet_world
  = (Ok (SessionProcessor.InsightsError (Z * Z) "'NoneType' object has no attribute 'get'"),
     fleet_world).
Proof.
  apply (insights_absent_session sample_repr (Z * Z) sample_total_seconds
           sample_mean sample_slice_error "zz" fleet_world); reflexivity.
Defined.

Lemma insights_of_text_session_witness :
  ∃ ins,
    SessionProcessor.generate_insights_report sample_repr (Z * Z) sample_total_seconds
      sample_mean sample_slice_error "a1" fleet_world
    = (Ok (SessionProcessor.InsightsOk (Z * Z) ins), fleet_world)
    ∧ SessionProcessor.session_summary (Z * Z) ins = Some "first"
    ∧ SessionProcessor.total_interactions (Z * Z) ins = 1%nat
    ∧ SessionProcessor.tools_utilized (Z * Z) ins = 1%nat
    ∧ SessionProcessor.average_response_time_seconds (Z * Z) ins
      = SessionProcessor.NInt (Z * Z) 0.
Proof.
  destruct (insights_of_text_session sample_repr (Z * Z) sample_total_seconds
              sample_mean sample_slice_error "a1"
              (mkSession "a1" "u1" 0 (Some 60000000) (Some 60) (Some "first") summarized)
              fleet_world)
    as (events & ins & Hevents & Hrun & Hsum & _ & _ & _ & Hu & Hf & Havg & _).
  - reflexivity.
  - reflexivity.
  - let l := eval vm_compute in (session_log "a1" fleet_world) in
    change (session_log "a1" fleet_world) with l.
    repeat constructor; intros _; by eexists.
  - exists ins. split; [exact Hrun|]. rewrite Hsum, Hu, Hf, Havg.
    vm_compute in Hevents. injection Hevents as <-. by repeat split.
Defined.

Lemma get_recent_sessions_up uid limit w :
  store_up w →
  DatabaseManager.get_recent_sessions uid limit w
  = (Ok (recent_rows uid limit (sessions w)), w).
Proof.
  intros Hup. unfold DatabaseManager.get_recent_sessions, sessions_select_recent.
  unfold_monad. by rewrite execute_up.
Qed.

Section Analysis.
Import DatabaseManager SessionProcessor.

Variable float : Type.
Variable truediv : Z → Z → float.

Local Abbreviation analyze := (analyze_session_patterns float truediv).

(** X23: no sessions, or no answer from the store.  When the store call
    of [analyze_session_patterns] fails, or it succeeds and finds no
    session of the user, the result is the error dict "No sessions found
    for user": the two cases give the same answer. *)
Theorem analyze_no_sessions uid limit w :
  store_fails w = true
  ∨ (store_fails w = false ∧ recent_rows uid limit (sessions w) = []) →
  analyze uid limit w
  = (Ok (AnalysisError float "No sessions found for user"), after_call w).
Proof.
  intros Hcase. unfold analyze_session_patterns. unfold_monad.
  rewrite get_recent_sessions_cases.
  destruct Hcase as [->|[-> ->]]; done.
Qed.

Lemma sum_durations_none rows :
  ∀ acc w,
    Exists (λ r, duration_seconds r = None) rows →
    sum_durations acc rows w
    = (Raise (TypeError "unsupported operand type(s) for +: 'int' and 'NoneType'"), w).
Proof.
  induction rows as [|r rows IH]; intros acc w Hex; [by apply Exists_nil in Hex|].
  simpl. destruct (duration_seconds r) as [d|] eqn:Hd; [|done].
  apply IH. apply Exists_cons in Hex as [Hr|Hex]; [congruence|done].
Qed.

Lemma sum_durations_some rows :
  ∀ acc w,
    Forall (λ r, is_Some (duration_seconds r)) rows →
    sum_durations acc rows w
    = (Ok (acc + foldr Z.add 0 (default 0 ∘ duration_seconds <$> rows)), w).
Proof.
  induction rows as [|r rows IH]; intros acc w Hall; simpl.
  - by rewrite Z.add_0_r.
  - apply Forall_cons in Hall as [[d Hd] Hall]. rewrite Hd.
    rewrite IH by done. do 2 f_equal.
    symmetry. apply Z.add_assoc.
Qed.

(** X24: one unfinished session spoils the analysis.  When the store
    answers and one of the user's recent sessions has no duration yet,
    [analyze_session_patterns] returns the error dict of the [TypeError]
    that adding [None] raises, after that one store call: no statistics
    are read. *)
Theorem analyze_unfinished_session uid limit row w :
  store_fails w = false →
  row ∈ recent_rows uid limit (sessions w) →
  duration_seconds row = None →
  analyze uid limit w
  = (Ok (AnalysisError float "unsupported operand type(s) for +: 'int' and 'NoneType'"),
     after_call w).
Proof.
  intros Hf Hin Hd. unfold analyze_session_patterns. unfold_monad.
  rewrite get_recent_sessions_cases, Hf.
  destruct (recent_rows uid limit (sessions w)) as [|first rows] eqn:Hrows;
    [by apply elem_of_nil in Hin|].
  rewrite sum_durations_none; [done|].
  apply Exists_exists. by exists row.
Qed.

Lemma mapM_statistics_up rows w :
  store_up w →
  mapM (λ session, get_session_statistics (session_id session)) rows w
  = (Ok ((λ r, Some (stats_of (matching_events (session_id r) None (session_events w))))
         <$> rows), w).
Proof.
  intros Hup. induction rows as [|r rows IH]; simpl; [done|]. unfold_monad.
  rewrite get_session_statistics_up by done.
  fold (mapM (λ session, get_session_statistics (session_id session)) rows).
  by rewrite IH.
Qed.

Lemma sum_stat_rows {A} (field : Stats → nat) (g : A → Stats) (rows : list A) :
  sum_stat field ((λ r, Some (g r)) <$> rows) = sum_list ((λ r, field (g r)) <$> rows).
Proof.
  unfold sum_stat.
  assert (Hgen : ∀ acc,
            foldl (λ acc st, acc + from_option field 0 st)%nat acc
              ((λ r, Some (g r)) <$> rows)
            = (acc + sum_list ((λ r, field (g r)) <$> rows))%nat).
  { induction rows as [|r rows IH]; intros acc; [simpl; lia|].
    rewrite !fmap_cons. cbn [foldl sum_list sum_list_with from_option].
    rewrite IH. unfold id. lia. }
  by rewrite Hgen.
Qed.

Lemma stats_of_session_counts sid w :
  user_messages (stats_of (matching_events sid None (session_events w)))
  = count_type "user_message" (session_log sid w)
  ∧ function_calls (stats_of (matching_events sid None (session_events w)))
    = count_type "function_call" (session_log sid w)
  ∧ assistant_responses (stats_of (matching_events sid None (session_events w)))
    = count_type "assistant_response" (session_log sid w).
Proof. unfold matching_events. simpl. by rewrite !count_type_ordered. Qed.

(** X25: the analysis of finished sessions.  With the store up, when the
    user has recent sessions and each of them has a duration,
    [analyze_session_patterns] returns an analysis over exactly those
    sessions: their number, the sum of their durations, the sum of their
    function calls, the id of the one that started last, and the three
    averages (of the durations, of the user messages and of the
    assistant responses) as the quotients of the sums by their number. *)
Theorem analyze_finished_sessions uid limit w :
  let rows := recent_rows uid limit (sessions w) in
  store_up w →
  rows ≠ [] →
  Forall (λ r, is_Some (duration_seconds r)) rows →
  ∃ a,
    analyze uid limit w = (Ok (AnalysisOk float a), w)
    ∧ an_user_id float a = uid
    ∧ sessions_analyzed float a = length rows
    ∧ total_duration_seconds float a
      = foldr Z.add 0 (default 0 ∘ duration_seconds <$> rows)
    ∧ total_function_calls float a
      = sum_list ((λ r, count_type "function_call" (session_log (session_id r) w)) <$> rows)
    ∧ most_recent_session float a = session_id <$> head rows
    ∧ average_duration_seconds float a
      = truediv (total_duration_seconds float a) (Z.of_nat (length rows))
    ∧ average_user_messages float a
      = truediv
          (Z.of_nat (sum_list ((λ r, count_type "user_message"
                                       (session_log (session_id r) w)) <$> rows)))
          (Z.of_nat (length rows))
    ∧ average_assistant_responses float a
      = truediv
          (Z.of_nat (sum_list ((λ r, count_type "assistant_response"
                                       (session_log (session_id r) w)) <$> rows)))
          (Z.of_nat (length rows)).
Proof.
  intros rows Hup Hne Hall. unfold analyze_session_patterns. unfold_monad.
  rewrite get_recent_sessions_up by done. fold rows.
  destruct rows as [|first rest] eqn:Hrows; [done|].
  rewrite sum_durations_some by done.
  rewrite mapM_statistics_up by done.
  eexists. split; [reflexivity|].
  cbn [an_user_id sessions_analyzed total_duration_seconds total_function_calls
       most_recent_session average_duration_seconds average_user_messages
       average_assistant_responses].
  rewrite !sum_stat_rows, length_fmap, Z.add_0_l.
  repeat apply conj; try done.
  - f_equal. apply list_fmap_ext. intros _ r _. apply stats_of_session_counts.
  - do 3 f_equal. apply list_fmap_ext. intros _ r _. apply stats_of_session_counts.
  - do 3 f_equal. apply list_fmap_ext. intros _ r _. apply stats_of_session_counts.
Qed.

End Analysis.

Lemma analyze_no_sessions_witness :
  SessionProcessor.analyze_session_patterns (Z * Z) sample_truediv "u1" 5
    (with_faults [true] fleet_world)
  = (Ok (SessionProcessor.AnalysisError (Z * Z) "No sessions found for user"), fleet_world)
  ∧ SessionProcessor.analyze_session_patterns (Z * Z) sample_truediv "nobody" 5 fleet_world
    = (Ok (SessionProcessor.AnalysisError (Z * Z) "No sessions found for user"), fleet_world).
Proof.
  split.
  - apply (analyze_no_sessions (Z * Z) sample_truediv "u1" 5 (with_faults [true] fleet_world)).
    by left.
  - apply (analyze_no_sessions (Z * Z) sample_truediv "nobody" 5 fleet_world).
    right. by split.
Defined.

Lemma analyze_unfinished_session_witness :
  SessionProcessor.analyze_session_patterns (Z * Z) sample_truediv "u1" 2 fleet_world
  = (Ok (SessionProcessor.AnalysisError (Z * Z)
           "unsupported operand type(s) for +: 'int' and 'NoneType'"), fleet_world).
Proof.
  apply (analyze_unfinished_session (Z * Z) sample_truediv "u1" 2
           (mkSession "a3" "u1" 200000000 None None None active) fleet_world).
  - reflexivity.
  - vm_compute. apply list_elem_of_here.
  - reflexivity.
Defined.

Lemma analyze_finished_sessions_witness :
  ∃ a,
    SessionProcessor.analyze_session_patterns (Z * Z) sample_truediv "u2" 5 fleet_world
    = (Ok (SessionProcessor.AnalysisOk (Z * Z) a), fleet_world)
    ∧ SessionProcessor.sessions_analyzed (Z * Z) a = 1%nat
    ∧ SessionProcessor.total_duration_seconds (Z * Z) a = 10
    ∧ SessionProcessor.most_recent_session (Z * Z) a = Some "b1"
    ∧ SessionProcessor.average_user_messages (Z * Z) a = (1, 1)
    ∧ SessionProcessor.average_assistant_responses (Z * Z) a = (0, 1).
Proof.
  destruct (analyze_finished_sessions (Z * Z) sample_truediv "u2" 5 fleet_world)
    as (a & Hrun & _ & Hn & Hd & _ & Hrecent & _ & Hmsgs & Hresps).
  - reflexivity.
  - vm_compute. discriminate.
  - let l := eval vm_compute in (recent_rows "u2" 5 (sessions fleet_world)) in
    change (recent_rows "u2" 5 (sessions fleet_world)) with l.
    repeat constructor. by eexists.
  - exists a. split; [exact Hrun|]. rewrite Hn, Hd, Hrecent, Hmsgs, Hresps.
    by repeat split.
Defined.

(** * Properties of the relay *)

Ltac unfold_mx :=
  cbv [mbind MX_bind bindx mret MX_ret retx raisex of_resultx].

Section LedgerUnderFaults.
Import DatabaseManager.

Lemma create_session_cases sid uid w :
  create_session sid uid w
  = if store_fails w then (Raise (APIError "store call failed"), after_call w)
    else match sessions w !! sid with
         | Some _ =>
             (Raise (APIError "duplicate key value violates unique constraint"),
              after_call w)
         | None =>
             (Ok (mkSession sid uid (clock w) None None None active),
              set_sessions (insert sid (mkSession sid uid (clock w) None None None active))
                (after_call w))
         end.
Proof.
  unfold create_session, sessions_insert. unfold_monad.
  rewrite execute_cases. destruct (store_fails w); [done|]. simpl.
  by destruct (sessions w !! sid).
Qed.

Lemma end_session_fails sid w :
  store_fails w = true →
  end_session sid w = (Raise (APIError "store call failed"), after_call w).
Proof.
  intros Hf. unfold end_session, sessions_select. unfold_monad.
  by rewrite execute_cases, Hf.
Qed.

End LedgerUnderFaults.

Section Startup.
Import Main.

(** The start-up stops where it constructs the session processor, one
    argument short, and the connection's world is as it was. *)
Lemma lifespan_raises r :
  ∃ msg, lifespan r = (RaiseX (Builtin (TypeError msg)), r).
Proof. by eexists. Qed.

Lemma lifespan_leaves_unserved r : unserved r → unserved (lifespan r).2.
Proof. done. Qed.

End Startup.

Section RelayLedger.
Import Main.

Lemma healthy_set_events sid f r :
  healthy sid r → healthy sid (set_world (set_session_events f) r).
Proof. by intros [??]. Qed.

Lemma healthy_set_clock sid t r :
  healthy sid r → healthy sid (set_world (set_clock t) r).
Proof. by intros [??]. Qed.

(** Logging in a healthy connection appends the event. *)
Lemma ledger_log_event_healthy sid ty d r :
  healthy sid r →
  ledger (DatabaseManager.log_event sid ty d None) r
  = (OkX (Some (mkEvent sid ty (clock (world r)) d [])),
     set_world (set_session_events (λ l, l ++ [mkEvent sid ty (clock (world r)) d []])) r).
Proof.
  intros [Hup [row Hrow]]. unfold ledger.
  rewrite log_event_up by done. simpl. rewrite Hrow. simpl.
  unfold set_world. by destruct r.
Qed.

(** The transport takes the frame or raises what it has for it. *)
Lemma send_json_cases f r :
  send_json f r
  = match send_failure r with
    | Some e => (RaiseX e, after_send r)
    | None => (OkX tt, push_frame f (after_send r))
    end.
Proof.
  unfold send_json, send_failure, after_send.
  destruct r as [w out [|[e|] l] sp oc calls sched]; reflexivity.
Qed.

Lemma extends_refl sid r : healthy sid r → extends sid r r.
Proof.
  intros Hh. repeat apply conj; try done; try apply Hh.
  - exists []. split; [by rewrite app_nil_r|by left].
  - exists []. split; [by rewrite app_nil_r|by left].
Qed.

(** What has happened since the arrival of a text has happened since
    before it: the arrival moves the clock only. *)
Lemma extends_since_arrival sid t r r' :
  extends sid (set_world (set_clock t) r) r' → extends sid r r'.
Proof. done. Qed.

End RelayLedger.

Section Exchange.
Import Main.

Variable py_repr : pyval → string.
Variable tool_repr : dict jval → string.
Variable subscript_error_text : pyval → string.
Variable completions_create : list ChatMessage → Stream.

Local Abbreviation handle :=
  (handle_user_message py_repr tool_repr subscript_error_text completions_create).

(** What one round with a text message does to a connection that has no
    completion client. *)
Lemma handle_text_unserved sid d s history r :
  healthy sid r →
  openai_client r = None →
  dict_lookup "content" d = Some (PStr s) →
  let logged := mkEvent sid "user_message" (clock (world r)) [("content", PStr s)] [] in
  let r1 := set_world (set_session_events (λ l, l ++ [logged])) r in
  handle sid (PDict d) history r
  = if contains "weather" (lower s) then
      match send_failure r with
      | Some e => (RaiseX e, after_send r1)
      | None =>
          (RaiseX (AttributeError "'NoneType' object has no attribute 'chat'"),
           push_frame (FunctionResultFrame "get_weather" weather_report) (after_send r1))
      end
    else (RaiseX (AttributeError "'NoneType' object has no attribute 'chat'"), r1).
Proof.
  intros Hhealthy Hclient Hcontent logged r1.
  unfold handle_user_message, subscript. unfold_mx. rewrite Hcontent.
  rewrite ledger_log_event_healthy by done.
  cbn [lower_of]. fold logged. fold r1.
  destruct (contains "weather" (lower s)).
  - rewrite send_json_cases. change (send_failure r1) with (send_failure r).
    destruct (send_failure r) as [e|]; [done|].
    unfold call_completions.
    change (openai_client (push_frame _ (after_send r1))) with (openai_client r).
    by rewrite Hclient.
  - unfold call_completions. change (openai_client r1) with (openai_client r).
    by rewrite Hclient.
Qed.

(** X26: a user message gets no answer.  In a healthy connection with no
    completion client (the state the start-up leaves), one round of the
    loop for a user message whose content is a text logs a
    [user_message] event with that text; exactly when the text contains
    "weather", in any case of letters, it sends the [function_result]
    frame of the weather tool, if the transport takes it; and then it
    raises: the exception of the transport if that frame was refused,
    otherwise the [AttributeError] of looking up [chat] on [None].  The
    completion client is never called, no token and no
    [response_complete] frame is sent, and no [assistant_response] event
    is logged. *)
Theorem user_message_unanswered sid d s history r :
  healthy sid r →
  openai_client r = None →
  dict_lookup "content" d = Some (PStr s) →
  let weather := contains "weather" (lower s) in
  let refused := if weather then send_failure r else None in
  ∃ r',
    handle sid (PDict d) history r
    = (RaiseX (default (AttributeError "'NoneType' object has no attribute 'chat'") refused),
       r')
    ∧ outbox r'
      = outbox r
        ++ (if weather
            then (if send_failure r is None
                  then [FunctionResultFrame "get_weather" weather_report] else [])
            else [])
    ∧ session_events (world r')
      = session_events (world r)
        ++ [mkEvent sid "user_message" (clock (world r)) [("content", PStr s)] []]
    ∧ completion_calls r' = completion_calls r
    ∧ sessions (world r') = sessions (world r)
    ∧ scheduled r' = scheduled r
    ∧ healthy sid r'.
Proof.
  intros Hhealthy Hclient Hcontent weather refused.
  rewrite (handle_text_unserved sid d s history r Hhealthy Hclient Hcontent).
  subst refused weather. destruct Hhealthy as [Hup Hsome].
  destruct (contains "weather" (lower s)).
  - destruct (send_failure r) as [e|]; eexists; (split; [reflexivity|]);
      simpl; rewrite ?app_nil_r; by repeat apply conj.
  - eexists. split; [reflexivity|]. simpl. rewrite ?app_nil_r. by repeat apply conj.
Qed.

(** A round with a user message, whatever the message holds, raises in a
    connection with no completion client, and has only extended it. *)
Lemma handle_unserved sid msg history r :
  healthy sid r →
  openai_client r = None →
  ∃ e r', handle sid msg history r = (RaiseX e, r') ∧ extends sid r r'.
Proof.
  intros Hh Hclient.
  assert (Hlogged : ∀ v frames,
            at_most_one is_weather_frame frames →
            ∀ r',
              world r'
              = set_session_events
                  (λ l, l ++ [mkEvent sid "user_message" (clock (world r))
                                [("content", v)] []]) (world r) →
              scheduled r' = scheduled r →
              completion_calls r' = completion_calls r →
              session_processor r' = session_processor r →
              openai_client r' = openai_client r →
              outbox r' = outbox r ++ frames →
              extends sid r r').
  { intros v frames Hframes r' Hw Hs Hc Hsp Hoc Hout. destruct Hh as [Hup Hsome].
    unfold extends, healthy. rewrite Hw. repeat apply conj; try done.
    - by exists frames.
    - eexists. split; [reflexivity|]. right. eexists. split; [done|]. by eexists _, _. }
  destruct msg as [| | | |l|d];
    try (eexists _, _; split; [reflexivity|by apply extends_refl]).
  destruct (dict_lookup "content" d) as [user_text|] eqn:Hcontent.
  2: { unfold handle_user_message, subscript. unfold_mx. rewrite Hcontent.
       eexists _, _. split; [reflexivity|by apply extends_refl]. }
  destruct user_text as [| | |s| |].
  4: { rewrite (handle_text_unserved sid d s history r Hh Hclient Hcontent).
       destruct (contains "weather" (lower s)); [destruct (send_failure r) as [e|]|];
         eexists _, _; (split; [reflexivity|]).
       - apply (Hlogged (PStr s) []); try done; [by left|by rewrite app_nil_r].
       - apply (Hlogged (PStr s) [FunctionResultFrame "get_weather" weather_report]);
           try done. right. by eexists.
       - apply (Hlogged (PStr s) []); try done; [by left|by rewrite app_nil_r]. }
  all: unfold handle_user_message, subscript; unfold_mx; rewrite Hcontent;
    rewrite ledger_log_event_healthy by done; cbn [lower_of];
    eexists _, _; (split; [reflexivity|]);
    (eapply (Hlogged _ []); try done; [by left|by rewrite app_nil_r]).
Qed.

End Exchange.

Section RelayLoop.
Import Main.

Variable py_repr : pyval → string.
Variable tool_repr : dict jval → string.
Variable subscript_error_text : pyval → string.
Variable completions_create : list ChatMessage → Stream.

Local Abbreviation loop :=
  (receive_loop py_repr tool_repr subscript_error_text completions_create).

Lemma is_user_message_spec ty :
  is_user_message ty = true ↔ ty = PStr "user_message".
Proof.
  destruct ty; simpl; try (split; [discriminate|discriminate]).
  rewrite String.eqb_eq. split; [by intros ->|by intros [= ->]].
Qed.

(** With no completion client the loop ends by an exception, at the
    latest with the first user message, in a connection that it has only
    extended. *)
Lemma loop_unserved sid script gone :
  ∀ history r,
    healthy sid r →
    openai_client r = None →
    ∃ e r', loop sid script gone history r = (RaiseX e, r') ∧ extends sid r r'.
Proof.
  induction script as [|item script IH]; intros history r Hh Hclient.
  - eexists _, _. split; [reflexivity|].
    apply (extends_since_arrival sid gone), extends_refl. by apply healthy_set_clock.
  - destruct item as [t msg|t error].
    2: { eexists _, _. split; [reflexivity|].
         apply (extends_since_arrival sid t), extends_refl. by apply healthy_set_clock. }
    cbn [receive_loop]. unfold_mx. unfold arrive.
    set (r1 := set_world (set_clock t) r).
    assert (Hh1 : healthy sid r1) by by apply healthy_set_clock.
    destruct (subscript subscript_error_text msg "type") as [ty|e] eqn:Hty.
    2: { eexists _, _. split; [reflexivity|].
         by apply (extends_since_arrival sid t), extends_refl. }
    destruct (is_user_message ty).
    + destruct (handle_unserved py_repr tool_repr subscript_error_text completions_create
                  sid msg history r1 Hh1 Hclient) as (e & r2 & -> & He2).
      eexists _, _. split; [reflexivity|]. by apply (extends_since_arrival sid t).
    + destruct (IH history r1 Hh1 Hclient) as (e & r3 & -> & He3).
      eexists _, _. split; [reflexivity|]. by apply (extends_since_arrival sid t).
Qed.

(** Texts that are passed over move the clock and nothing else, and the
    loop ends with the disconnect, at its clock reading. *)
Lemma loop_ignorable sid script gone :
  Forall ignorable script →
  ∀ history r,
    loop sid script gone history r
    = (RaiseX WebSocketDisconnect, set_world (set_clock gone) r).
Proof.
  induction 1 as [|item script Hitem Hall IH]; intros history r; [done|].
  destruct item as [t [| | | | |d]|t error]; try done.
  destruct Hitem as (ty & Hty & Hne).
  cbn [receive_loop]. unfold_mx. unfold arrive, subscript. rewrite Hty.
  assert (Hnot : is_user_message ty = false).
  { destruct (is_user_message ty) eqn:Hu; [|done].
    by apply is_user_message_spec in Hu. }
  rewrite Hnot. by rewrite IH.
Qed.

End RelayLoop.

Section RelayTeardown.
Import Main.

Local Abbreviation cleanup sid :=
  (_ ← ledger (DatabaseManager.end_session sid);
   _ ← ledger (DatabaseManager.log_event sid "session_end" [] None);
   create_task sid).

(** The [finally] block in a connection whose store is up and whose
    session has a row: the two writes, then the hand-over, which raises
    when there is no session processor. *)
Lemma teardown_healthy sid row r :
  store_up (world r) →
  sessions (world r) !! sid = Some row →
  let t := clock (world r) in
  let row' :=
    DatabaseManager.end_session_update_data t
      (DatabaseManager.duration_between (start_time row) t) row in
  let r' :=
    set_world
      (λ w, set_session_events (λ l, l ++ [mkEvent sid "session_end" t [] []])
              (set_sessions (insert sid row') w)) r in
  cleanup sid r
  = match session_processor r with
    | None =>
        (RaiseX (AttributeError "'NoneType' object has no attribute 'process_session'"), r')
    | Some _ => (OkX tt, add_scheduled sid r')
    end.
Proof.
  intros Hup Hrow t row' r'. unfold_mx. unfold ledger at 1.
  rewrite end_session_up by done. rewrite Hrow. cbv beta iota zeta.
  rewrite ledger_log_event_healthy.
  2: { split; [done|]. simpl. rewrite lookup_insert_eq. by eexists. }
  unfold create_task. cbn [session_processor set_world].
  by destruct (session_processor r).
Qed.

End RelayTeardown.

Section RelayEndpoint.
Import Main.

Variable py_repr : pyval → string.
Variable tool_repr : dict jval → string.
Variable subscript_error_text : pyval → string.
Variable completions_create : list ChatMessage → Stream.

Local Abbreviation endpoint :=
  (websocket_endpoint py_repr tool_repr subscript_error_text completions_create).
Local Abbreviation loop :=
  (receive_loop py_repr tool_repr subscript_error_text completions_create).

(** The connection when the loop starts, or the exception of the
    transport when it refuses the [session_start] frame, which is sent
    before the [try]. *)
Lemma endpoint_opening sid script gone r :
  store_up (world r) →
  sessions (world r) !! sid = None →
  let t0 := clock (world r) in
  let uid := "user_" +:+ last_chars 6 sid in
  let row := mkSession sid uid t0 None None None active in
  let r3 :=
    set_world
      (λ w, set_session_events
              (λ l, l ++ [mkEvent sid "session_start" t0 [("user_id", PStr uid)] []])
              (set_sessions (insert sid row) w)) r in
  healthy sid r3
  ∧ endpoint sid script gone r
    = match send_failure r with
      | Some e => (RaiseX e, after_send r3)
      | None =>
          try_except_finally
            (loop sid script gone [])
            (λ e, send_json (ErrorFrame (str_pyexn e)))
            (_ ← ledger (DatabaseManager.end_session sid);
             _ ← ledger (DatabaseManager.log_event sid "session_end" [] None);
             create_task sid)
            (push_frame (SessionStartFrame sid t0) (after_send r3))
      end.
Proof.
  intros Hup Hnone t0 uid row r3. split.
  { split; [done|]. simpl. rewrite lookup_insert_eq. by eexists. }
  unfold websocket_endpoint. cbv zeta. fold uid. unfold_mx. unfold ledger at 1.
  rewrite create_session_up by done. cbv zeta. rewrite Hnone. cbv beta iota zeta.
  rewrite ledger_log_event_healthy.
  2: { split; [done|]. simpl. rewrite lookup_insert_eq. by eexists. }
  unfold ledger at 1, utcnow. cbv beta iota zeta.
  rewrite send_json_cases.
  change (send_failure _) with (send_failure r).
  by destruct (send_failure r).
Qed.

(** X27: the teardown runs, and the hand-over never happens.  With the
    store up, the session id free and the two handles as the start-up
    leaves them, for every script of the client, every clock reading of
    its disconnect and every behaviour of the transport,
    [websocket_endpoint] raises, calls no completion client and hands no
    session to post-processing.  If the transport refuses the
    [session_start] frame, which is sent before the [try], its exception
    leaves the endpoint at once: the session stays active, with its
    [session_start] event and no teardown.  Otherwise the [finally]
    block runs: the session is completed, with the clock's last reading
    as its end time, and [session_end] is logged last, after at most one
    user message; the client got [session_start], at most one frame of
    the weather tool and at most one error frame, in that order; and the
    endpoint raises the [AttributeError] of looking up [process_session]
    on [None]. *)
Theorem teardown_without_handover sid script gone r :
  store_up (world r) →
  sessions (world r) !! sid = None →
  unserved r →
  let t0 := clock (world r) in
  let uid := "user_" +:+ last_chars 6 sid in
  let start := mkEvent sid "session_start" t0 [("user_id", PStr uid)] [] in
  ∃ e r',
    endpoint sid script gone r = (RaiseX e, r')
    ∧ scheduled r' = scheduled r
    ∧ completion_calls r' = completion_calls r
    ∧ match send_failure r with
      | Some refused =>
          e = refused
          ∧ outbox r' = outbox r
          ∧ session_events (world r') = session_events (world r) ++ [start]
          ∧ sessions (world r')
            = <[sid := mkSession sid uid t0 None None None active]> (sessions (world r))
      | None =>
          e = AttributeError "'NoneType' object has no attribute 'process_session'"
          ∧ (∃ frames errors,
               outbox r' = outbox r ++ [SessionStartFrame sid t0] ++ frames ++ errors
               ∧ at_most_one is_weather_frame frames
               ∧ at_most_one is_error_frame errors)
          ∧ (∃ events,
               session_events (world r')
               = session_events (world r) ++ [start] ++ events
                 ++ [mkEvent sid "session_end" (clock (world r')) [] []]
               ∧ at_most_one (is_user_message_of sid) events)
          ∧ sessions (world r')
            = <[sid := mkSession sid uid t0 (Some (clock (world r')))
                         (Some (DatabaseManager.duration_between t0 (clock (world r'))))
                         None completed]> (sessions (world r))
      end.
Proof.
  intros Hup Hnone [Hsp Hoc] t0 uid start.
  destruct (endpoint_opening sid script gone r Hup Hnone) as [Hh3 ->].
  fold t0 uid in Hh3 |- *. fold start in Hh3 |- *.
  set (row := mkSession sid uid t0 None None None active) in *.
  set (r3 := set_world _ r) in *.
  destruct (send_failure r) as [refused|]; [by eexists _, _|].
  set (r4 := push_frame _ _).
  assert (Hh4 : healthy sid r4) by exact Hh3.
  destruct (loop_unserved py_repr tool_repr subscript_error_text completions_create
              sid script gone [] r4 Hh4 Hoc)
    as (e & r5 & Hloop & [Hup5 Hsome5] & Hss5 & Hsched5 & Hcalls5 & Hsp5 & Hoc5
        & (frames & Hout5 & Hframes) & (events & Hevs5 & Hevents)).
  assert (Hrow5 : sessions (world r5) !! sid = Some row)
    by (rewrite Hss5; simpl; by rewrite lookup_insert_eq).
  unfold try_except_finally. rewrite Hloop.
  assert (Hclean : ∀ r6,
            world r6 = world r5 → completion_calls r6 = completion_calls r5 →
            scheduled r6 = scheduled r5 → session_processor r6 = session_processor r5 →
            ∃ r',
              (_ ← ledger (DatabaseManager.end_session sid);
               _ ← ledger (DatabaseManager.log_event sid "session_end" [] None);
               create_task sid) r6
              = (RaiseX (AttributeError
                           "'NoneType' object has no attribute 'process_session'"), r')
              ∧ outbox r' = outbox r6
              ∧ scheduled r' = scheduled r
              ∧ completion_calls r' = completion_calls r
              ∧ session_events (world r')
                = session_events (world r) ++ [start] ++ events
                  ++ [mkEvent sid "session_end" (clock (world r')) [] []]
              ∧ sessions (world r')
                = <[sid := mkSession sid uid t0 (Some (clock (world r')))
                             (Some (DatabaseManager.duration_between t0 (clock (world r'))))
                             None completed]> (sessions (world r))).
  { intros r6 Hw6 Hc6 Hs6 Hsp6.
    rewrite (teardown_healthy sid row r6) by (by rewrite Hw6).
    rewrite Hsp6, Hsp5. cbn [session_processor r4 push_frame after_send set_line r3 set_world].
    rewrite Hsp.
    eexists. split; [reflexivity|]. cbn [world outbox scheduled completion_calls set_world].
    rewrite Hw6, Hs6, Hsched5, Hc6, Hcalls5. simpl. rewrite Hevs5, Hss5. simpl.
    rewrite insert_insert_eq, <- !app_assoc. done. }
  assert (Hhandled : ∀ e0,
            ∃ r' errors,
              match send_json (ErrorFrame (str_pyexn e0)) r5 with
              | (OkX tt, r2) =>
                  (_ ← ledger (DatabaseManager.end_session sid);
                   _ ← ledger (DatabaseManager.log_event sid "session_end" [] None);
                   create_task sid) r2
              | (RaiseX e', r2) =>
                  match (_ ← ledger (DatabaseManager.end_session sid);
                         _ ← ledger (DatabaseManager.log_event sid "session_end" [] None);
                         create_task sid) r2 with
                  | (OkX tt, r3) => (RaiseX e', r3)
                  | (RaiseX e'', r3) => (RaiseX e'', r3)
                  end
              end
              = (RaiseX (AttributeError
                           "'NoneType' object has no attribute 'process_session'"), r')
              ∧ outbox r' = outbox r5 ++ errors
              ∧ at_most_one is_error_frame errors
              ∧ scheduled r' = scheduled r
              ∧ completion_calls r' = completion_calls r
              ∧ session_events (world r')
                = session_events (world r) ++ [start] ++ events
                  ++ [mkEvent sid "session_end" (clock (world r')) [] []]
              ∧ sessions (world r')
                = <[sid := mkSession sid uid t0 (Some (clock (world r')))
                             (Some (DatabaseManager.duration_between t0 (clock (world r'))))
                             None completed]> (sessions (world r))).
  { intros e0. rewrite send_json_cases. destruct (send_failure r5) as [e'|].
    - destruct (Hclean (after_send r5) eq_refl eq_refl eq_refl eq_refl)
        as (r' & -> & Hout & Hrest).
      exists r', []. split; [done|]. split; [by rewrite app_nil_r|]. split; [by left|done].
    - destruct (Hclean (push_frame (ErrorFrame (str_pyexn e0)) (after_send r5))
                  eq_refl eq_refl eq_refl eq_refl) as (r' & -> & Hout & Hrest).
      exists r', [ErrorFrame (str_pyexn e0)]. split; [done|]. split; [done|].
      split; [|done]. right. eexists. split; [done|]. by eexists. }
  assert (Hout4 : outbox r5 = outbox r ++ [SessionStartFrame sid t0] ++ frames)
    by (rewrite Hout5; subst r4; simpl; by rewrite <- app_assoc).
  destruct e as [e|msg|msg|msg| |msg];
    try (match goal with
         | |- context [send_json (ErrorFrame (str_pyexn ?e0)) r5] =>
             destruct (Hhandled e0)
               as (r' & errors & -> & Hout & Herrors & Hsched & Hcalls & Hevs & Hss)
         end;
         eexists _, r'; split; [reflexivity|]; split; [done|]; split; [done|];
         split; [done|]; split; [|by split; [by exists events|]];
         exists frames, errors; rewrite Hout, Hout4, <- !app_assoc; by repeat split).
  destruct (Hclean r5 eq_refl eq_refl eq_refl eq_refl)
    as (r' & -> & Hout & Hsched & Hcalls & Hevs & Hss).
  eexists _, r'. split; [reflexivity|]. split; [done|]. split; [done|].
  split; [done|]. split; [|by split; [by exists events|]].
  exists frames, []. rewrite Hout, Hout4, app_nil_r.
  repeat split; [done|by left].
Qed.

(** X28: texts of other types are passed over.  With the store up, the
    session id free, no session processor and a transport that takes the
    [session_start] frame, for a script made only of JSON objects whose
    "type" is there and is not "user_message" (the empty script
    included: a client that disconnects at once), [websocket_endpoint]
    sends the [session_start] frame and nothing else, never calls the
    completion client, logs [session_start] and [session_end] only,
    completes the session at the clock reading of the disconnect, and
    raises the [AttributeError] of the hand-over, with nothing handed to
    post-processing. *)
Theorem other_types_passed_over sid script gone r :
  Forall ignorable script →
  store_up (world r) →
  sessions (world r) !! sid = None →
  session_processor r = None →
  send_failure r = None →
  let t0 := clock (world r) in
  let uid := "user_" +:+ last_chars 6 sid in
  ∃ r',
    endpoint sid script gone r
    = (RaiseX (AttributeError "'NoneType' object has no attribute 'process_session'"), r')
    ∧ outbox r' = outbox r ++ [SessionStartFrame sid t0]
    ∧ completion_calls r' = completion_calls r
    ∧ session_events (world r')
      = session_events (world r)
        ++ [ mkEvent sid "session_start" t0 [("user_id", PStr uid)] [];
             mkEvent sid "session_end" gone [] [] ]
    ∧ sessions (world r') !! sid
      = Some (mkSession sid uid t0 (Some gone)
                (Some (DatabaseManager.duration_between t0 gone)) None completed)
    ∧ scheduled r' = scheduled r.
Proof.
  intros Hscript Hup Hnone Hsp Hsend t0 uid.
  destruct (endpoint_opening sid script gone r Hup Hnone) as [Hh3 ->].
  fold t0 uid in Hh3 |- *. rewrite Hsend.
  set (row := mkSession sid uid t0 None None None active) in *.
  unfold try_except_finally.
  rewrite (loop_ignorable py_repr tool_repr subscript_error_text completions_create
             sid script gone Hscript).
  rewrite (teardown_healthy sid row).
  - cbn [session_processor set_world push_frame after_send set_line]. rewrite Hsp.
    eexists. split; [reflexivity|]. simpl. rewrite lookup_insert_eq, <- app_assoc.
    by repeat split.
  - done.
  - simpl. by rewrite lookup_insert_eq.
Qed.

(** X29: without a session there is no teardown.  When
    [create_session] fails, because the store call fails or because the
    session id has a row already, [websocket_endpoint] raises at once:
    no frame is sent, both tables stay as they were, and nothing is
    handed to post-processing. *)
Theorem endpoint_create_fails sid script gone r :
  store_fails (world r) = true
  ∨ (store_fails (world r) = false ∧ is_Some (sessions (world r) !! sid)) →
  ∃ e r',
    endpoint sid script gone r = (RaiseX (Builtin (APIError e)), r')
    ∧ outbox r' = outbox r
    ∧ completion_calls r' = completion_calls r
    ∧ scheduled r' = scheduled r
    ∧ sessions (world r') = sessions (world r)
    ∧ session_events (world r') = session_events (world r).
Proof.
  intros Hcase. unfold websocket_endpoint. cbv zeta. unfold_mx. unfold ledger at 1.
  rewrite create_session_cases.
  destruct Hcase as [->|[-> [row ->]]]; by eexists _, _.
Qed.

(** X30: a teardown that cannot end the session stops there.  If the
    store answers the two calls of the opening and fails the next one,
    then for a script of texts that are passed over the [end_session] of
    the teardown raises and [websocket_endpoint] with it: the session
    stays active with no end time, no [session_end] event is logged, and
    the session is not handed to post-processing.  (This is with a
    transport that takes the [session_start] frame; one that refuses it
    has its exception leave the endpoint before the [try], with the same
    session row and events and no frame sent.) *)
Theorem teardown_stops_when_end_fails sid script gone r :
  Forall ignorable script →
  faults (world r) = [false; false; true] →
  sessions (world r) !! sid = None →
  let t0 := clock (world r) in
  let uid := "user_" +:+ last_chars 6 sid in
  ∃ r',
    endpoint sid script gone r
    = (RaiseX (default (Builtin (APIError "store call failed")) (send_failure r)), r')
    ∧ sessions (world r') !! sid = Some (mkSession sid uid t0 None None None active)
    ∧ session_events (world r')
      = session_events (world r)
        ++ [ mkEvent sid "session_start" t0 [("user_id", PStr uid)] [] ]
    ∧ outbox r'
      = outbox r ++ (if send_failure r is None then [SessionStartFrame sid t0] else [])
    ∧ scheduled r' = scheduled r.
Proof.
  intros Hscript Hfs Hnone t0 uid.
  unfold websocket_endpoint. cbv zeta. fold uid. unfold_mx. unfold ledger at 1.
  rewrite create_session_cases.
  assert (Hf1 : store_fails (world r) = false) by (unfold store_fails; by rewrite Hfs).
  rewrite Hf1, Hnone. cbv beta iota zeta. fold t0.
  unfold ledger at 1. rewrite log_event_cases.
  assert (Hf2 : ∀ w, faults w = [false; true] → store_fails w = false)
    by (intros w Hw; unfold store_fails; by rewrite Hw).
  rewrite Hf2 by (simpl; by rewrite Hfs).
  cbn [world set_world sessions set_sessions after_call set_faults].
  rewrite lookup_insert_eq. cbv beta iota zeta.
  unfold ledger at 1, utcnow. cbv beta iota zeta.
  rewrite send_json_cases. change (send_failure _) with (send_failure r).
  destruct (send_failure r) as [refused|].
  { eexists. split; [reflexivity|]. simpl. rewrite lookup_insert_eq, app_nil_r.
    by repeat split. }
  unfold try_except_finally.
  rewrite (loop_ignorable py_repr tool_repr subscript_error_text completions_create
             sid script gone Hscript).
  unfold_mx. unfold ledger at 1.
  rewrite end_session_fails.
  2: { unfold store_fails. simpl. by rewrite Hfs. }
  eexists. split; [reflexivity|]. simpl.
  rewrite lookup_insert_eq. by repeat split.
Qed.

End RelayEndpoint.

Lemma user_message_unanswered_witness :
  ∃ r',
    Main.handle_user_message sample_repr sample_tool_repr sample_subscript_error
      sample_completions "s1" (PDict weather_message) [] demo_relay
    = (RaiseX (AttributeError "'NoneType' object has no attribute 'chat'"), r')
    ∧ outbox r' = [ FunctionResultFrame "get_weather" weather_report ]
    ∧ completion_calls r' = [].
Proof.
  destruct (user_message_unanswered sample_repr sample_tool_repr sample_subscript_error
              sample_completions "s1" weather_message "What is the WEATHER?" [] demo_relay)
    as (r' & Hrun & Hout & _ & Hcalls & _).
  - split; [reflexivity|by eexists].
  - reflexivity.
  - reflexivity.
  - exists r'. split; [exact Hrun|]. split; [exact Hout|exact Hcalls].
Defined.

Lemma teardown_without_handover_witness :
  ∃ r',
    Main.websocket_endpoint sample_repr sample_tool_repr sample_subscript_error
      sample_completions "session-000001" sample_script 5000000 started_relay
    = (RaiseX (AttributeError "'NoneType' object has no attribute 'process_session'"), r')
    ∧ scheduled r' = []
    ∧ completion_calls r' = []
    ∧ observe "session-000001" (world r') = Some completed.
Proof.
  destruct (teardown_without_handover sample_repr sample_tool_repr sample_subscript_error
              sample_completions "session-000001" sample_script 5000000 started_relay)
    as (e & r' & Hrun & Hsched & Hcalls & He & _ & _ & Hss).
  - reflexivity.
  - reflexivity.
  - split; reflexivity.
  - exists r'. rewrite He in Hrun. split; [exact Hrun|]. split; [exact Hsched|].
    split; [exact Hcalls|]. unfold observe. rewrite Hss. by rewrite lookup_insert_eq.
Defined.

Lemma other_types_passed_over_witness :
  ∃ r',
    Main.websocket_endpoint sample_repr sample_tool_repr sample_subscript_error
      sample_completions "session-000001" ping_script 2500000 started_relay
    = (RaiseX (AttributeError "'NoneType' object has no attribute 'process_session'"), r')
    ∧ outbox r' = [SessionStartFrame "session-000001" 0]
    ∧ completion_calls r' = []
    ∧ sessions (world r') !! "session-000001"
      = Some (mkSession "session-000001" "user_000001" 0 (Some 2500000) (Some 2) None completed)
    ∧ scheduled r' = [].
Proof.
  destruct (other_types_passed_over sample_repr sample_tool_repr sample_subscript_error
              sample_completions "session-000001" ping_script 2500000 started_relay)
    as (r' & Hrun & Hout & Hcalls & _ & Hss & Hsched).
  - repeat constructor. exists (PStr "ping"). by split.
  - reflexivity.
  - reflexivity.
  - reflexivity.
  - reflexivity.
  - exists r'. by repeat split.
Defined.

Lemma endpoint_create_fails_witness :
  ∃ e r',
    Main.websocket_endpoint sample_repr sample_tool_repr sample_subscript_error
      sample_completions "s1" sample_script 5000000 demo_relay
    = (RaiseX (Builtin (APIError e)), r')
    ∧ outbox r' = []
    ∧ scheduled r' = []
    ∧ sessions (world r') !! "s1" = Some demo_session.
Proof.
  destruct (endpoint_create_fails sample_repr sample_tool_repr sample_subscript_error
              sample_completions "s1" sample_script 5000000 demo_relay)
    as (e & r' & Hrun & Hout & _ & Hsched & Hss & _).
  - right. split; [reflexivity|by eexists].
  - exists e, r'. split; [exact Hrun|]. rewrite Hss. by repeat split.
Defined.

Lemma teardown_stops_when_end_fails_witness :
  ∃ r',
    Main.websocket_endpoint sample_repr sample_tool_repr sample_subscript_error
      sample_completions "session-000001" ping_script 2500000
      (set_world (with_faults [false; false; true]) started_relay)
    = (RaiseX (Builtin (APIError "store call failed")), r')
    ∧ observe "session-000001" (world r') = Some active
    ∧ outbox r' = [SessionStartFrame "session-000001" 0]
    ∧ scheduled r' = [].
Proof.
  destruct (teardown_stops_when_end_fails sample_repr sample_tool_repr
              sample_subscript_error sample_completions "session-000001" ping_script 2500000
              (set_world (with_faults [false; false; true]) started_relay))
    as (r' & Hrun & Hss & _ & Hout & Hsched).
  - repeat constructor. exists (PStr "ping"). by split.
  - reflexivity.
  - reflexivity.
  - exists r'. split; [exact Hrun|]. unfold observe. rewrite Hss. by repeat split.
Defined.
